(** * Searchbase: a shallow embedding of the headless search core

    The development follows [src/index.js] of the Searchbase repository: the
    static query builders ([defaultQuery], [shouldQuery],
    [generateQueryOptions]), the instance with its setters, the uniform
    [_applyOptions] step, the request pipeline ([_fetchRequest],
    [triggerQuery]) and the constructor.

    Conventions of the embedding.
    - JavaScript values are the inductive [jsval]; numbers are IEEE 754
      binary64 values (Rocq's primitive floats), objects are finite maps from
      property names to values (stdpp's [gmap]), arrays are lists.
    - The data properties of a Searchbase instance ([this.size],
      [this.value], ...) are one such object, [this]; a property that was
      never assigned reads as [VUndefined], as in JavaScript.
    - Code that can throw returns a [result]; instance methods live in the
      monad [M], which threads the instance and collects the observable
      effects (callback invocations, console output, listener notifications,
      spawned promises) as a list of [event]s.
    - Promises are not run by the methods that create them: creating one
      emits [Spawn p], and [settle] is the transition that runs the handlers
      attached to [p] once the host has settled it.
    - What the host supplies (number/string conversions, [JSON.stringify],
      [btoa], the network, [Date.now], user hooks) is a parameter. Hooks are
      functions from their argument to the outcome of the promise they
      return. *)

From Stdlib Require Import Floats.PrimFloat ZArith Lia.
From stdpp Require Import base strings gmap list pretty.

#[local] Set Warnings "-register-all".
#[local] Open Scope string_scope.
#[local] Open Scope list_scope.

(** ** Values *)

Inductive jsval : Type :=
| VUndefined
| VNull
| VBool (b : bool)
| VNum (n : float)
| VStr (s : string)
| VArr (elems : list jsval)
| VObj (props : gmap string jsval)
| VError (message : string)      (* an Error instance *)
| VHost (handle : N).            (* an opaque host object: Response, Headers *)

(** An object literal, written as its list of properties. *)
Definition obj (l : list (string * jsval)) : jsval := VObj (list_to_map l).

(** ToBoolean. *)
Definition truthy (v : jsval) : bool :=
  match v with
  | VUndefined | VNull => false
  | VBool b => b
  | VNum n => negb (PrimFloat.is_nan n || PrimFloat.is_zero n)
  | VStr s => negb (String.eqb s "")
  | VArr _ | VObj _ | VError _ | VHost _ => true
  end.

(** [a || b] on values. *)
Definition js_or (a b : jsval) : jsval := if truthy a then a else b.

Definition typeof (v : jsval) : string :=
  match v with
  | VUndefined => "undefined"
  | VBool _ => "boolean"
  | VNum _ => "number"
  | VStr _ => "string"
  | VNull | VArr _ | VObj _ | VError _ | VHost _ => "object"
  end.

Definition is_undefined (v : jsval) : bool :=
  match v with VUndefined => true | _ => false end.

(** [v === ''] *)
Definition is_empty_string (v : jsval) : bool :=
  match v with VStr s => String.eqb s "" | _ => false end.

(** Reading a property of an object held as a map: a missing property is
    [undefined]. *)
Definition prop (o : gmap string jsval) (k : string) : jsval :=
  default VUndefined (o !! k).

(** ** Results of code that can throw *)

Inductive result (A : Type) : Type :=
| Ok (a : A)
| Throw (e : jsval).
Arguments Ok {A} a.
Arguments Throw {A} e.

Definition rbind {A B} (r : result A) (k : A -> result B) : result B :=
  match r with
  | Ok a => k a
  | Throw e => Throw e
  end.

Declare Scope result_scope.
Delimit Scope result_scope with res.
Notation "x <- r ;; k" := (rbind r (fun x => k))
  (at level 100, r at next level, right associativity) : result_scope.

Fixpoint rmapM {A B} (f : A -> result B) (l : list A) : result (list B) :=
  match l with
  | [] => Ok []
  | a :: l' =>
      match f a with
      | Throw e => Throw e
      | Ok b =>
          match rmapM f l' with
          | Throw e => Throw e
          | Ok bs => Ok (b :: bs)
          end
      end
  end.

Definition TypeError (what : string) : jsval :=
  VError ("TypeError: " +:+ what).

(** [v.k]: reading a property of [undefined] or [null] throws; values other
    than plain objects have no own data property of the names read here. *)
Definition get (v : jsval) (k : string) : result jsval :=
  match v with
  | VUndefined => Throw (TypeError "Cannot read properties of undefined")
  | VNull => Throw (TypeError "Cannot read properties of null")
  | VObj o => Ok (prop o k)
  | _ => Ok VUndefined
  end.

Definition char_string (c : Ascii.ascii) : jsval := VStr (String c "").

(** [v[i]] *)
Definition get_index (v : jsval) (i : nat) : result jsval :=
  match v with
  | VUndefined => Throw (TypeError "Cannot read properties of undefined")
  | VNull => Throw (TypeError "Cannot read properties of null")
  | VArr l => Ok (default VUndefined (l !! i))
  | VStr s => Ok (default VUndefined (char_string <$> String.get i s))
  | VObj o => Ok (prop o (pretty i))
  | _ => Ok VUndefined
  end.

(** The own enumerable properties of a value, as object spread and rest
    destructuring copy them. *)
Definition own_props (v : jsval) : gmap string jsval :=
  match v with
  | VObj o => o
  | VArr l => list_to_map (imap (fun i x => (pretty i, x)) l)
  | VStr s =>
      list_to_map (imap (fun i c => (pretty i, char_string c)) (String.list_ascii_of_string s))
  | _ => ∅
  end.

(** [{...a, ...b}]: the properties of [b] are written after those of [a]. *)
Definition spread (a b : gmap string jsval) : gmap string jsval := b ∪ a.

Section Host.

(** Number::toString and StringToNumber of the language. *)
Variable NumberToString : float -> string.
Variable StringToNumber : string -> float.

(** ToString, for values without user-defined [toString]. *)
Fixpoint ToString (v : jsval) : string :=
  match v with
  | VUndefined => "undefined"
  | VNull => "null"
  | VBool true => "true"
  | VBool false => "false"
  | VNum n => NumberToString n
  | VStr s => s
  | VArr l =>
      String.concat ","
        (map (fun e => match e with
                       | VUndefined | VNull => ""
                       | _ => ToString e
                       end) l)
  | VObj _ | VHost _ => "[object Object]"
  | VError m => "Error: " +:+ m
  end.

(** [Number(v)] *)
Definition Number (v : jsval) : float :=
  match v with
  | VUndefined => nan
  | VNull => zero
  | VBool true => one
  | VBool false => zero
  | VNum n => n
  | VStr s => StringToNumber s
  | VArr _ | VObj _ | VError _ | VHost _ => StringToNumber (ToString v)
  end.

(** ** QueryBuilder: the static methods *)

(** One entry of [dataFields.map(...)] in [shouldQuery]. *)
Definition field_entry (dataField : jsval) : result jsval :=
  if String.eqb (typeof dataField) "object" then
    (field <- get dataField "field" ;;
     weight <- get dataField "weight" ;;
     Ok (VStr (ToString field +:+
               (if truthy weight then "^" +:+ ToString weight else ""))))%res
  else Ok dataField.

Definition shouldQuery_defaults : jsval :=
  obj [("searchOperators", VBool false); ("queryFormat", VStr "or");
       ("fuzziness", VNum zero)].

Definition shouldQuery (value : jsval) (dataFields : list jsval) (options : jsval)
  : result jsval :=
  let options := if is_undefined options then shouldQuery_defaults else options in
  (fields <- rmapM field_entry dataFields ;;
   let fields := VArr fields in
   searchOperators <- get options "searchOperators" ;;
   if truthy searchOperators then
     queryFormat <- get options "queryFormat" ;;
     Ok (obj [("query", value); ("fields", fields);
              ("default_operator", queryFormat)])
   else
     queryFormat <- get options "queryFormat" ;;
     if match queryFormat with VStr s => String.eqb s "and" | _ => false end then
       Ok (VArr
             [obj [("multi_match",
                    obj [("query", value); ("fields", fields);
                         ("type", VStr "cross_fields"); ("operator", VStr "and")])];
              obj [("multi_match",
                    obj [("query", value); ("fields", fields);
                         ("type", VStr "phrase_prefix"); ("operator", VStr "and")])]])
     else
       fuzziness <- get options "fuzziness" ;;
       Ok (VArr
             [obj [("multi_match",
                    obj [("query", value); ("fields", fields);
                         ("type", VStr "best_fields"); ("operator", VStr "or");
                         ("fuzziness", fuzziness)])];
              obj [("multi_match",
                    obj [("query", value); ("fields", fields);
                         ("type", VStr "phrase_prefix"); ("operator", VStr "or")])]]))%res.

Definition defaultQuery (value options : jsval) : result jsval :=
  (finalQuery <-
     (if truthy value then
        dataField <- get options "dataField" ;;
        let fields := match dataField with
                      | VArr l => l
                      | _ => [dataField]
                      end in
        searchOperators <- get options "searchOperators" ;;
        if truthy searchOperators then
          q <- shouldQuery value fields options ;;
          Ok (obj [("simple_query_string", q)])
        else
          q <- shouldQuery value fields options ;;
          Ok (obj [("bool", obj [("should", q);
                                 ("minimum_should_match", VStr "1")])])
      else Ok VNull) ;;
   let finalQuery := if is_empty_string value then VNull else finalQuery in
   if truthy finalQuery then
     nestedField <- get options "nestedField" ;;
     if truthy nestedField then
       Ok (obj [("nested", obj [("path", nestedField); ("query", finalQuery)])])
     else Ok finalQuery
   else Ok finalQuery)%res.

(** A one-clause sort array, [[{ [field]: { order } }]]. *)
Definition sort_clause (field order : jsval) : jsval :=
  VArr [VObj {[ ToString field := obj [("order", order)] ]}].

Definition generateQueryOptions (options : gmap string jsval)
  : result (gmap string jsval) :=
  let finalOptions : gmap string jsval := ∅ in
  let finalOptions :=
    if is_undefined (prop options "size") then finalOptions
    else <["size" := prop options "size"]> finalOptions in
  let finalOptions :=
    if is_undefined (prop options "from") then finalOptions
    else <["from" := prop options "from"]> finalOptions in
  let finalOptions :=
    if truthy (prop options "includeFields") || truthy (prop options "excludeFields") then
      let source : gmap string jsval := ∅ in
      let source :=
        if truthy (prop options "includeFields")
        then <["includes" := prop options "includeFields"]> source else source in
      let source :=
        if truthy (prop options "excludeFields")
        then <["excludes" := prop options "excludeFields"]> source else source in
      <["_source" := VObj source]> finalOptions
    else finalOptions in
  if truthy (prop options "sortOptions") then
    (first <- get_index (prop options "sortOptions") 0 ;;
     dataField <- get first "dataField" ;;
     sortBy <- get first "sortBy" ;;
     Ok (<["sort" := sort_clause dataField sortBy]> finalOptions))%res
  else if truthy (prop options "sortBy") && truthy (prop options "sortByField") then
    Ok (<["sort" := sort_clause (prop options "sortByField") (prop options "sortBy")]>
          finalOptions)
  else Ok finalOptions.

(** ** Collaborators of the instance *)

(** The per-call options of a setter, [{triggerQuery, stateChanges}], read
    by the truth value of each property. *)
Record Options := {
  opt_triggerQuery : bool;
  opt_stateChanges : bool
}.

Definition defaultOptions : Options :=
  {| opt_triggerQuery := true; opt_stateChanges := true |}.

(** [{stateChanges: true}] *)
Definition defaultOption : Options :=
  {| opt_triggerQuery := false; opt_stateChanges := true |}.

(** Modelled from the spec: the Results class ([./Results]), which is not
    among the sources. A result set wraps the raw response; [setRaw]
    replaces it. Only this much is used by the core. *)
Record Results := {
  initial_data : jsval;
  raw : jsval
}.

Definition new_Results (data : jsval) : Results :=
  {| initial_data := data; raw := VUndefined |}.

Definition setRaw (r : Results) (rawResponse : jsval) : Results :=
  {| initial_data := initial_data r; raw := rawResponse |}.

(** The value of a property, as callbacks and listeners receive it. *)
Inductive propval : Type :=
| PVal (v : jsval)
| PResults (r : Results).

(** The outcome of a settled promise. *)
Inductive settled : Type :=
| Resolved (v : jsval)
| Rejected (e : jsval).

(** A user hook ([transformRequest], [transformResponse],
    [beforeValueChange]): its argument to the outcome of its promise. *)
Definition hook : Type := jsval -> settled.

(** What [_fetchRequest] has done by the time it returns its promise: the
    request it built, and the promise of [_handleTransformRequest]. *)
Record inflight := {
  requestOptions : jsval;
  transformedRequest : settled
}.

(** Promises whose handlers have yet to run. *)
Inductive pending : Type :=
| PendingValue (gate : settled) (value : jsval) (options : Options)
| PendingQuery (request : inflight) (options : Options)
| PendingSuggestions (request : inflight) (options : Options).

Inductive event : Type :=
| Call (callback : string) (args : list propval)
| ConsoleLog (message : string) (arg : jsval)
| ConsoleWarn (message : string) (arg : jsval)
| ConsoleError (arg : jsval)
| Notify (listener : nat) (key : string) (prev next : propval)
| Spawn (p : pending)
| Fetch (url : string) (request : jsval).

(** Modelled from the spec: the Observable class ([./observable]), which is
    not among the sources. [subscribe] registers a listener for all changes
    or for a set of keys; [unsubscribe] removes one listener, or all when
    none is given; [next] invokes, in subscription order, every listener
    whose subscription includes the key or has no filter, with the change
    map [{key: {prev, next}}]. *)
Record subscription := {
  listener : nat;
  keys : option (list string)
}.

Definition Observable : Type := list subscription.

Definition subscribe (fn : nat) (ks : option (list string)) (o : Observable)
  : Observable :=
  o ++ [{| listener := fn; keys := ks |}].

Definition unsubscribe (fn : option nat) (o : Observable) : Observable :=
  match fn with
  | None => []
  | Some f => List.filter (fun sub => negb (Nat.eqb (listener sub) f)) o
  end.

Definition subscribed (key : string) (sub : subscription) : bool :=
  match keys sub with
  | None => true
  | Some ks => existsb (String.eqb key) ks
  end.

Definition next (o : Observable) (key : string) (prev nxt : propval) : list event :=
  map (fun sub => Notify (listener sub) key prev nxt)
      (List.filter (subscribed key) o).

(** ** The instance *)

(** The change callbacks, assigned on the instance by its owner; only their
    presence matters to the core. *)
Record Callbacks := {
  onValueChange : bool;
  onResults : bool;
  onSuggestions : bool;
  onError : bool;
  onSuggestionsError : bool;
  onMicStatusChange : bool
}.

Definition no_callbacks : Callbacks :=
  {| onValueChange := false; onResults := false; onSuggestions := false;
     onError := false; onSuggestionsError := false; onMicStatusChange := false |}.

Record Searchbase := {
  this : gmap string jsval;
  results : Results;
  suggestions : Results;
  stateChanges : Observable;
  transformRequest : option hook;
  transformResponse : option hook;
  beforeValueChange : option hook;
  callbacks : Callbacks
}.

Definition with_this (s : Searchbase) (t : gmap string jsval) : Searchbase :=
  {| this := t; results := results s; suggestions := suggestions s;
     stateChanges := stateChanges s; transformRequest := transformRequest s;
     transformResponse := transformResponse s;
     beforeValueChange := beforeValueChange s; callbacks := callbacks s |}.

Definition with_results (s : Searchbase) (r : Results) : Searchbase :=
  {| this := this s; results := r; suggestions := suggestions s;
     stateChanges := stateChanges s; transformRequest := transformRequest s;
     transformResponse := transformResponse s;
     beforeValueChange := beforeValueChange s; callbacks := callbacks s |}.

Definition with_suggestions (s : Searchbase) (r : Results) : Searchbase :=
  {| this := this s; results := results s; suggestions := r;
     stateChanges := stateChanges s; transformRequest := transformRequest s;
     transformResponse := transformResponse s;
     beforeValueChange := beforeValueChange s; callbacks := callbacks s |}.

Definition with_stateChanges (s : Searchbase) (o : Observable) : Searchbase :=
  {| this := this s; results := results s; suggestions := suggestions s;
     stateChanges := o; transformRequest := transformRequest s;
     transformResponse := transformResponse s;
     beforeValueChange := beforeValueChange s; callbacks := callbacks s |}.

(** [this.k] and [this.k = v] *)
Definition field (s : Searchbase) (k : string) : jsval := prop (this s) k.

Definition assign (s : Searchbase) (k : string) (v : jsval) : Searchbase :=
  with_this s (<[k := v]> (this s)).

(** ** The monad of instance methods *)

Definition M (A : Type) : Type :=
  Searchbase -> result A * Searchbase * list event.

Definition ret {A} (a : A) : M A := fun s => (Ok a, s, []).

Definition bind {A B} (m : M A) (k : A -> M B) : M B :=
  fun s =>
    match m s with
    | (Ok a, s1, t1) =>
        match k a s1 with
        | (r, s2, t2) => (r, s2, t1 ++ t2)
        end
    | (Throw e, s1, t1) => (Throw e, s1, t1)
    end.

Definition lift {A} (r : result A) : M A := fun s => (r, s, []).

Definition self : M Searchbase := fun s => (Ok s, s, []).

Definition update (f : Searchbase -> Searchbase) : M unit :=
  fun s => (Ok tt, f s, []).

Definition emit (es : list event) : M unit := fun s => (Ok tt, s, es).

Definition when (b : bool) (m : M unit) : M unit := if b then m else ret tt.

(** [try { m } catch (e) { h e }], also the shape of [.then(..).catch(h)]
    around a handler that throws. *)
Definition try_catch {A} (m : M A) (h : jsval -> M A) : M A :=
  fun s =>
    match m s with
    | (Throw e, s1, t1) =>
        match h e s1 with
        | (r, s2, t2) => (r, s2, t1 ++ t2)
        end
    | done => done
    end.

Declare Scope M_scope.
Delimit Scope M_scope with M.
Notation "x <- m ;; k" := (bind m (fun x => k))
  (at level 100, m at next level, right associativity) : M_scope.
Notation "m ;; k" := (bind m (fun _ => k))
  (at level 100, right associativity) : M_scope.

(** ** The host: serialisation, base64, the network and the clock *)

Variable JSON_stringify : jsval -> jsval.
Variable btoa : string -> string.

(** A fetch response, as [_fetchRequest] reads it. *)
Record Response := {
  res_self : jsval;         (* the Response object *)
  res_status : Z;           (* res.status *)
  res_headers : jsval;      (* res.headers *)
  res_search_id : jsval;    (* res.headers.get('X-Search-Id') *)
  res_json : settled        (* the promise of res.json() *)
}.

Inductive fetched : Type :=
| Responded (res : Response)
| Failed (e : jsval).

Record Network := {
  fetch : string -> jsval -> fetched;
  Date_now : jsval
}.

(** A promise under construction: the first [resolve] or [reject] settles
    it, later calls do nothing. *)
Definition promise : Type := option settled.

Definition resolve (v : jsval) (p : promise) : promise :=
  match p with
  | None => Some (Resolved v)
  | Some _ => p
  end.

Definition reject (e : jsval) (p : promise) : promise :=
  match p with
  | None => Some (Rejected e)
  | Some _ => p
  end.

(** [Object.prototype.hasOwnProperty.call(v, k)], for a name [k] that is
    neither an index nor [length]. *)
Definition hasOwnProperty (v : jsval) (k : string) : bool :=
  bool_decide (is_Some (own_props v !! k)).

(** ** RequestPipeline *)

Definition _handleTransformResponse (s : Searchbase) (res : jsval) : settled :=
  match transformResponse s with
  | Some f => f res
  | None => Resolved res
  end.

Definition _handleTransformRequest (s : Searchbase) (requestOptions : jsval) : settled :=
  match transformRequest s with
  | Some f => f requestOptions
  | None => Resolved requestOptions
  end.

(** [_fetchRequest], up to the point where it returns its promise. *)
Definition _fetchRequest (requestBody : jsval) (s : Searchbase) : inflight :=
  let analyticsHeaders : gmap string jsval :=
    if truthy (field s "_searchId") then
      list_to_map [("X-Search-Id", field s "_searchId");
                   ("X-Search-Query", field s "value")]
    else if truthy (field s "value") then
      {[ "X-Search-Query" := field s "value" ]}
    else ∅ in
  let requestOptions :=
    obj [("method", VStr "POST");
         ("body", JSON_stringify requestBody);
         ("headers", VObj (spread (own_props (field s "headers")) analyticsHeaders))] in
  {| requestOptions := requestOptions;
     transformedRequest := _handleTransformRequest s requestOptions |}.

(** The rest of [_fetchRequest]: the handlers that settle its promise. *)
Definition _fetchRequest_then (net : Network) (f : inflight) : M promise :=
  (match transformedRequest f with
   | Rejected e =>
       emit [ConsoleWarn "transformRequest rejected the promise with " e] ;;
       ret (reject e None)
   | Resolved finalRequestOptions =>
       let timestamp := Date_now net in
       s <- self ;;
       let url := ToString (field s "url") +:+ "/" +:+
                  ToString (field s "index") +:+ "/_search" in
       emit [Fetch url finalRequestOptions] ;;
       match fetch net url finalRequestOptions with
       | Failed e => ret (reject e None)
       | Responded res =>
           let responseHeaders := res_headers res in
           when (truthy (res_headers res))
                (update (fun s => assign s "_searchId"
                                    (js_or (res_search_id res) VNull))) ;;
           if (500 <=? res_status res)%Z then ret (reject (res_self res) None)
           else if (400 <=? res_status res)%Z then ret (reject (res_self res) None)
           else
             match res_json res with
             | Rejected e => ret (reject e None)
             | Resolved data =>
                 s <- self ;;
                 match _handleTransformResponse s data with
                 | Rejected e =>
                     emit [ConsoleWarn "transformResponse rejected the promise with " e] ;;
                     ret (reject e None)
                 | Resolved transformedData =>
                     let p : promise := None in
                     let p :=
                       if truthy transformedData
                          && hasOwnProperty transformedData "error"
                       then reject transformedData p else p in
                     let response :=
                       VObj (<["_headers" := responseHeaders]>
                               (<["_timestamp" := timestamp]>
                                  (own_props transformedData))) in
                     ret (resolve response p)
                 end
             end
       end
   end)%M.

(** [triggerQuery] and [triggerSuggestionsQuery] start the request and
    attach their handlers to its promise. *)
Definition triggerQuery (options : option Options) : M unit :=
  let options := default defaultOption options in
  (s <- self ;;
   emit [Spawn (PendingQuery (_fetchRequest (field s "_query") s) options)])%M.

Definition triggerSuggestionsQuery (options : option Options) : M unit :=
  let options := default defaultOption options in
  (s <- self ;;
   emit [Spawn (PendingSuggestions
                  (_fetchRequest (field s "_suggestionsQuery") s) options)])%M.

(** ** The uniform apply step *)

Definition _applyOptions (options : Options) (key : string)
           (prevValue nextValue : propval) : M unit :=
  (s <- self ;;
   let cb := callbacks s in
   when (String.eqb key "micStatus" && onMicStatusChange cb)
        (emit [Call "onMicStatusChange" [prevValue; nextValue]]) ;;
   when (String.eqb key "value" && onValueChange cb)
        (emit [Call "onValueChange" [prevValue; nextValue]]) ;;
   when (String.eqb key "error" && onError cb)
        (emit [Call "onError" [prevValue]]) ;;
   when (String.eqb key "suggestionsError" && onSuggestionsError cb)
        (emit [Call "onSuggestionsError" [prevValue]]) ;;
   when (String.eqb key "results" && onResults cb)
        (emit [Call "onResults" [prevValue; nextValue]]) ;;
   when (String.eqb key "suggestions" && onSuggestions cb)
        (emit [Call "onSuggestions" [prevValue; nextValue]]) ;;
   when (opt_triggerQuery options) (triggerQuery None) ;;
   when (opt_stateChanges options)
        (emit [ConsoleLog "Property Changed" (VStr key)] ;;
         s <- self ;;
         emit (next (stateChanges s) key prevValue nextValue)))%M.

(** The options the promise handlers pass on:
    [{triggerQuery: false, stateChanges: options.stateChanges}]. *)
Definition stateChanges_only (options : Options) : Options :=
  {| opt_triggerQuery := false; opt_stateChanges := opt_stateChanges options |}.

(** A setter of a plain property:
    [const prev = this.k; this.k = v; this._applyOptions(options, k, prev, this.k)]. *)
Definition set_property (k : string) (v : jsval) (options : option Options) : M unit :=
  let options := default defaultOptions options in
  (s <- self ;;
   let prev := field s k in
   update (fun s => assign s k v) ;;
   s <- self ;;
   _applyOptions options k (PVal prev) (PVal (field s k)))%M.

Definition _setSuggestionsError (suggestionsError : jsval) (options : option Options)
  : M unit :=
  set_property "suggestionsError" suggestionsError options.

Definition _setError (error : jsval) (options : option Options) : M unit :=
  set_property "error" error options.

Definition setSize (size : jsval) (options : option Options) : M unit :=
  set_property "size" size options.

Definition setFrom (from : jsval) (options : option Options) : M unit :=
  set_property "from" from options.

Definition setFuzziness (fuzziness : jsval) (options : option Options) : M unit :=
  set_property "fuzziness" fuzziness options.

Definition setIncludeFields (includeFields : jsval) (options : option Options) : M unit :=
  set_property "includeFields" includeFields options.

Definition setExcludeFields (excludeFields : jsval) (options : option Options) : M unit :=
  set_property "excludeFields" excludeFields options.

Definition setSortBy (sortBy : jsval) (options : option Options) : M unit :=
  set_property "sortBy" sortBy options.

Definition setSortByField (sortByField : jsval) (options : option Options) : M unit :=
  set_property "sortByField" sortByField options.

Definition setNestedField (nestedField : jsval) (options : option Options) : M unit :=
  set_property "nestedField" nestedField options.

Definition setDataField (dataField : jsval) (options : option Options) : M unit :=
  set_property "dataField" dataField options.

Definition setHeaders (headers : jsval) (options : option Options) : M unit :=
  (s <- self ;;
   set_property "headers"
     (VObj (spread (own_props (field s "headers")) (own_props headers))) options)%M.

Definition setResults (data : jsval) (options : option Options) : M unit :=
  let options := default defaultOption options in
  when (truthy data)
    (s <- self ;;
     let prev := results s in
     update (fun s => with_results s (new_Results data)) ;;
     s <- self ;;
     _applyOptions (stateChanges_only options) "results"
                   (PResults prev) (PResults (results s)))%M.

Definition setSuggestions (data : jsval) (options : option Options) : M unit :=
  let options := default defaultOption options in
  when (truthy data)
    (s <- self ;;
     let prev := suggestions s in
     update (fun s => with_suggestions s (new_Results data)) ;;
     s <- self ;;
     _applyOptions (stateChanges_only options) "suggestions"
                   (PResults prev) (PResults (suggestions s)))%M.

(** [setValue]: the update itself, and the gate in front of it. *)
Definition performUpdate (value : jsval) (options : Options) : M unit :=
  set_property "value" value (Some options).

Definition beforeValueChange_rejected (e : jsval) : M unit :=
  emit [ConsoleWarn "beforeValueChange rejected the promise with " e].

Definition setValue (value : jsval) (options : option Options) : M unit :=
  let options := default defaultOptions options in
  (s <- self ;;
   match beforeValueChange s with
   | Some gate => emit [Spawn (PendingValue (gate value) value options)]
   | None => performUpdate value options
   end)%M.

(** [beforeValueChange(value).then(performUpdate).catch(..)] *)
Definition setValue_then (gate : settled) (value : jsval) (options : Options) : M unit :=
  match gate with
  | Resolved _ => try_catch (performUpdate value options) beforeValueChange_rejected
  | Rejected e => beforeValueChange_rejected e
  end.

(** ** Query recomputation *)

Definition match_all : jsval := obj [("match_all", obj [])].

(** The options object that both recomputations hand to [defaultQuery]. *)
Definition defaultQuery_options (s : Searchbase) : jsval :=
  obj [("dataField", field s "dataField");
       ("searchOperators", field s "searchOperators");
       ("queryFormat", field s "queryFormat");
       ("fuzziness", field s "fuzziness");
       ("nestedField", field s "nestedField")].

(** [query || Searchbase.defaultQuery(this.value, {...}) || {match_all: {}}] *)
Definition finalQuery (s : Searchbase) (query : jsval) : result jsval :=
  if truthy query then Ok query
  else
    (q <- defaultQuery (field s "value") (defaultQuery_options s) ;;
     Ok (js_or q match_all))%res.

Definition _updateQuery_options (s : Searchbase) : gmap string jsval :=
  list_to_map
    [("excludeFields", field s "excludeFields");
     ("includeFields", field s "includeFields");
     ("size", field s "size");
     ("from", field s "from");
     ("sortBy", field s "sortBy");
     ("sortByField", field s "sortByField");
     ("sortOptions", field s "sortOptions")].

Definition _updateQuery (query queryOptions : jsval) : M unit :=
  (s <- self ;;
   finalQueryOptions <- lift (generateQueryOptions (_updateQuery_options s)) ;;
   q <- lift (finalQuery s query) ;;
   update (fun s =>
     assign s "_query"
       (VObj (spread (spread {[ "query" := q ]} finalQueryOptions)
                     (own_props queryOptions)))))%M.

Definition _updateSuggestionsQuery (query queryOptions : jsval) : M unit :=
  (s <- self ;;
   finalQueryOptions <- lift (generateQueryOptions {[ "size" := VNum 10 ]}) ;;
   q <- lift (finalQuery s query) ;;
   update (fun s =>
     assign s "_suggestionsQuery"
       (VObj (spread (spread {[ "query" := q ]} finalQueryOptions)
                     (own_props queryOptions)))))%M.

(** An options object read as [Options]. *)
Definition Options_of (v : jsval) : result Options :=
  (t <- get v "triggerQuery" ;;
   c <- get v "stateChanges" ;;
   Ok {| opt_triggerQuery := truthy t; opt_stateChanges := truthy c |})%res.

Definition _syncQueryOptions (queryOptions : jsval) : M unit :=
  let queryOptions :=
    if is_undefined queryOptions
    then obj [("triggerQuery", VBool false); ("stateChanges", VBool true)]
    else queryOptions in
  (size <- lift (get queryOptions "size") ;;
   if is_undefined size then ret tt
   else
     options <- lift (Options_of queryOptions) ;;
     setSize size (Some options))%M.

(** [const { query, ...queryOptions } = queryTobeSet || {}], with the
    parameter's default [{}]. *)
Definition destructure_query (queryTobeSet : jsval) : jsval * jsval :=
  let queryTobeSet := if is_undefined queryTobeSet then obj [] else queryTobeSet in
  let source := js_or queryTobeSet (obj []) in
  (prop (own_props source) "query", VObj (delete "query" (own_props source))).

(** [set query(queryTobeSet)] *)
Definition set_query (queryTobeSet : jsval) : M unit :=
  let '(query, queryOptions) := destructure_query queryTobeSet in
  (_updateQuery query queryOptions ;;
   when (truthy queryOptions) (_syncQueryOptions VUndefined))%M.

(** [set suggestionsQuery(queryTobeSet)] *)
Definition set_suggestionsQuery (queryTobeSet : jsval) : M unit :=
  let '(query, queryOptions) := destructure_query queryTobeSet in
  _updateSuggestionsQuery query queryOptions.

Definition setQuery (query : jsval) (options : option Options) : M unit :=
  let options := default defaultOptions options in
  (s <- self ;;
   let prev := field s "_query" in
   set_query query ;;
   s <- self ;;
   _applyOptions options "query" (PVal prev) (PVal (field s "_query")))%M.

Definition setSuggestionsQuery (suggestionsQuery : jsval) (options : option Options)
  : M unit :=
  let options := default defaultOptions options in
  (s <- self ;;
   let prev := field s "_suggestionsQuery" in
   set_suggestionsQuery suggestionsQuery ;;
   s <- self ;;
   _applyOptions options "suggestionsQuery"
                 (PVal prev) (PVal (field s "_suggestionsQuery")))%M.

(** ** Promise handlers *)

Definition triggerQuery_catch (options : Options) (err : jsval) : M unit :=
  (_setError err (Some (stateChanges_only options)) ;;
   emit [ConsoleError err])%M.

(** The handlers of [triggerQuery]. [prev] and [this.results] are one
    object, which [setRaw] changes in place: the callback and the listeners
    receive the new result set in both positions. *)
Definition triggerQuery_then (net : Network) (f : inflight) (options : Options)
  : M unit :=
  (p <- _fetchRequest_then net f ;;
   match p with
   | Some (Resolved response) =>
       try_catch
         (update (fun s => with_results s (setRaw (results s) response)) ;;
          s <- self ;;
          _applyOptions (stateChanges_only options) "results"
                        (PResults (results s)) (PResults (results s)))
         (triggerQuery_catch options)
   | Some (Rejected err) => triggerQuery_catch options err
   | None => ret tt
   end)%M.

Definition triggerSuggestionsQuery_catch (options : Options) (err : jsval) : M unit :=
  (_setSuggestionsError err (Some (stateChanges_only options)) ;;
   emit [ConsoleError err])%M.

Definition triggerSuggestionsQuery_then (net : Network) (f : inflight)
           (options : Options) : M unit :=
  (p <- _fetchRequest_then net f ;;
   match p with
   | Some (Resolved response) =>
       try_catch
         (update (fun s => with_suggestions s (setRaw (suggestions s) response)) ;;
          s <- self ;;
          _applyOptions (stateChanges_only options) "suggestions"
                        (PResults (suggestions s)) (PResults (suggestions s)))
         (triggerSuggestionsQuery_catch options)
   | Some (Rejected err) => triggerSuggestionsQuery_catch options err
   | None => ret tt
   end)%M.

(** Running the handlers of a spawned promise. *)
Definition settle (net : Network) (p : pending) : M unit :=
  match p with
  | PendingValue gate value options => setValue_then gate value options
  | PendingQuery f options => triggerQuery_then net f options
  | PendingSuggestions f options => triggerSuggestionsQuery_then net f options
  end.

(** ** Subscriptions *)

Definition subscribeToStateChanges (fn : nat) (propertiesToSubscribe : option (list string))
  : M unit :=
  update (fun s => with_stateChanges s (subscribe fn propertiesToSubscribe (stateChanges s))).

Definition unsubscribeToStateChanges (fn : option nat) : M unit :=
  update (fun s => with_stateChanges s (unsubscribe fn (stateChanges s))).

(** ** The constructor *)

Record Config := {
  config : gmap string jsval;
  config_transformRequest : option hook;
  config_transformResponse : option hook;
  config_beforeValueChange : option hook
}.

Definition throw {A} (e : jsval) : M A := lift (Throw e).

Definition constructor (c : Config) : M unit :=
  let arg := prop (config c) in
  (when (negb (truthy (arg "index")))
        (throw (VError "Please provide a valid index.")) ;;
   when (negb (truthy (arg "url")))
        (throw (VError "Please provide a valid url.")) ;;
   when (negb (truthy (arg "dataField")))
        (throw (VError "Please provide a valid data field.")) ;;
   update (fun s => assign s "index" (arg "index")) ;;
   update (fun s => assign s "url" (arg "url")) ;;
   update (fun s => assign s "analytics" (js_or (arg "analytics") (VBool false))) ;;
   update (fun s => assign s "dataField" (arg "dataField")) ;;
   update (fun s => assign s "credentials" (js_or (arg "credentials") (VStr ""))) ;;
   update (fun s => assign s "nestedField" (js_or (arg "nestedField") (VStr ""))) ;;
   update (fun s => assign s "updateOn" (js_or (arg "updateOn") (VStr "change"))) ;;
   update (fun s => assign s "queryFormat" (js_or (arg "queryFormat") (VStr "or"))) ;;
   update (fun s => assign s "voiceSearch" (js_or (arg "voiceSearch") (VBool false))) ;;
   update (fun s => assign s "fuzziness" (js_or (arg "fuzziness") (VNum 0))) ;;
   update (fun s => assign s "searchOperators"
                           (js_or (arg "searchOperators") (VBool false))) ;;
   update (fun s => assign s "size" (js_or (VNum (Number (arg "size"))) (VNum 10))) ;;
   update (fun s => assign s "from" (js_or (VNum (Number (arg "from"))) (VNum 0))) ;;
   update (fun s => assign s "sortBy" (js_or (arg "sortBy") (VStr ""))) ;;
   update (fun s => assign s "includeFields"
                           (js_or (arg "includeFields") (VArr [VStr "*"]))) ;;
   update (fun s => assign s "excludeFields" (js_or (arg "excludeFields") (VArr []))) ;;
   update (fun s => assign s "sortOptions" (js_or (arg "sortOptions") VNull)) ;;
   update (fun s =>
     {| this := this s; results := results s; suggestions := suggestions s;
        stateChanges := [];
        transformRequest := config_transformRequest c;
        transformResponse := config_transformResponse c;
        beforeValueChange := config_beforeValueChange c;
        callbacks := callbacks s |}) ;;
   update (fun s => with_suggestions s (new_Results (arg "suggestions"))) ;;
   update (fun s => with_results s (new_Results (arg "results"))) ;;
   update (fun s => assign s "headers"
                           (obj [("Accept", VStr "application/json");
                                 ("Content-Type", VStr "application/json")])) ;;
   s <- self ;;
   when (truthy (field s "credentials"))
        (update (fun s =>
           assign s "headers"
             (VObj (<["Authorization" :=
                        VStr ("Basic " +:+ btoa (ToString (field s "credentials")))]>
                      (own_props (field s "headers")))))) ;;
   when (truthy (arg "headers"))
        (setHeaders (arg "headers")
           (Some {| opt_triggerQuery := false; opt_stateChanges := false |})) ;;
   when (truthy (arg "value"))
        (setValue (arg "value")
           (Some {| opt_triggerQuery := negb (truthy (arg "query"));
                    opt_stateChanges := true |})) ;;
   (if truthy (arg "query") then
      setQuery (arg "query")
        (Some {| opt_triggerQuery := true; opt_stateChanges := false |})
    else _updateQuery VUndefined VUndefined) ;;
   when (truthy (arg "suggestionsQuery"))
        (setSuggestionsQuery (arg "query")
           (Some {| opt_triggerQuery := true; opt_stateChanges := false |})))%M.

(** The instance before the constructor body runs. Its result sets are
    placeholders: the body replaces them before anything reads them. *)
Definition blank : Searchbase :=
  {| this := ∅;
     results := new_Results VUndefined;
     suggestions := new_Results VUndefined;
     stateChanges := [];
     transformRequest := None;
     transformResponse := None;
     beforeValueChange := None;
     callbacks := no_callbacks |}.

(** [new Searchbase(c)] *)
Definition new_Searchbase (c : Config) : result unit * Searchbase * list event :=
  constructor c blank.

(** ** Voice search *)

(** [String.prototype.trim] *)
Variable trim : string -> string.

(** [MIC_STATUS] *)
Definition MIC_STATUS_inactive : jsval := VStr "INACTIVE".
Definition MIC_STATUS_stopped : jsval := VStr "STOPPED".
Definition MIC_STATUS_active : jsval := VStr "ACTIVE".
Definition MIC_STATUS_denied : jsval := VStr "DENIED".

(** [v === c] for a string constant [c]. *)
Definition is_string (v : jsval) (c : string) : bool :=
  match v with VStr s => String.eqb s c | _ => false end.

Definition micStatus (s : Searchbase) : jsval := field s "_micStatus".
Definition micInstance (s : Searchbase) : jsval := field s "_micInstance".
Definition micActive (s : Searchbase) : bool := is_string (field s "_micStatus") "ACTIVE".
Definition micStopped (s : Searchbase) : bool := is_string (field s "_micStatus") "STOPPED".
Definition micInactive (s : Searchbase) : bool :=
  is_string (field s "_micStatus") "INACTIVE".
Definition micDenied (s : Searchbase) : bool := is_string (field s "_micStatus") "DENIED".

Definition _setMicStatus (status : jsval) (options : option Options) : M unit :=
  let options := default defaultOptions options in
  (s <- self ;;
   let prevStatus := field s "_micStatus" in
   update (fun s => assign s "_micStatus" status) ;;
   s <- self ;;
   _applyOptions options "micStatus" (PVal prevStatus) (PVal (field s "_micStatus")))%M.

(** The recogniser is a host object. [_micInstance] holds it as the object
    of the data properties the code has assigned to it. Calling one of its
    methods is an event of the trace; the call throws when an assigned
    property hides the method, since no value of [jsval] is a function. *)
Definition call_method (instance : jsval) (method : string) : M unit :=
  if hasOwnProperty instance method
  then throw (TypeError ("this._micInstance." +:+ method +:+ " is not a function"))
  else emit [Call ("_micInstance." +:+ method) []].

(** [this._micInstance.k = v] *)
Definition assign_micInstance (k : string) (v : jsval) : M unit :=
  update (fun s =>
    assign s "_micInstance" (VObj (<[k := v]> (own_props (field s "_micInstance"))))).

Definition _stopMic : M unit :=
  (s <- self ;;
   when (truthy (field s "_micInstance"))
     (call_method (field s "_micInstance") "stop" ;;
      update (fun s => assign s "_micInstance" VNull) ;;
      _setMicStatus MIC_STATUS_inactive None))%M.

(** [results && results[0] && results[0].isFinal] *)
Definition isFinal (results : jsval) : result bool :=
  if truthy results then
    (first <- get_index results 0 ;;
     if truthy first then
       (final <- get first "isFinal" ;; Ok (truthy final))
     else Ok false)%res
  else Ok false.

(** The condition of [_handleVoiceResults], with the transcript it lets
    through: [results[0][0].transcript.trim()], when everything before it
    and itself are truthy. A truthy transcript that is not a string has no
    [trim] to call. *)
Definition transcript (results : jsval) : result (option string) :=
  (final <- isFinal results ;;
   if final then
     (first <- get_index results 0 ;;
      alternative <- get_index first 0 ;;
      if truthy alternative then
        (text <- get alternative "transcript" ;;
         if truthy text then
           match text with
           | VStr t => Ok (if truthy (VStr (trim t)) then Some (trim t) else None)
           | _ => Throw (TypeError "results[0][0].transcript.trim is not a function")
           end
         else Ok None)
      else Ok None)
   else Ok None)%res.

Definition _handleVoiceResults (results : jsval) : M unit :=
  (spoken <- lift (transcript results) ;;
   match spoken with
   | Some t => setValue (VStr t) None
   | None => ret tt
   end)%M.

(** The three handlers that [onMicClick] installs on the recogniser. They
    are closures over the [options] of that click; the host runs them. *)
Definition onstart (options : Options) : M unit :=
  _setMicStatus MIC_STATUS_active (Some options).

Definition onresult (results : jsval) : M unit :=
  (final <- lift (isFinal results) ;;
   when final _stopMic ;;
   _handleVoiceResults results)%M.

Definition onerror (options : Options) (e : jsval) : M unit :=
  (error <- lift (get e "error") ;;
   (if is_string error "no-speech" || is_string error "audio-capture"
    then _setMicStatus MIC_STATUS_inactive (Some options)
    else if is_string error "not-allowed"
    then _setMicStatus MIC_STATUS_denied (Some options)
    else ret tt) ;;
   emit [ConsoleError e])%M.

(** [onMicClick]. [SpeechRecognition] tells whether [window] has the
    constructor of that name; [new SpeechRecognition()] is a recogniser
    without assigned properties. Installing the three handlers overwrites
    whatever [micOptions] put under their names. *)
Definition onMicClick (SpeechRecognition : bool) (micOptions : jsval)
           (options : option Options) : M unit :=
  let micOptions := if is_undefined micOptions then obj [] else micOptions in
  let options := default defaultOptions options in
  (s <- self ;;
   let prevStatus := field s "_micStatus" in
   when (SpeechRecognition && negb (is_string prevStatus "DENIED"))
     (when (is_string prevStatus "ACTIVE")
           (_setMicStatus MIC_STATUS_inactive (Some options)) ;;
      s <- self ;;
      if truthy (field s "_micInstance") then _stopMic
      else
        (update (fun s => assign s "_micInstance" (obj [])) ;;
         assign_micInstance "continuous" (VBool true) ;;
         assign_micInstance "interimResults" (VBool true) ;;
         update (fun s =>
           assign s "_micInstance"
             (VObj (spread (own_props (field s "_micInstance")) (own_props micOptions)))) ;;
         s <- self ;;
         call_method (field s "_micInstance") "start" ;;
         update (fun s =>
           assign s "_micInstance"
             (VObj (delete "onstart" (delete "onresult" (delete "onerror"
                      (own_props (field s "_micInstance"))))))))))%M.

(** * Properties *)

(** ** Objects and instance fields *)

Lemma prop_insert_eq (o : gmap string jsval) k v : prop (<[k := v]> o) k = v.
Proof. unfold prop. by rewrite lookup_insert_eq. Qed.

Lemma prop_insert_ne (o : gmap string jsval) k k' v :
  k ≠ k' -> prop (<[k := v]> o) k' = prop o k'.
Proof. intros H. unfold prop. by rewrite lookup_insert_ne. Qed.

Lemma field_assign_eq s k v : field (assign s k v) k = v.
Proof. apply prop_insert_eq. Qed.

Lemma field_assign_ne s k k' v : k ≠ k' -> field (assign s k v) k' = field s k'.
Proof. apply prop_insert_ne. Qed.

Lemma spread_lookup (a b : gmap string jsval) k :
  spread a b !! k = match b !! k with Some v => Some v | None => a !! k end.
Proof.
  unfold spread. rewrite lookup_union. destruct (b !! k), (a !! k); reflexivity.
Qed.

(** Case analysis on every condition of the goal. *)
Ltac case_conditions :=
  repeat match goal with |- context [if ?b then _ else _] => destruct b end.

(** ** Running the monad *)

Lemma bind_ret {A B} (a : A) (k : A -> M B) s : bind (ret a) k s = k a s.
Proof. unfold bind, ret. by destruct (k a s) as [[? ?] ?]. Qed.

Lemma bind_self {B} (k : Searchbase -> M B) s : bind self k s = k s s.
Proof. unfold bind, self. by destruct (k s s) as [[? ?] ?]. Qed.

Lemma bind_update {B} f (k : unit -> M B) s : bind (update f) k s = k tt (f s).
Proof. unfold bind, update. by destruct (k tt (f s)) as [[? ?] ?]. Qed.

Lemma bind_emit {B} es (k : unit -> M B) s :
  bind (emit es) k s = match k tt s with (r, s', t) => (r, s', es ++ t) end.
Proof. reflexivity. Qed.

Lemma bind_lift_Ok {A B} (a : A) (k : A -> M B) s : bind (lift (Ok a)) k s = k a s.
Proof. unfold bind, lift. by destruct (k a s) as [[? ?] ?]. Qed.

Lemma bind_lift_Throw {A B} e (k : A -> M B) s :
  bind (lift (Throw e)) k s = (Throw e, s, []).
Proof. reflexivity. Qed.

Lemma bind_when_emit {B} (b : bool) es (k : unit -> M B) s :
  bind (when b (emit es)) k s =
  match k tt s with (r, s', t) => (r, s', (if b then es else []) ++ t) end.
Proof.
  destruct b; [reflexivity|]. unfold when. rewrite bind_ret.
  by destruct (k tt s) as [[? ?] ?].
Qed.

(** What [_applyOptions] does: the callback of the key, then the request,
    then the notification. *)
Definition callback_events (cb : Callbacks) (key : string) (prev nxt : propval)
  : list event :=
  (if String.eqb key "micStatus" && onMicStatusChange cb
   then [Call "onMicStatusChange" [prev; nxt]] else []) ++
  (if String.eqb key "value" && onValueChange cb
   then [Call "onValueChange" [prev; nxt]] else []) ++
  (if String.eqb key "error" && onError cb
   then [Call "onError" [prev]] else []) ++
  (if String.eqb key "suggestionsError" && onSuggestionsError cb
   then [Call "onSuggestionsError" [prev]] else []) ++
  (if String.eqb key "results" && onResults cb
   then [Call "onResults" [prev; nxt]] else []) ++
  (if String.eqb key "suggestions" && onSuggestions cb
   then [Call "onSuggestions" [prev; nxt]] else []).

Definition request_events (options : Options) (s : Searchbase) : list event :=
  if opt_triggerQuery options
  then [Spawn (PendingQuery (_fetchRequest (field s "_query") s) defaultOption)]
  else [].

Definition notification_events (options : Options) (s : Searchbase)
           (key : string) (prev nxt : propval) : list event :=
  if opt_stateChanges options
  then ConsoleLog "Property Changed" (VStr key) :: next (stateChanges s) key prev nxt
  else [].

Lemma _applyOptions_run options key prev nxt s :
  _applyOptions options key prev nxt s =
  (Ok tt, s,
   callback_events (callbacks s) key prev nxt ++
   request_events options s ++
   notification_events options s key prev nxt).
Proof.
  unfold _applyOptions. rewrite bind_self, !bind_when_emit.
  unfold callback_events, request_events, notification_events, triggerQuery.
  destruct options as [[|] [|]]; cbn -[String.eqb next _fetchRequest];
    rewrite <- ?app_assoc, ?app_nil_r; reflexivity.
Qed.

Lemma set_property_run k v options s :
  set_property k v (Some options) s =
  (Ok tt, assign s k v,
   callback_events (callbacks s) k (PVal (field s k)) (PVal v) ++
   request_events options (assign s k v) ++
   notification_events options s k (PVal (field s k)) (PVal v)).
Proof.
  unfold set_property. cbn [default from_option].
  rewrite bind_self, bind_update, bind_self, _applyOptions_run, field_assign_eq.
  reflexivity.
Qed.

(** ** Reading a trace *)

(** The promises a trace spawns, and the listener notifications in it. *)
Definition spawned (tr : list event) : list pending :=
  omap (fun e => match e with Spawn p => Some p | _ => None end) tr.

Definition notifications (tr : list event) : list event :=
  List.filter (fun e => match e with Notify _ _ _ _ => true | _ => false end) tr.

Lemma spawned_app t1 t2 : spawned (t1 ++ t2) = spawned t1 ++ spawned t2.
Proof. apply omap_app. Qed.

Lemma notifications_app t1 t2 :
  notifications (t1 ++ t2) = notifications t1 ++ notifications t2.
Proof. apply List.filter_app. Qed.

Lemma spawned_callback_events cb key prev nxt :
  spawned (callback_events cb key prev nxt) = [].
Proof.
  unfold callback_events.
  case_conditions; reflexivity.
Qed.

Lemma notifications_callback_events cb key prev nxt :
  notifications (callback_events cb key prev nxt) = [].
Proof.
  unfold callback_events.
  case_conditions; reflexivity.
Qed.

Lemma spawned_next o key prev nxt : spawned (next o key prev nxt) = [].
Proof. unfold next. induction (List.filter _ o) as [|sub l IH]; [done|apply IH]. Qed.

Lemma notifications_next o key prev nxt :
  notifications (next o key prev nxt) = next o key prev nxt.
Proof.
  unfold next. induction (List.filter _ o) as [|sub l IH]; [done|].
  cbn. by rewrite <- IH at 2.
Qed.

Lemma spawned_request_events options s :
  spawned (request_events options s) =
  if opt_triggerQuery options
  then [PendingQuery (_fetchRequest (field s "_query") s) defaultOption] else [].
Proof. unfold request_events. by destruct (opt_triggerQuery options). Qed.

Lemma notifications_request_events options s :
  notifications (request_events options s) = [].
Proof. unfold request_events. by destruct (opt_triggerQuery options). Qed.

Lemma spawned_notification_events options s key prev nxt :
  spawned (notification_events options s key prev nxt) = [].
Proof.
  unfold notification_events. destruct (opt_stateChanges options); [|done].
  apply spawned_next.
Qed.

Lemma notifications_notification_events options s key prev nxt :
  notifications (notification_events options s key prev nxt) =
  if opt_stateChanges options then next (stateChanges s) key prev nxt else [].
Proof.
  unfold notification_events. destruct (opt_stateChanges options); [|done].
  cbn. apply notifications_next.
Qed.

Lemma In_next o key prev nxt sub :
  In sub o -> subscribed key sub = true ->
  In (Notify (listener sub) key prev nxt) (next o key prev nxt).
Proof.
  intros Hin Hsub. unfold next.
  apply (in_map (fun sub => Notify (listener sub) key prev nxt)).
  apply List.filter_In. by split.
Qed.

Lemma In_next_inv o key prev nxt e :
  In e (next o key prev nxt) ->
  exists sub, In sub o /\ subscribed key sub = true /\
              e = Notify (listener sub) key prev nxt.
Proof.
  unfold next. intros Hin. apply in_map_iff in Hin as (sub & <- & Hf).
  apply List.filter_In in Hf as [? ?]. by exists sub.
Qed.

(** The trace of [_applyOptions], read: one request exactly when
    [triggerQuery] is set, the notifications exactly when [stateChanges] is. *)
Lemma _applyOptions_effects options key prev nxt s :
  exists tr,
    _applyOptions options key prev nxt s = (Ok tt, s, tr) /\
    spawned tr =
      (if opt_triggerQuery options
       then [PendingQuery (_fetchRequest (field s "_query") s) defaultOption]
       else []) /\
    notifications tr =
      (if opt_stateChanges options
       then next (stateChanges s) key prev nxt else []).
Proof.
  eexists. split; [apply _applyOptions_run|]. split.
  - rewrite !spawned_app, spawned_callback_events, spawned_request_events,
      spawned_notification_events. cbn. apply app_nil_r.
  - rewrite !notifications_app, notifications_callback_events,
      notifications_request_events, notifications_notification_events.
    reflexivity.
Qed.

(** C3. When the promise of [beforeValueChange] rejects, [setValue] changes
    nothing: the call itself returns normally with the instance as it was,
    having only spawned the gate's promise, and the handlers of that promise,
    whenever they run, leave the instance as they find it and log one
    warning; no callback is invoked, no listener notified, no request
    started, nothing thrown. *)
Theorem setValue_rejected_gate_is_noop s gate value options e :
  beforeValueChange s = Some gate ->
  gate value = Rejected e ->
  setValue value options s =
    (Ok tt, s, [Spawn (PendingValue (Rejected e) value (default defaultOptions options))]) /\
  forall net s1,
    settle net (PendingValue (Rejected e) value (default defaultOptions options)) s1 =
      (Ok tt, s1, [ConsoleWarn "beforeValueChange rejected the promise with " e]).
Proof.
  intros Hgate Hrej. split.
  - unfold setValue. rewrite bind_self, Hgate, Hrej. reflexivity.
  - reflexivity.
Qed.

Lemma bind_run {A B} (m : M A) (k : A -> M B) s a s1 t1 :
  m s = (Ok a, s1, t1) ->
  bind m k s = match k a s1 with (r, s2, t2) => (r, s2, t1 ++ t2) end.
Proof. intros H. unfold bind. by rewrite H. Qed.

Lemma bind_when_update {B} (b : bool) f (k : unit -> M B) s :
  bind (when b (update f)) k s = k tt (if b then f s else s).
Proof. destruct b; [apply bind_update|apply bind_ret]. Qed.

(** ** The request pipeline *)

(** The address [_fetchRequest] calls. *)
Definition search_url (s : Searchbase) : string :=
  ToString (field s "url") +:+ "/" +:+ ToString (field s "index") +:+ "/_search".

(** The instance once the response headers have been read. *)
Definition with_search_id (s : Searchbase) (res : Response) : Searchbase :=
  if truthy (res_headers res)
  then assign s "_searchId" (js_or (res_search_id res) VNull)
  else s.

Lemma hasOwnProperty_truthy v k : hasOwnProperty v k = true -> truthy v = true.
Proof.
  unfold hasOwnProperty. intros H. apply bool_decide_eq_true in H as [x Hx].
  destruct v as [| | | | s | | | |]; cbn in Hx; try done.
  destruct s; [done|reflexivity].
Qed.

Lemma _fetchRequest_then_error_body net s f final res data body :
  transformedRequest f = Resolved final ->
  fetch net (search_url s) final = Responded res ->
  (res_status res < 400)%Z ->
  res_json res = Resolved data ->
  _handleTransformResponse s data = Resolved body ->
  hasOwnProperty body "error" = true ->
  _fetchRequest_then net f s =
    (Ok (Some (Rejected body)), with_search_id s res, [Fetch (search_url s) final]).
Proof.
  intros Hreq Hfetch Hstatus Hjson Hres Hown.
  unfold _fetchRequest_then. rewrite Hreq, bind_self, bind_emit.
  fold (search_url s). rewrite Hfetch, bind_when_update.
  fold (with_search_id s res).
  assert ((500 <=? res_status res)%Z = false) as -> by (apply Z.leb_gt; lia).
  assert ((400 <=? res_status res)%Z = false) as -> by (apply Z.leb_gt; lia).
  rewrite Hjson, bind_self.
  assert (_handleTransformResponse (with_search_id s res) data = Resolved body) as ->.
  { rewrite <- Hres. unfold with_search_id. by destruct (truthy (res_headers res)). }
  rewrite Hown, (hasOwnProperty_truthy _ _ Hown). reflexivity.
Qed.

(** C2. A response whose transformed body has an own [error] property is a
    failure although its status is below 400: the handlers of [triggerQuery]
    store the body in [error], invoke [onError] when it is set, leave
    [results] as it was and invoke no [onResults]; nothing is thrown. *)
Theorem triggerQuery_error_body_is_failure net s0 s options final res data body :
  transformedRequest (_fetchRequest (field s0 "_query") s0) = Resolved final ->
  fetch net (search_url s) final = Responded res ->
  (res_status res < 400)%Z ->
  res_json res = Resolved data ->
  _handleTransformResponse s data = Resolved body ->
  hasOwnProperty body "error" = true ->
  let o := default defaultOption options in
  let p := PendingQuery (_fetchRequest (field s0 "_query") s0) o in
  triggerQuery options s0 = (Ok tt, s0, [Spawn p]) /\
  exists tr,
    settle net p s = (Ok tt, assign (with_search_id s res) "error" body, tr) /\
    field (assign (with_search_id s res) "error" body) "error" = body /\
    results (assign (with_search_id s res) "error" body) = results s /\
    (onError (callbacks s) = true ->
     In (Call "onError" [PVal (field s "error")]) tr) /\
    (forall args, ~ In (Call "onResults" args) tr) /\
    In (Fetch (search_url s) final) tr /\
    spawned tr = [].
Proof.
  intros Hreq Hfetch Hstatus Hjson Hres Hown o p. split.
  { unfold triggerQuery. by rewrite bind_self. }
  pose proof (_fetchRequest_then_error_body net s _ final res data body
                Hreq Hfetch Hstatus Hjson Hres Hown) as Hrun.
  assert (results (with_search_id s res) = results s) as Hresults
    by (unfold with_search_id; by destruct (truthy (res_headers res))).
  assert (callbacks (with_search_id s res) = callbacks s) as Hcb
    by (unfold with_search_id; by destruct (truthy (res_headers res))).
  assert (field (with_search_id s res) "error" = field s "error") as Herr.
  { unfold with_search_id. destruct (truthy (res_headers res)); [|done].
    by apply field_assign_ne. }
  cbn [settle p]. unfold triggerQuery_then.
  rewrite (bind_run _ _ _ _ _ _ Hrun). unfold triggerQuery_catch, _setError.
  rewrite (bind_run _ _ _ _ _ _ (set_property_run _ _ _ _)).
  cbn [emit]. rewrite Hcb, Herr.
  eexists. split; [reflexivity|].
  split; [apply field_assign_eq|]. split; [exact Hresults|].
  repeat split.
  - intros Hon. right. unfold callback_events. rewrite Hon. cbn. by left.
  - intros args [Heq|Hin]; [discriminate|]. cbn in Hin.
    rewrite !in_app_iff in Hin. unfold callback_events in Hin. cbn in Hin.
    destruct Hin as [[[Hin|[]]|Hin]|[Hin|[]]]; try discriminate.
    + destruct (onError (callbacks s)); [destruct Hin as [?|[]]; discriminate|done].
    + unfold notification_events in Hin.
      destruct (opt_stateChanges _); [|done].
      destruct Hin as [?|Hin]; [discriminate|].
      apply In_next_inv in Hin as (? & _ & _ & ?). discriminate.
  - by left.
  - rewrite !spawned_app, spawned_callback_events, spawned_request_events,
      spawned_notification_events. reflexivity.
Qed.

Lemma prefixed_run {A} (x : result A * Searchbase * list event) es :
  exists r s' t,
    match x with (r, s', t) => (r, s', es ++ t) end = (r, s', es ++ t).
Proof. destruct x as [[r s'] t]. by exists r, s', t. Qed.

(** C9. The request built by [_fetchRequest] has the standing headers with
    the analytics headers written over them: with a search id, [X-Search-Id]
    is that id (and [X-Search-Query] the current value); without one and with
    a non-empty value, [X-Search-Query] is the value; every other header is
    the standing one. Without a [transformRequest] hook this request is the
    one passed to [fetch]; with one, [fetch] gets what the hook resolves to. *)
Theorem _fetchRequest_analytics_headers requestBody s :
  exists hs,
    requestOptions (_fetchRequest requestBody s) =
      obj [("method", VStr "POST"); ("body", JSON_stringify requestBody);
           ("headers", VObj hs)] /\
    (truthy (field s "_searchId") = true ->
     hs !! "X-Search-Id" = Some (field s "_searchId") /\
     hs !! "X-Search-Query" = Some (field s "value")) /\
    (truthy (field s "_searchId") = false -> truthy (field s "value") = true ->
     hs !! "X-Search-Query" = Some (field s "value") /\
     hs !! "X-Search-Id" = own_props (field s "headers") !! "X-Search-Id") /\
    (forall k, k ≠ "X-Search-Id" -> k ≠ "X-Search-Query" ->
     hs !! k = own_props (field s "headers") !! k) /\
    (forall net final,
       transformedRequest (_fetchRequest requestBody s) = Resolved final ->
       exists r s' tr,
         _fetchRequest_then net (_fetchRequest requestBody s) s =
           (r, s', Fetch (search_url s) final :: tr)) /\
    (transformRequest s = None ->
     transformedRequest (_fetchRequest requestBody s) =
       Resolved (requestOptions (_fetchRequest requestBody s))).
Proof.
  eexists. split; [reflexivity|].
  split; [intros Hid; rewrite Hid, !spread_lookup; by split|].
  split; [intros Hid Hvalue; rewrite Hid, Hvalue, !spread_lookup; by split|].
  repeat split.
  - intros k Hid Hq. rewrite spread_lookup.
    destruct (truthy (field s "_searchId")); [|destruct (truthy (field s "value"))].
    + rewrite !list_to_map_cons, list_to_map_nil.
      by rewrite !lookup_insert_ne, lookup_empty.
    + by rewrite lookup_singleton_ne.
    + done.
  - intros net final Hreq. unfold _fetchRequest_then.
    rewrite Hreq, bind_self, bind_emit. fold (search_url s).
    apply prefixed_run.
  - intros Hnone. cbn. unfold _handleTransformRequest. by rewrite Hnone.
Qed.

(** ** QueryBuilder *)

(** C6. [defaultQuery] of the empty string and of [undefined] is [null],
    returned normally, whatever the options are. *)
Theorem defaultQuery_of_no_value options :
  defaultQuery (VStr "") options = Ok VNull /\
  defaultQuery VUndefined options = Ok VNull.
Proof. split; reflexivity. Qed.

(** The options [generateQueryOptions] starts from, before the sort clause. *)
Definition options_before_sort (options : gmap string jsval) : gmap string jsval :=
  let finalOptions : gmap string jsval := ∅ in
  let finalOptions :=
    if is_undefined (prop options "size") then finalOptions
    else <["size" := prop options "size"]> finalOptions in
  let finalOptions :=
    if is_undefined (prop options "from") then finalOptions
    else <["from" := prop options "from"]> finalOptions in
  if truthy (prop options "includeFields") || truthy (prop options "excludeFields") then
    let source : gmap string jsval := ∅ in
    let source :=
      if truthy (prop options "includeFields")
      then <["includes" := prop options "includeFields"]> source else source in
    let source :=
      if truthy (prop options "excludeFields")
      then <["excludes" := prop options "excludeFields"]> source else source in
    <["_source" := VObj source]> finalOptions
  else finalOptions.

Lemma options_before_sort_keys options k :
  is_Some (options_before_sort options !! k) ->
  k = "size" \/ k = "from" \/ k = "_source".
Proof.
  unfold options_before_sort.
  case_conditions; cbn zeta; rewrite ?lookup_insert_is_Some, ?lookup_empty; intros H;
    repeat match goal with
           | H : _ \/ _ |- _ => destruct H
           | H : _ /\ _ |- _ => destruct H
           | H : is_Some None |- _ => by apply is_Some_None in H
           end; subst; auto.
Qed.

Lemma options_before_sort_no_sort options :
  options_before_sort options !! "sort" = None.
Proof.
  apply eq_None_not_Some. intros H.
  apply options_before_sort_keys in H as [?|[?|?]]; discriminate.
Qed.

Lemma generateQueryOptions_keys options go k :
  generateQueryOptions options = Ok go ->
  is_Some (go !! k) ->
  k = "size" \/ k = "from" \/ k = "_source" \/ k = "sort".
Proof.
  unfold generateQueryOptions. fold (options_before_sort options).
  intros Hgo Hk.
  assert (forall v, go = <["sort" := v]> (options_before_sort options) ->
                    k = "size" \/ k = "from" \/ k = "_source" \/ k = "sort") as Hsort.
  { intros v ->. apply lookup_insert_is_Some in Hk as [<-|[_ Hk]];
      [by do 3 right|].
    apply options_before_sort_keys in Hk as [-> | [-> | ->]];
      [by left|by right; left|by right; right; left]. }
  destruct (truthy (prop options "sortOptions")).
  - destruct (get_index _ 0) as [first|]; [|done]. cbn in Hgo.
    destruct (get first "dataField"); [|done]. cbn in Hgo.
    destruct (get first "sortBy"); [|done]. cbn in Hgo.
    injection Hgo as <-. by eapply Hsort.
  - destruct (_ && _).
    + injection Hgo as <-. by eapply Hsort.
    + injection Hgo as <-.
      apply options_before_sort_keys in Hk as [-> | [-> | ->]];
        [by left|by right; left|by right; right; left].
Qed.

(** C7. With a non-empty [sortOptions] list the sort is the one clause of
    the list's first entry, whatever [sortBy] and [sortByField] are; without
    [sortOptions] and with both [sortBy] and [sortByField] set it is the one
    clause of that pair; and a [sort] that is emitted always has exactly one
    clause. *)
Theorem generateQueryOptions_sort options :
  (forall first rest dataField sortBy,
     prop options "sortOptions" = VArr (first :: rest) ->
     get first "dataField" = Ok dataField ->
     get first "sortBy" = Ok sortBy ->
     exists go,
       generateQueryOptions options = Ok go /\
       go !! "sort" =
         Some (VArr [VObj {[ ToString dataField := obj [("order", sortBy)] ]}])) /\
  (truthy (prop options "sortOptions") = false ->
   truthy (prop options "sortBy") = true ->
   truthy (prop options "sortByField") = true ->
   exists go,
     generateQueryOptions options = Ok go /\
     go !! "sort" =
       Some (VArr [VObj {[ ToString (prop options "sortByField") :=
                            obj [("order", prop options "sortBy")] ]}])) /\
  (forall go v,
     generateQueryOptions options = Ok go ->
     go !! "sort" = Some v ->
     exists field order, v = VArr [VObj {[ field := obj [("order", order)] ]}]).
Proof.
  repeat split.
  - intros first rest dataField sortBy Hopts Hfield Hsort.
    unfold generateQueryOptions. rewrite Hopts. cbn [truthy get_index rbind].
    cbn. rewrite Hfield. cbn. rewrite Hsort. cbn.
    eexists. split; [reflexivity|]. apply lookup_insert_eq.
  - intros Hopts HsortBy Hfield.
    unfold generateQueryOptions. rewrite Hopts, HsortBy, Hfield. cbn [andb].
    eexists. split; [reflexivity|]. apply lookup_insert_eq.
  - unfold generateQueryOptions. fold (options_before_sort options).
    intros go v Hgo Hv.
    destruct (truthy (prop options "sortOptions")).
    + destruct (get_index _ 0) as [first|]; [|done]. cbn in Hgo.
      destruct (get first "dataField") as [df|]; [|done]. cbn in Hgo.
      destruct (get first "sortBy") as [sb|]; [|done]. cbn in Hgo.
      injection Hgo as <-. rewrite lookup_insert_eq in Hv. injection Hv as <-.
      by eexists _, _.
    + destruct (_ && _).
      * injection Hgo as <-. rewrite lookup_insert_eq in Hv. injection Hv as <-.
        by eexists _, _.
      * injection Hgo as <-. by rewrite options_before_sort_no_sort in Hv.
Qed.


(** ** Query recomputation *)

Lemma defaultQuery_null_or_truthy value options d :
  defaultQuery value options = Ok d -> d = VNull \/ truthy d = true.
Proof.
  unfold defaultQuery. intros H.
  destruct (truthy value).
  - destruct (get options "dataField") as [df|]; [|done]. cbn [rbind] in H.
    destruct (get options "searchOperators") as [so|]; [|done]. cbn [rbind] in H.
    destruct (truthy so);
      (destruct (shouldQuery _ _ _) as [q|]; [|done]); cbn [rbind] in H;
      (destruct (is_empty_string value); cbn [truthy] in H;
       [injection H as <-; by left|]);
      (destruct (get options "nestedField") as [nf|]; [|done]); cbn [rbind] in H;
      destruct (truthy nf); injection H as <-; by right.
  - cbn [rbind] in H. destruct (is_empty_string value); cbn [truthy] in H;
      injection H as <-; by left.
Qed.

Lemma _updateQuery_inv query queryOptions s s' tr :
  _updateQuery query queryOptions s = (Ok tt, s', tr) ->
  exists go q,
    generateQueryOptions (_updateQuery_options s) = Ok go /\
    finalQuery s query = Ok q /\
    s' = assign s "_query"
           (VObj (spread (spread {[ "query" := q ]} go) (own_props queryOptions))) /\
    tr = [].
Proof.
  unfold _updateQuery. rewrite bind_self.
  destruct (generateQueryOptions (_updateQuery_options s)) as [go|e];
    [rewrite bind_lift_Ok|by rewrite bind_lift_Throw].
  destruct (finalQuery s query) as [q|e];
    [rewrite bind_lift_Ok|by rewrite bind_lift_Throw].
  intros [= <- <-]. by exists go, q.
Qed.

(** C1. When [_updateQuery] has run, [_query] is the object
    [{query: Q, ...derived options, ...user options}]: [Q] is the override
    when one is given, else the [defaultQuery] of the current value, else
    [{match_all: {}}]; every key of the user options carries the user's
    value; every other key but [query] carries the generated option, if
    any; and [query] is [Q] unless the user options themselves have that
    key (which the [query] setter removes from them). *)
Theorem _updateQuery_effective_query query queryOptions s s' tr :
  _updateQuery query queryOptions s = (Ok tt, s', tr) ->
  exists derived Q effective,
    generateQueryOptions (_updateQuery_options s) = Ok derived /\
    s' = assign s "_query" (VObj effective) /\
    field s' "_query" = VObj effective /\
    effective = spread (spread {[ "query" := Q ]} derived) (own_props queryOptions) /\
    (truthy query = true -> Q = query) /\
    (truthy query = false ->
     exists d,
       defaultQuery (field s "value") (defaultQuery_options s) = Ok d /\
       (d ≠ VNull -> Q = d) /\
       (d = VNull -> Q = match_all)) /\
    (forall k v, own_props queryOptions !! k = Some v -> effective !! k = Some v) /\
    (forall k, own_props queryOptions !! k = None -> k ≠ "query" ->
               effective !! k = derived !! k) /\
    (own_props queryOptions !! "query" = None -> effective !! "query" = Some Q).
Proof.
  intros Hrun. apply _updateQuery_inv in Hrun as (go & q & Hgo & Hq & -> & ->).
  exists go, q, (spread (spread {[ "query" := q ]} go) (own_props queryOptions)).
  assert (go !! "query" = None) as Hnoquery.
  { apply eq_None_not_Some. intros H.
    apply (generateQueryOptions_keys _ _ _ Hgo) in H as [?|[?|[?|?]]]; discriminate. }
  split; [exact Hgo|]. split; [reflexivity|]. split; [apply field_assign_eq|].
  split; [reflexivity|]. unfold finalQuery in Hq. repeat split.
  - intros Ht. rewrite Ht in Hq. by injection Hq.
  - intros Ht. rewrite Ht in Hq.
    destruct (defaultQuery _ _) as [d|] eqn:Hd; [|done].
    cbn [rbind] in Hq. injection Hq as <-. exists d. split; [done|].
    unfold js_or. split.
    + intros Hne. by destruct (defaultQuery_null_or_truthy _ _ _ Hd) as [? | ->].
    + by intros ->.
  - intros k v Hk. by rewrite spread_lookup, Hk.
  - intros k Hk Hne. rewrite !spread_lookup, Hk.
    destruct (go !! k); [done|]. by apply lookup_singleton_ne.
  - intros Hk. rewrite !spread_lookup, Hk, Hnoquery. apply lookup_singleton_eq.
Qed.

(** The [query] setter hands [_updateQuery] user options without the
    [query] key, so the effective query of [setQuery] always has the built or
    overriding query under [query]. *)
Lemma destructure_query_options queryTobeSet :
  own_props (destructure_query queryTobeSet).2 !! "query" = None.
Proof. unfold destructure_query. cbn. apply lookup_delete_eq. Qed.

Lemma _syncQueryOptions_default s : _syncQueryOptions VUndefined s = (Ok tt, s, []).
Proof. reflexivity. Qed.

Lemma set_query_inv queryTobeSet s s' tr :
  set_query queryTobeSet s = (Ok tt, s', tr) ->
  _updateQuery (destructure_query queryTobeSet).1 (destructure_query queryTobeSet).2 s
    = (Ok tt, s', tr).
Proof.
  unfold set_query.
  assert (truthy (destructure_query queryTobeSet).2 = true) as Ht by reflexivity.
  destruct (destructure_query queryTobeSet) as [q qo]. cbn [fst snd] in *.
  rewrite Ht. cbn [when]. unfold bind.
  destruct (_updateQuery q qo s) as [[[[]|e] s1] t1]; [|done].
  rewrite _syncQueryOptions_default, app_nil_r. done.
Qed.

Lemma setQuery_effective_query queryTobeSet options s s' tr :
  setQuery queryTobeSet options s = (Ok tt, s', tr) ->
  exists derived Q effective,
    generateQueryOptions (_updateQuery_options s) = Ok derived /\
    finalQuery s (destructure_query queryTobeSet).1 = Ok Q /\
    s' = assign s "_query" (VObj effective) /\
    effective =
      spread (spread {[ "query" := Q ]} derived)
             (own_props (destructure_query queryTobeSet).2) /\
    effective !! "query" = Some Q.
Proof.
  unfold setQuery. rewrite bind_self. unfold bind at 1.
  destruct (set_query queryTobeSet s) as [[[[]|e] s1] t1] eqn:Hset; [|done].
  apply set_query_inv, _updateQuery_inv in Hset as (go & Q & Hgo & HQ & -> & ->).
  assert (go !! "query" = None) as Hnoquery.
  { apply eq_None_not_Some. intros H.
    apply (generateQueryOptions_keys _ _ _ Hgo) in H as [?|[?|[?|?]]]; discriminate. }
  rewrite bind_self, _applyOptions_run.
  intros [= <- <-].
  exists go, Q,
    (spread (spread {[ "query" := Q ]} go)
            (own_props (destructure_query queryTobeSet).2)).
  split; [done|]. split; [done|]. split; [done|]. split; [done|].
  rewrite !spread_lookup, destructure_query_options, Hnoquery.
  apply lookup_singleton_eq.
Qed.


(** ** Every setter *)

(** The setters that take [{triggerQuery, stateChanges}], by the property
    they set. *)
Inductive setter : Type :=
| Headers | Query | SuggestionsQuery | Size | From | Fuzziness
| IncludeFields | ExcludeFields | SortBy | SortByField | NestedField
| DataField | Value.

Definition call_setter (f : setter) (v : jsval) (options : option Options) : M unit :=
  match f with
  | Headers => setHeaders v options
  | Query => setQuery v options
  | SuggestionsQuery => setSuggestionsQuery v options
  | Size => setSize v options
  | From => setFrom v options
  | Fuzziness => setFuzziness v options
  | IncludeFields => setIncludeFields v options
  | ExcludeFields => setExcludeFields v options
  | SortBy => setSortBy v options
  | SortByField => setSortByField v options
  | NestedField => setNestedField v options
  | DataField => setDataField v options
  | Value => setValue v options
  end.

(** The key a setter passes to [_applyOptions], and the property of the
    instance behind it. *)
Definition setter_key (f : setter) : string :=
  match f with
  | Headers => "headers"
  | Query => "query"
  | SuggestionsQuery => "suggestionsQuery"
  | Size => "size"
  | From => "from"
  | Fuzziness => "fuzziness"
  | IncludeFields => "includeFields"
  | ExcludeFields => "excludeFields"
  | SortBy => "sortBy"
  | SortByField => "sortByField"
  | NestedField => "nestedField"
  | DataField => "dataField"
  | Value => "value"
  end.

Definition setter_property (f : setter) : string :=
  match f with
  | Query => "_query"
  | SuggestionsQuery => "_suggestionsQuery"
  | _ => setter_key f
  end.

Lemma applied_effects options key prev nxt s :
  let tr := callback_events (callbacks s) key prev nxt ++
            request_events options s ++
            notification_events options s key prev nxt in
  spawned tr =
    (if opt_triggerQuery options
     then [PendingQuery (_fetchRequest (field s "_query") s) defaultOption]
     else []) /\
  notifications tr =
    (if opt_stateChanges options then next (stateChanges s) key prev nxt else []).
Proof.
  cbn zeta. split.
  - rewrite !spawned_app, spawned_callback_events, spawned_request_events,
      spawned_notification_events. cbn. apply app_nil_r.
  - rewrite !notifications_app, notifications_callback_events,
      notifications_request_events, notifications_notification_events.
    reflexivity.
Qed.

Lemma set_suggestionsQuery_inv queryTobeSet s s' tr :
  set_suggestionsQuery queryTobeSet s = (Ok tt, s', tr) ->
  exists v, s' = assign s "_suggestionsQuery" v /\ tr = [].
Proof.
  unfold set_suggestionsQuery.
  destruct (destructure_query queryTobeSet) as [q qo].
  unfold _updateSuggestionsQuery. rewrite bind_self.
  destruct (generateQueryOptions _) as [go|e];
    [rewrite bind_lift_Ok|by rewrite bind_lift_Throw].
  destruct (finalQuery s q) as [Q|e];
    [rewrite bind_lift_Ok|by rewrite bind_lift_Throw].
  intros [= <- <-]. by eexists.
Qed.

(** A setter that returns has started one request exactly when
    [triggerQuery] is set, and has notified the listeners of its key exactly
    when [stateChanges] is; for [setValue] this is so when there is no gate. *)
Lemma call_setter_effects f v options s s' tr :
  (f = Value -> beforeValueChange s = None) ->
  call_setter f v (Some options) s = (Ok tt, s', tr) ->
  spawned tr =
    (if opt_triggerQuery options
     then [PendingQuery (_fetchRequest (field s' "_query") s') defaultOption]
     else []) /\
  notifications tr =
    (if opt_stateChanges options
     then next (stateChanges s) (setter_key f)
               (PVal (field s (setter_property f)))
               (PVal (field s' (setter_property f)))
     else []).
Proof.
  intros Hgate.
  assert (forall k w,
            set_property k w (Some options) s = (Ok tt, s', tr) ->
            spawned tr =
              (if opt_triggerQuery options
               then [PendingQuery (_fetchRequest (field s' "_query") s') defaultOption]
               else []) /\
            notifications tr =
              (if opt_stateChanges options
               then next (stateChanges s) k (PVal (field s k)) (PVal (field s' k))
               else [])) as Hplain.
  { intros k w. rewrite set_property_run. intros Heq.
    injection Heq as Hs' Htr. subst s' tr. rewrite field_assign_eq.
    exact (applied_effects options k (PVal (field s k)) (PVal w) (assign s k w)). }
  destruct f; cbn [call_setter setter_key setter_property].
  1: { unfold setHeaders. rewrite bind_self. apply Hplain. }
  1: { clear Hplain. unfold setQuery. rewrite bind_self. unfold bind at 1.
       destruct (set_query v s) as [[[[]|e] s1] t1] eqn:Hset; [|done].
       apply set_query_inv, _updateQuery_inv in Hset as (go & Q & _ & _ & -> & ->).
       rewrite bind_self, _applyOptions_run. intros Heq.
       injection Heq as Hs' Htr. subst s' tr.
       exact (applied_effects options "query" _ _ _). }
  1: { clear Hplain. unfold setSuggestionsQuery. rewrite bind_self.
       unfold bind at 1.
       destruct (set_suggestionsQuery v s) as [[[[]|e] s1] t1] eqn:Hset; [|done].
       apply set_suggestionsQuery_inv in Hset as (w & -> & ->).
       rewrite bind_self, _applyOptions_run. intros Heq.
       injection Heq as Hs' Htr. subst s' tr.
       exact (applied_effects options "suggestionsQuery" _ _ _). }
  10: { unfold setValue. rewrite bind_self, (Hgate eq_refl). apply Hplain. }
  all: unfold setSize, setFrom, setFuzziness, setIncludeFields, setExcludeFields,
         setSortBy, setSortByField, setNestedField, setDataField;
       apply Hplain.
Qed.

(** The setters of results and suggestions start no request whatever their
    options are; they notify exactly when [stateChanges] is set and there is
    data. *)
Lemma setResults_effects data options s :
  exists s' tr,
    setResults data (Some options) s = (Ok tt, s', tr) /\
    spawned tr = [] /\
    notifications tr =
      (if truthy data && opt_stateChanges options
       then next (stateChanges s) "results"
                 (PResults (results s)) (PResults (new_Results data))
       else []).
Proof.
  unfold setResults. cbn [default from_option].
  destruct (truthy data); cbn [when andb]; [|by eexists _, _].
  rewrite bind_self, bind_update, bind_self, _applyOptions_run.
  eexists _, _. split; [reflexivity|].
  destruct (applied_effects (stateChanges_only options) "results"
              (PResults (results s)) (PResults (new_Results data))
              (with_results s (new_Results data))) as [Hs Hn].
  split; [exact Hs|exact Hn].
Qed.

Lemma setSuggestions_effects data options s :
  exists s' tr,
    setSuggestions data (Some options) s = (Ok tt, s', tr) /\
    spawned tr = [] /\
    notifications tr =
      (if truthy data && opt_stateChanges options
       then next (stateChanges s) "suggestions"
                 (PResults (suggestions s)) (PResults (new_Results data))
       else []).
Proof.
  unfold setSuggestions. cbn [default from_option].
  destruct (truthy data); cbn [when andb]; [|by eexists _, _].
  rewrite bind_self, bind_update, bind_self, _applyOptions_run.
  eexists _, _. split; [reflexivity|].
  destruct (applied_effects (stateChanges_only options) "suggestions"
              (PResults (suggestions s)) (PResults (new_Results data))
              (with_suggestions s (new_Results data))) as [Hs Hn].
  split; [exact Hs|exact Hn].
Qed.

(** C5. [setSize(n, {triggerQuery: false, stateChanges: true})] stores [n] in
    [size], invokes every listener subscribed to ["size"] or to all keys with
    the change [{size: {prev, next}}], and starts no request. For the
    thirteen setters that take [{triggerQuery, stateChanges}], as for
    [_applyOptions] itself, whether a request is started depends on
    [triggerQuery] alone and whether listeners are notified on [stateChanges]
    alone; a gate matters to [setValue] only, which then has neither effect
    until the gate's promise settles: resolved, both follow the options,
    rejected, there is neither. [setResults] and [setSuggestions] are the
    exception: they pass [triggerQuery: false] whatever the caller gives, so
    only [stateChanges] has an effect and they never start a request. *)
Theorem setSize_notifies_without_request s n :
  (exists tr,
     setSize n (Some {| opt_triggerQuery := false; opt_stateChanges := true |}) s
       = (Ok tt, assign s "size" n, tr) /\
     field (assign s "size" n) "size" = n /\
     (forall sub, In sub (stateChanges s) -> subscribed "size" sub = true ->
        In (Notify (listener sub) "size" (PVal (field s "size")) (PVal n)) tr) /\
     (forall l key prev nxt, In (Notify l key prev nxt) tr ->
        exists sub, In sub (stateChanges s) /\ subscribed "size" sub = true /\
                    Notify l key prev nxt =
                    Notify (listener sub) "size" (PVal (field s "size")) (PVal n)) /\
     spawned tr = [] /\
     (forall url request, ~ In (Fetch url request) tr)) /\
  (forall f v options s' tr,
     (f = Value -> beforeValueChange s = None) ->
     call_setter f v (Some options) s = (Ok tt, s', tr) ->
     spawned tr =
       (if opt_triggerQuery options
        then [PendingQuery (_fetchRequest (field s' "_query") s') defaultOption]
        else []) /\
     notifications tr =
       (if opt_stateChanges options
        then next (stateChanges s) (setter_key f)
                  (PVal (field s (setter_property f)))
                  (PVal (field s' (setter_property f)))
        else [])) /\
  (forall gate v options,
     beforeValueChange s = Some gate ->
     setValue v (Some options) s =
       (Ok tt, s, [Spawn (PendingValue (gate v) v options)]) /\
     (forall net resolution s1, exists tr,
        settle net (PendingValue (Resolved resolution) v options) s1
          = (Ok tt, assign s1 "value" v, tr) /\
        spawned tr =
          (if opt_triggerQuery options
           then [PendingQuery (_fetchRequest (field (assign s1 "value" v) "_query")
                                             (assign s1 "value" v)) defaultOption]
           else []) /\
        notifications tr =
          (if opt_stateChanges options
           then next (stateChanges s1) "value" (PVal (field s1 "value")) (PVal v)
           else [])) /\
     (forall net e s1, exists tr,
        settle net (PendingValue (Rejected e) v options) s1 = (Ok tt, s1, tr) /\
        spawned tr = [] /\ notifications tr = [])) /\
  (forall data options, exists s' tr,
     setResults data (Some options) s = (Ok tt, s', tr) /\
     spawned tr = [] /\
     notifications tr =
       (if truthy data && opt_stateChanges options
        then next (stateChanges s) "results"
                  (PResults (results s)) (PResults (new_Results data))
        else [])) /\
  (forall data options, exists s' tr,
     setSuggestions data (Some options) s = (Ok tt, s', tr) /\
     spawned tr = [] /\
     notifications tr =
       (if truthy data && opt_stateChanges options
        then next (stateChanges s) "suggestions"
                  (PResults (suggestions s)) (PResults (new_Results data))
        else [])) /\
  (forall options key prev nxt, exists tr,
     _applyOptions options key prev nxt s = (Ok tt, s, tr) /\
     spawned tr =
       (if opt_triggerQuery options
        then [PendingQuery (_fetchRequest (field s "_query") s) defaultOption]
        else []) /\
     notifications tr =
       (if opt_stateChanges options
        then next (stateChanges s) key prev nxt else [])).
Proof.
  split; [|split; [intros f v options s' tr; apply call_setter_effects
                  |split; [|split; [intros; apply setResults_effects
                                   |split; [intros; apply setSuggestions_effects
                                           |intros; apply _applyOptions_effects]]]]].
  2:{ intros gate v options Hgate. split.
      { unfold setValue. cbn [default from_option id].
        by rewrite bind_self, Hgate. }
      split.
      - intros net resolution s1. cbn [settle setValue_then].
        unfold try_catch, performUpdate. rewrite set_property_run.
        eexists. split; [reflexivity|].
        exact (applied_effects options "value" (PVal (field s1 "value")) (PVal v)
                 (assign s1 "value" v)).
      - intros net e s1. eexists. by split. }
  eexists. split; [apply set_property_run|].
  split; [apply field_assign_eq|].
  cbn [callback_events request_events notification_events opt_triggerQuery
       opt_stateChanges String.eqb Ascii.eqb Bool.eqb andb app].
  repeat split.
  - intros sub Hin Hsub. right. by apply In_next.
  - intros l key prev nxt [Heq|Hin]; [discriminate|].
    by apply In_next_inv in Hin.
  - cbn. apply spawned_next.
  - intros url request [Heq|Hin]; [discriminate|].
    apply In_next_inv in Hin as (? & _ & _ & ?). discriminate.
Qed.

(** ** Frames: what a method leaves alone *)

(** [keeps k m]: whatever [m] does, and whether or not it throws, the
    property [k] of the instance is as before. *)
Definition keeps {A} (k : string) (m : M A) : Prop :=
  forall s r s' tr, m s = (r, s', tr) -> field s' k = field s k.

Lemma keeps_ret {A} k (a : A) : keeps k (ret a).
Proof. by intros s r s' tr [= _ <- _]. Qed.

Lemma keeps_emit k es : keeps k (emit es).
Proof. by intros s r s' tr [= _ <- _]. Qed.

Lemma keeps_lift {A} k (x : result A) : keeps k (lift x).
Proof. by intros s r s' tr [= _ <- _]. Qed.

Lemma keeps_self k : keeps k self.
Proof. by intros s r s' tr [= _ <- _]. Qed.

Lemma keeps_assign k k' (v : Searchbase -> jsval) :
  k' ≠ k -> keeps k (update (fun s => assign s k' (v s))).
Proof. intros Hne s r s' tr [= _ <- _]. by apply field_assign_ne. Qed.

Lemma keeps_bind {A B} k (m : M A) (f : A -> M B) :
  keeps k m -> (forall a, keeps k (f a)) -> keeps k (bind m f).
Proof.
  intros Hm Hf s r s' tr. unfold bind.
  destruct (m s) as [[[a|e] s1] t1] eqn:Hms.
  - destruct (f a s1) as [[r2 s2] t2] eqn:Hfs. intros [= _ <- _].
    rewrite (Hf _ _ _ _ _ Hfs). by eapply Hm.
  - intros [= _ <- _]. by eapply Hm.
Qed.

Lemma keeps_when k b m : keeps k m -> keeps k (when b m).
Proof. intros Hm. destruct b; [exact Hm|apply keeps_ret]. Qed.

Lemma keeps_try_catch {A} k (m : M A) h :
  keeps k m -> (forall e, keeps k (h e)) -> keeps k (try_catch m h).
Proof.
  intros Hm Hh s r s' tr. unfold try_catch.
  destruct (m s) as [[[a|e] s1] t1] eqn:Hms.
  - intros [= _ <- _]. by eapply Hm.
  - destruct (h e s1) as [[r2 s2] t2] eqn:Hhs. intros [= _ <- _].
    rewrite (Hh _ _ _ _ _ Hhs). by eapply Hm.
Qed.

Lemma keeps__applyOptions k options key prev nxt :
  keeps k (_applyOptions options key prev nxt).
Proof. intros s r s' tr. rewrite _applyOptions_run. by intros [= _ <- _]. Qed.

Lemma keeps_set_property k k' v options :
  k' ≠ k -> keeps k (set_property k' v options).
Proof.
  intros Hne. unfold set_property.
  apply keeps_bind; [apply keeps_self|intros s0].
  apply keeps_bind; [by apply (keeps_assign k k' (fun _ => v))|intros _].
  apply keeps_bind; [apply keeps_self|intros s1].
  apply keeps__applyOptions.
Qed.

Lemma keeps__updateQuery k query queryOptions :
  "_query" ≠ k -> keeps k (_updateQuery query queryOptions).
Proof.
  intros Hne. unfold _updateQuery.
  apply keeps_bind; [apply keeps_self|intros s0].
  apply keeps_bind; [apply keeps_lift|intros go].
  apply keeps_bind; [apply keeps_lift|intros q].
  by apply (keeps_assign k "_query" (fun _ => _)).
Qed.

Lemma keeps__updateSuggestionsQuery k query queryOptions :
  "_suggestionsQuery" ≠ k -> keeps k (_updateSuggestionsQuery query queryOptions).
Proof.
  intros Hne. unfold _updateSuggestionsQuery.
  apply keeps_bind; [apply keeps_self|intros s0].
  apply keeps_bind; [apply keeps_lift|intros go].
  apply keeps_bind; [apply keeps_lift|intros q].
  by apply (keeps_assign k "_suggestionsQuery" (fun _ => _)).
Qed.

Lemma keeps_set_query k queryTobeSet :
  "_query" ≠ k -> keeps k (set_query queryTobeSet).
Proof.
  intros Hne. unfold set_query.
  destruct (destructure_query queryTobeSet) as [q qo].
  apply keeps_bind; [by apply keeps__updateQuery|intros _].
  apply keeps_when. intros s r s' tr. rewrite _syncQueryOptions_default.
  by intros [= _ <- _].
Qed.

Lemma keeps_setQuery k query options :
  "_query" ≠ k -> keeps k (setQuery query options).
Proof.
  intros Hne. unfold setQuery.
  apply keeps_bind; [apply keeps_self|intros s0].
  apply keeps_bind; [by apply keeps_set_query|intros _].
  apply keeps_bind; [apply keeps_self|intros s1].
  apply keeps__applyOptions.
Qed.

Lemma keeps_setSuggestionsQuery k query options :
  "_suggestionsQuery" ≠ k -> keeps k (setSuggestionsQuery query options).
Proof.
  intros Hne. unfold setSuggestionsQuery, set_suggestionsQuery.
  apply keeps_bind; [apply keeps_self|intros s0].
  destruct (destructure_query query) as [q qo].
  apply keeps_bind; [by apply keeps__updateSuggestionsQuery|intros _].
  apply keeps_bind; [apply keeps_self|intros s1].
  apply keeps__applyOptions.
Qed.

Lemma keeps_setHeaders k headers options :
  "headers" ≠ k -> keeps k (setHeaders headers options).
Proof.
  intros Hne. unfold setHeaders.
  apply keeps_bind; [apply keeps_self|intros s0].
  by apply keeps_set_property.
Qed.

Lemma keeps_setValue k value options :
  "value" ≠ k -> keeps k (setValue value options).
Proof.
  intros Hne. unfold setValue.
  apply keeps_bind; [apply keeps_self|intros s0].
  destruct (beforeValueChange s0); [apply keeps_emit|].
  unfold performUpdate. apply keeps_set_property. exact Hne.
Qed.

(** ** The constructor *)

(** The constructor from [if (headers)] to its end. *)
Definition constructor_tail (c : Config) : M unit :=
  let arg := prop (config c) in
  (when (truthy (arg "headers"))
        (setHeaders (arg "headers")
           (Some {| opt_triggerQuery := false; opt_stateChanges := false |})) ;;
   when (truthy (arg "value"))
        (setValue (arg "value")
           (Some {| opt_triggerQuery := negb (truthy (arg "query"));
                    opt_stateChanges := true |})) ;;
   (if truthy (arg "query") then
      setQuery (arg "query")
        (Some {| opt_triggerQuery := true; opt_stateChanges := false |})
    else _updateQuery VUndefined VUndefined) ;;
   when (truthy (arg "suggestionsQuery"))
        (setSuggestionsQuery (arg "query")
           (Some {| opt_triggerQuery := true; opt_stateChanges := false |})))%M.

Definition required_present (c : Config) : bool :=
  truthy (prop (config c) "index") && truthy (prop (config c) "url")
  && truthy (prop (config c) "dataField").

(** With the three required properties given, the constructor assigns the
    properties of the instance and goes on to its tail. *)
Lemma constructor_unfold c :
  required_present c = true ->
  exists s0,
    new_Searchbase c = constructor_tail c s0 /\
    field s0 "index" = prop (config c) "index" /\
    field s0 "url" = prop (config c) "url" /\
    field s0 "dataField" = prop (config c) "dataField" /\
    field s0 "size" = js_or (VNum (Number (prop (config c) "size"))) (VNum 10) /\
    field s0 "from" = js_or (VNum (Number (prop (config c) "from"))) (VNum 0) /\
    field s0 "value" = VUndefined /\
    beforeValueChange s0 = config_beforeValueChange c.
Proof.
  unfold required_present. rewrite !andb_true_iff. intros [[Hi Hu] Hd].
  unfold new_Searchbase, constructor. cbn zeta. rewrite Hi, Hu, Hd.
  cbn [negb when]. rewrite !bind_ret, !bind_update, bind_self, bind_when_update.
  fold (constructor_tail c).
  eexists. split; [reflexivity|].
  destruct (truthy (field _ "credentials")); cbn [blank];
    repeat split;
    repeat first [ done
                 | rewrite field_assign_eq
                 | rewrite field_assign_ne by done ].
Qed.

Lemma keeps_constructor_tail c k :
  "headers" ≠ k -> "value" ≠ k -> "_query" ≠ k -> "_suggestionsQuery" ≠ k ->
  keeps k (constructor_tail c).
Proof.
  intros Hh Hv Hq Hs. unfold constructor_tail. cbn zeta.
  apply keeps_bind; [by apply keeps_when, keeps_setHeaders|intros _].
  apply keeps_bind; [by apply keeps_when, keeps_setValue|intros _].
  apply keeps_bind; [|intros _; by apply keeps_when, keeps_setSuggestionsQuery].
  destruct (truthy _); [by apply keeps_setQuery|by apply keeps__updateQuery].
Qed.

Lemma constructor_throws c :
  required_present c = false ->
  exists message,
    new_Searchbase c = (Throw (VError message), blank, []) /\
    message =
      (if negb (truthy (prop (config c) "index")) then "Please provide a valid index."
       else if negb (truthy (prop (config c) "url")) then "Please provide a valid url."
       else "Please provide a valid data field.").
Proof.
  unfold required_present, new_Searchbase, constructor. cbn zeta.
  destruct (truthy (prop (config c) "index")); cbn [negb andb when];
    [|intros _; eexists; split; reflexivity].
  rewrite bind_ret.
  destruct (truthy (prop (config c) "url")); cbn [negb andb when];
    [|intros _; eexists; split; reflexivity].
  rewrite bind_ret.
  destruct (truthy (prop (config c) "dataField")); cbn [negb andb when];
    [done|intros _; eexists; split; reflexivity].
Qed.

Lemma constructor_Ok_required c s tr :
  new_Searchbase c = (Ok tt, s, tr) -> required_present c = true.
Proof.
  intros Hrun. destruct (required_present c) eqn:Hreq; [done|].
  apply constructor_throws in Hreq as (message & Hthrow & _).
  rewrite Hthrow in Hrun. discriminate.
Qed.

(** C4, as the code has it. The constructor throws, before it assigns
    anything, exactly when [index], [url] or [dataField] is falsy (missing,
    [null], the empty string, [0], [NaN] or [false]); the error names the
    first of them that is. When all three are truthy (an empty array is) the
    checks pass: however the rest of the constructor ends, the instance has
    been given its [index], [url] and [dataField]. *)
Theorem constructor_required_properties c :
  (required_present c = false ->
   exists message,
     new_Searchbase c = (Throw (VError message), blank, []) /\
     message =
       (if negb (truthy (prop (config c) "index")) then "Please provide a valid index."
        else if negb (truthy (prop (config c) "url")) then "Please provide a valid url."
        else "Please provide a valid data field.")) /\
  (required_present c = true ->
   forall r s tr,
     new_Searchbase c = (r, s, tr) ->
     field s "index" = prop (config c) "index" /\
     field s "url" = prop (config c) "url" /\
     field s "dataField" = prop (config c) "dataField" /\
     truthy (field s "index") = true /\
     truthy (field s "url") = true /\
     truthy (field s "dataField") = true).
Proof.
  split; [apply constructor_throws|].
  intros Hreq r s tr Hrun.
  destruct (constructor_unfold c Hreq) as (s0 & Htail & Hi & Hu & Hd & _).
  rewrite Htail in Hrun.
  assert (field s "index" = prop (config c) "index") as Hi'.
  { rewrite <- Hi. by eapply (keeps_constructor_tail c "index"). }
  assert (field s "url" = prop (config c) "url") as Hu'.
  { rewrite <- Hu. by eapply (keeps_constructor_tail c "url"). }
  assert (field s "dataField" = prop (config c) "dataField") as Hd'.
  { rewrite <- Hd. by eapply (keeps_constructor_tail c "dataField"). }
  rewrite Hi', Hu', Hd'.
  unfold required_present in Hreq. rewrite !andb_true_iff in Hreq.
  tauto.
Qed.

(** C8, as the code has it. After construction [size] and [from] are
    numbers: [Number] of the given value, or 10 and 0 when that is [NaN] or
    zero, as it is for a value not given. [setSize] and [setFrom] store their
    argument as it is, of whatever type. *)
Theorem size_and_from_are_coerced_at_construction :
  (forall c s tr,
     new_Searchbase c = (Ok tt, s, tr) ->
     field s "size" = js_or (VNum (Number (prop (config c) "size"))) (VNum 10) /\
     field s "from" = js_or (VNum (Number (prop (config c) "from"))) (VNum 0) /\
     typeof (field s "size") = "number" /\
     typeof (field s "from") = "number" /\
     (truthy (VNum (Number (prop (config c) "size"))) = false ->
      field s "size" = VNum 10) /\
     (truthy (VNum (Number (prop (config c) "from"))) = false ->
      field s "from" = VNum 0) /\
     (prop (config c) "size" = VUndefined -> field s "size" = VNum 10) /\
     (prop (config c) "from" = VUndefined -> field s "from" = VNum 0)) /\
  (forall v options s,
     exists tr,
       setSize v options s = (Ok tt, assign s "size" v, tr) /\
       field (assign s "size" v) "size" = v) /\
  (forall v options s,
     exists tr,
       setFrom v options s = (Ok tt, assign s "from" v, tr) /\
       field (assign s "from" v) "from" = v).
Proof.
  split; [|split].
  - intros c s tr Hrun.
    pose proof (constructor_Ok_required _ _ _ Hrun) as Hreq.
    destruct (constructor_unfold c Hreq) as (s0 & Htail & _ & _ & _ & Hsize & Hfrom & _).
    rewrite Htail in Hrun.
    assert (field s "size" = field s0 "size") as ->
      by (by eapply (keeps_constructor_tail c "size")).
    assert (field s "from" = field s0 "from") as ->
      by (by eapply (keeps_constructor_tail c "from")).
    rewrite Hsize, Hfrom. unfold js_or.
    repeat split;
      try (intros ->; reflexivity);
      by case_conditions.
  - intros v [options|] s; eexists;
      (split; [apply set_property_run|apply field_assign_eq]).
  - intros v [options|] s; eexists;
      (split; [apply set_property_run|apply field_assign_eq]).
Qed.

Lemma bind_Ok_inv {A B} (m : M A) (f : A -> M B) s b s' tr :
  bind m f s = (Ok b, s', tr) ->
  exists a s1 t1 t2,
    m s = (Ok a, s1, t1) /\ f a s1 = (Ok b, s', t2) /\ tr = t1 ++ t2.
Proof.
  unfold bind. destruct (m s) as [[[a|e] s1] t1]; [|done].
  destruct (f a s1) as [[r2 s2] t2] eqn:Hf. intros [= -> -> <-].
  by exists a, s1, t1, t2.
Qed.

Lemma finalQuery_assign s k v query :
  k ≠ "value" -> k ≠ "dataField" -> k ≠ "searchOperators" -> k ≠ "queryFormat" ->
  k ≠ "fuzziness" -> k ≠ "nestedField" ->
  finalQuery (assign s k v) query = finalQuery s query.
Proof.
  intros. unfold finalQuery, defaultQuery_options.
  by rewrite !field_assign_ne.
Qed.

Lemma defaultQuery_options_assign s k v :
  k ≠ "dataField" -> k ≠ "searchOperators" -> k ≠ "queryFormat" ->
  k ≠ "fuzziness" -> k ≠ "nestedField" ->
  defaultQuery_options (assign s k v) = defaultQuery_options s.
Proof. intros. unfold defaultQuery_options. by rewrite !field_assign_ne. Qed.

Lemma setSuggestionsQuery_inv queryTobeSet options s s' tr :
  setSuggestionsQuery queryTobeSet options s = (Ok tt, s', tr) ->
  exists Q,
    finalQuery s (destructure_query queryTobeSet).1 = Ok Q /\
    s' = assign s "_suggestionsQuery"
           (VObj (spread (spread {[ "query" := Q ]} {[ "size" := VNum 10 ]})
                         (own_props (destructure_query queryTobeSet).2))).
Proof.
  unfold setSuggestionsQuery, set_suggestionsQuery. rewrite bind_self.
  destruct (destructure_query queryTobeSet) as [q qo]. cbn [fst snd].
  intros Hrun. apply bind_Ok_inv in Hrun as ([] & s1 & t1 & t2 & Hup & Happly & _).
  rewrite bind_self, _applyOptions_run in Happly. injection Happly as <- _.
  unfold _updateSuggestionsQuery in Hup. rewrite bind_self in Hup.
  change (generateQueryOptions {[ "size" := VNum 10 ]})
    with (Ok ({[ "size" := VNum 10 ]} : gmap string jsval)) in Hup.
  rewrite bind_lift_Ok in Hup.
  destruct (finalQuery s q) as [Q|e];
    [rewrite bind_lift_Ok in Hup|by rewrite bind_lift_Throw in Hup].
  injection Hup as <- _. by exists Q.
Qed.

Lemma destructure_query_falsy queryTobeSet :
  truthy queryTobeSet = false ->
  destructure_query queryTobeSet = (VUndefined, VObj ∅).
Proof.
  intros Hf. unfold destructure_query.
  assert (js_or (if is_undefined queryTobeSet then obj [] else queryTobeSet) (obj [])
          = obj []) as ->.
  { unfold js_or. destruct (is_undefined queryTobeSet); [done|]. by rewrite Hf. }
  reflexivity.
Qed.

(** The configuration with another value under one of its keys. *)
Definition with_config_property (c : Config) (k : string) (v : jsval) : Config :=
  {| config := <[k := v]> (config c);
     config_transformRequest := config_transformRequest c;
     config_transformResponse := config_transformResponse c;
     config_beforeValueChange := config_beforeValueChange c |}.

Lemma constructor_ignores_suggestionsQuery c other :
  truthy (prop (config c) "suggestionsQuery") = true ->
  truthy other = true ->
  new_Searchbase (with_config_property c "suggestionsQuery" other) = new_Searchbase c.
Proof.
  intros Hsq Hother. unfold new_Searchbase, constructor. cbn zeta.
  cbn [with_config_property config config_transformRequest
       config_transformResponse config_beforeValueChange].
  rewrite prop_insert_eq, Hsq, Hother.
  by rewrite !prop_insert_ne.
Qed.

(** C10. When the configuration has a [suggestionsQuery], what the
    constructor stores as the suggestions query is computed from [query]:
    any other truthy [suggestionsQuery] gives the same instance, the stored
    object is [{query: Q, size: 10, ...rest}] for the [query] and the
    remaining properties taken out of the configuration's [query], and with
    no [query] it is [{query: Q, size: 10}] with [Q] the default query of the
    value or [{match_all: {}}]. *)
Theorem constructor_suggestionsQuery_from_query c :
  truthy (prop (config c) "suggestionsQuery") = true ->
  (forall other,
     truthy other = true ->
     new_Searchbase (with_config_property c "suggestionsQuery" other) = new_Searchbase c) /\
  (forall s tr,
     new_Searchbase c = (Ok tt, s, tr) ->
     exists Q,
       finalQuery s (destructure_query (prop (config c) "query")).1 = Ok Q /\
       field s "_suggestionsQuery" =
         VObj (spread (spread {[ "query" := Q ]} {[ "size" := VNum 10 ]})
                      (own_props (destructure_query (prop (config c) "query")).2)) /\
       (truthy (prop (config c) "query") = false ->
        exists d,
          defaultQuery (field s "value") (defaultQuery_options s) = Ok d /\
          field s "_suggestionsQuery" =
            obj [("query", js_or d match_all); ("size", VNum 10)])).
Proof.
  intros Hsq. split; [intros; by apply constructor_ignores_suggestionsQuery|].
  intros s tr Hrun.
  pose proof (constructor_Ok_required _ _ _ Hrun) as Hreq.
  destruct (constructor_unfold c Hreq) as (s0 & Htail & _).
  rewrite Htail in Hrun. unfold constructor_tail in Hrun. cbn zeta in Hrun.
  apply bind_Ok_inv in Hrun as ([] & s1 & ? & ? & _ & Hrun & _).
  apply bind_Ok_inv in Hrun as ([] & s2 & ? & ? & _ & Hrun & _).
  apply bind_Ok_inv in Hrun as ([] & s3 & ? & ? & _ & Hrun & _).
  rewrite Hsq in Hrun. cbn [when] in Hrun.
  apply setSuggestionsQuery_inv in Hrun as (Q & HQ & ->).
  exists Q. rewrite finalQuery_assign by done. split; [exact HQ|].
  split; [apply field_assign_eq|].
  intros Hq. rewrite (destructure_query_falsy _ Hq) in HQ. cbn [fst] in HQ.
  unfold finalQuery in HQ. cbn [truthy] in HQ.
  destruct (defaultQuery _ _) as [d|] eqn:Hd; [|done].
  cbn [rbind] in HQ. injection HQ as <-.
  exists d. rewrite field_assign_ne by done.
  rewrite defaultQuery_options_assign by done. split; [exact Hd|].
  rewrite field_assign_eq, (destructure_query_falsy _ Hq). cbn [snd own_props].
  reflexivity.
Qed.

(** * Further properties of the code *)

(** ** QueryBuilder *)

Lemma field_entry_throws dataField :
  (exists e, field_entry dataField = Throw e) <-> dataField = VNull.
Proof.
  split.
  - intros [e He]. destruct dataField; try done; cbn in He; discriminate.
  - intros ->. by eexists.
Qed.

Lemma rmapM_field_entry_throws dataFields :
  (exists e, rmapM field_entry dataFields = Throw e) <-> In VNull dataFields.
Proof.
  induction dataFields as [|d l IH]; cbn [rmapM In].
  - split; [by intros [e He]|done].
  - destruct (field_entry d) as [b|e] eqn:Hd.
    + assert (d ≠ VNull) as Hne.
      { intros ->. discriminate. }
      destruct (rmapM field_entry l) as [bs|e'].
      * split; [by intros [e He]|]. intros [Heq|Hin]; [done|].
        apply IH in Hin as [e He]. discriminate.
      * split; [|by eexists]. intros _. right. apply IH. by eexists.
    + split; [|by eexists]. intros _. left.
      apply (proj1 (field_entry_throws d)). by eexists.
Qed.

Lemma rmapM_field_entry_entries dataFields fields :
  rmapM field_entry dataFields = Ok fields ->
  length fields = length dataFields /\
  forall i d, dataFields !! i = Some d ->
              exists f, fields !! i = Some f /\ field_entry d = Ok f.
Proof.
  revert fields. induction dataFields as [|d l IH]; intros fields; cbn [rmapM].
  - intros [= <-]. split; [done|]. intros i d Hi. by rewrite lookup_nil in Hi.
  - destruct (field_entry d) as [b|e] eqn:Hd; [|done].
    destruct (rmapM field_entry l) as [bs|e']; [|done].
    intros [= <-]. destruct (IH bs eq_refl) as [Hlen Hall].
    split; [cbn; by rewrite Hlen|].
    intros [|i] d' Hi; cbn in Hi.
    + injection Hi as <-. by exists b.
    + by apply Hall.
Qed.

(** X1. [shouldQuery], given an options object (or none), throws exactly
    when one of the data fields is [null]; [undefined], strings, numbers and
    objects without [field] are all accepted. *)
Theorem shouldQuery_throws_on_null_field value dataFields o :
  ((exists e, shouldQuery value dataFields (VObj o) = Throw e) <->
   In VNull dataFields) /\
  ((exists e, shouldQuery value dataFields VUndefined = Throw e) <->
   In VNull dataFields).
Proof.
  split; unfold shouldQuery; cbn [is_undefined];
    rewrite <- rmapM_field_entry_throws;
    (destruct (rmapM field_entry dataFields) as [fields|e];
     [|split; intros _; by eexists]);
    cbn [rbind shouldQuery_defaults obj get];
    (split; [|by intros [e He]]); intros [e He]; exfalso;
    repeat match type of He with
           | context [if ?b then _ else _] => destruct b
           end; discriminate.
Qed.

(** The two [multi_match] clauses of [shouldQuery] without search
    operators. *)
Definition is_multi_match (clause value fields : jsval) (type operator : string) : Prop :=
  exists m,
    clause = obj [("multi_match", VObj m)] /\
    m !! "query" = Some value /\
    m !! "fields" = Some fields /\
    m !! "type" = Some (VStr type) /\
    m !! "operator" = Some (VStr operator).

(** X2. What [shouldQuery] returns for an options object. One field string
    per data field, in order: a string is passed on as it is, an object gives
    [field] followed by [^weight] unless the weight is falsy. With search
    operators the result is the one descriptor; otherwise it is an array of
    exactly two [multi_match] clauses over the same value and fields, the
    second always a [phrase_prefix], both with operator [and] when
    [queryFormat] is ['and'] and [or] in every other case. *)
Theorem shouldQuery_result value dataFields o r :
  shouldQuery value dataFields (VObj o) = Ok r ->
  exists fields,
    length fields = length dataFields /\
    (forall i s, dataFields !! i = Some (VStr s) -> fields !! i = Some (VStr s)) /\
    (forall i d, dataFields !! i = Some (VObj d) ->
       fields !! i =
         Some (VStr (ToString (prop d "field") +:+
                     (if truthy (prop d "weight")
                      then "^" +:+ ToString (prop d "weight") else "")))) /\
    (truthy (prop o "searchOperators") = true ->
     r = obj [("query", value); ("fields", VArr fields);
              ("default_operator", prop o "queryFormat")]) /\
    (truthy (prop o "searchOperators") = false ->
     exists first second operator type,
       r = VArr [first; second] /\
       is_multi_match first value (VArr fields) type operator /\
       is_multi_match second value (VArr fields) "phrase_prefix" operator /\
       (prop o "queryFormat" = VStr "and" ->
        operator = "and" /\ type = "cross_fields") /\
       (prop o "queryFormat" ≠ VStr "and" ->
        operator = "or" /\ type = "best_fields")).
Proof.
  unfold shouldQuery. cbn [is_undefined].
  destruct (rmapM field_entry dataFields) as [fields|e] eqn:Hfields; [|done].
  apply rmapM_field_entry_entries in Hfields as [Hlen Hall].
  cbn [rbind get]. intros Hr. exists fields.
  split; [exact Hlen|]. split; [|split].
  - intros i s Hi. destruct (Hall _ _ Hi) as (f & -> & Hf).
    cbn in Hf. by injection Hf as <-.
  - intros i d Hi. destruct (Hall _ _ Hi) as (f & -> & Hf).
    cbn in Hf. by injection Hf as <-.
  - destruct (truthy (prop o "searchOperators")).
    + split; [|done]. intros _. by injection Hr as <-.
    + split; [done|]. intros _.
      destruct (prop o "queryFormat") as [| | | |qf| | | |] eqn:Hqf;
        try (injection Hr as <-;
             eexists _, _, "or", "best_fields";
             split; [reflexivity|];
             split; [eexists; repeat split; reflexivity|];
             split; [eexists; repeat split; reflexivity|];
             split; [intros; discriminate|done]).
      destruct (String.eqb qf "and") eqn:Hand.
      * apply String.eqb_eq in Hand as ->. injection Hr as <-.
        eexists _, _, "and", "cross_fields".
        split; [reflexivity|].
        split; [eexists; repeat split; reflexivity|].
        split; [eexists; repeat split; reflexivity|].
        split; [done|]. intros Hne. by destruct Hne.
      * apply String.eqb_neq in Hand. injection Hr as <-.
        eexists _, _, "or", "best_fields".
        split; [reflexivity|].
        split; [eexists; repeat split; reflexivity|].
        split; [eexists; repeat split; reflexivity|].
        split; [|done]. intros [= ->]. by destruct Hand.
Qed.

(** X3. When [defaultQuery] returns, it returns [null] exactly when the
    value is falsy; for every truthy value the result is a query object. *)
Theorem defaultQuery_null_iff_no_value value options d :
  defaultQuery value options = Ok d ->
  (d = VNull <-> truthy value = false) /\
  (truthy value = true -> exists m, d = VObj m).
Proof.
  unfold defaultQuery. intros H.
  destruct (truthy value) eqn:Hv.
  - assert (is_empty_string value = false) as Hne.
    { destruct value; try done. cbn in Hv |- *. by destruct (String.eqb s ""). }
    rewrite Hne in H.
    destruct (get options "dataField") as [df|]; [|done]. cbn [rbind] in H.
    destruct (get options "searchOperators") as [so|]; [|done]. cbn [rbind] in H.
    assert (exists m, d = VObj m) as [m ->].
    { destruct (truthy so);
        (destruct (shouldQuery _ _ _) as [q|]; [|done]); cbn [rbind truthy obj] in H;
        (destruct (get options "nestedField") as [nf|]; [|done]); cbn [rbind] in H;
        destruct (truthy nf); injection H as <-; by eexists. }
    split; [split; discriminate|]. intros _. by exists m.
  - cbn [rbind] in H.
    assert (d = VNull) as ->.
    { destruct (is_empty_string value); cbn [truthy] in H; by injection H as <-. }
    split; [done|discriminate].
Qed.

(** X4. A nested field only wraps: with a truthy [nestedField] and a truthy
    value, [defaultQuery] returns [{nested: {path, query}}] around exactly
    what it returns for the same options without [nestedField], and it
    throws when that throws. *)
Theorem defaultQuery_nested_wraps value o :
  truthy value = true ->
  truthy (prop o "nestedField") = true ->
  defaultQuery value (VObj o) =
    match defaultQuery value (VObj (delete "nestedField" o)) with
    | Ok q =>
        Ok (obj [("nested", obj [("path", prop o "nestedField"); ("query", q)])])
    | Throw e => Throw e
    end.
Proof.
  intros Hv Hn.
  assert (is_empty_string value = false) as Hne.
  { destruct value; try done. cbn in Hv |- *. by destruct (String.eqb s ""). }
  assert (forall k, k ≠ "nestedField" -> prop (delete "nestedField" o) k = prop o k)
    as Hother.
  { intros k Hk. unfold prop. by rewrite lookup_delete_ne. }
  assert (prop (delete "nestedField" o) "nestedField" = VUndefined) as Hdel.
  { unfold prop. by rewrite lookup_delete_eq. }
  assert (forall fields,
            shouldQuery value fields (VObj (delete "nestedField" o))
            = shouldQuery value fields (VObj o)) as Hshould.
  { intros fields. unfold shouldQuery. cbn [is_undefined get].
    by rewrite !Hother. }
  unfold defaultQuery. rewrite Hv, Hne. cbn [get rbind].
  rewrite !Hother by done. rewrite Hdel, Hn.
  destruct (truthy (prop o "searchOperators")); rewrite Hshould;
    destruct (shouldQuery _ _ _) as [q|e]; reflexivity.
Qed.

(** X5. [generateQueryOptions] throws exactly when [sortOptions] is truthy
    and its element [0] is [undefined] or [null], as for an empty array; it
    never throws otherwise. *)
Theorem generateQueryOptions_throws options :
  (exists e, generateQueryOptions options = Throw e) <->
  truthy (prop options "sortOptions") = true /\
  (get_index (prop options "sortOptions") 0 = Ok VUndefined \/
   get_index (prop options "sortOptions") 0 = Ok VNull).
Proof.
  unfold generateQueryOptions. fold (options_before_sort options).
  destruct (truthy (prop options "sortOptions")) eqn:Hs.
  - assert (exists first, get_index (prop options "sortOptions") 0 = Ok first)
      as [first Hfirst].
    { destruct (prop options "sortOptions"); try done; by eexists. }
    rewrite Hfirst. cbn [rbind]. split.
    + intros [e He]. split; [done|].
      destruct first; cbn in He; try discriminate; auto.
    + intros [_ [[= ->]|[= ->]]]; by eexists.
  - split; [|by intros [? _]]. intros [e He]. by destruct (_ && _).
Qed.

(** X6. What [generateQueryOptions] emits besides [sort]: [size] and [from]
    whenever they are not [undefined] ([null] and [0] are emitted), and a
    [_source] object exactly when [includeFields] or [excludeFields] is
    truthy, holding [includes] and [excludes] for the truthy ones only; no
    other key is ever emitted. *)
Theorem generateQueryOptions_projection options go :
  generateQueryOptions options = Ok go ->
  go !! "size" =
    (if is_undefined (prop options "size") then None
     else Some (prop options "size")) /\
  go !! "from" =
    (if is_undefined (prop options "from") then None
     else Some (prop options "from")) /\
  (truthy (prop options "includeFields") || truthy (prop options "excludeFields")
     = false -> go !! "_source" = None) /\
  (truthy (prop options "includeFields") || truthy (prop options "excludeFields")
     = true ->
   exists source,
     go !! "_source" = Some (VObj source) /\
     source !! "includes" =
       (if truthy (prop options "includeFields")
        then Some (prop options "includeFields") else None) /\
     source !! "excludes" =
       (if truthy (prop options "excludeFields")
        then Some (prop options "excludeFields") else None) /\
     forall k, is_Some (source !! k) -> k = "includes" \/ k = "excludes") /\
  (forall k, is_Some (go !! k) ->
             k = "size" \/ k = "from" \/ k = "_source" \/ k = "sort").
Proof.
  intros Hgo.
  assert (forall k, k ≠ "sort" -> go !! k = options_before_sort options !! k) as Hbase.
  { intros k Hk. revert Hgo. unfold generateQueryOptions.
    fold (options_before_sort options).
    destruct (truthy (prop options "sortOptions")).
    - destruct (get_index _ 0) as [first|]; [|done]. cbn [rbind].
      destruct (get first "dataField"); [|done]. cbn [rbind].
      destruct (get first "sortBy"); [|done]. cbn [rbind].
      intros [= <-]. by rewrite lookup_insert_ne.
    - destruct (_ && _); intros [= <-]; [by rewrite lookup_insert_ne|done]. }
  split; [|split; [|split; [|split]]].
  - rewrite Hbase by done. unfold options_before_sort.
    case_conditions; cbn zeta; by simplify_map_eq.
  - rewrite Hbase by done. unfold options_before_sort.
    case_conditions; cbn zeta; by simplify_map_eq.
  - intros Hnone. rewrite Hbase by done. unfold options_before_sort.
    rewrite Hnone. case_conditions; by simplify_map_eq.
  - intros Hsome. rewrite Hbase by done. unfold options_before_sort.
    rewrite Hsome. cbn zeta. eexists. rewrite lookup_insert_eq.
    split; [reflexivity|].
    destruct (truthy (prop options "includeFields")),
             (truthy (prop options "excludeFields"));
      (split; [by simplify_map_eq|]);
      (split; [by simplify_map_eq|]);
      intros k Hk; rewrite ?lookup_insert_is_Some, ?lookup_empty in Hk;
      repeat match goal with
             | H : _ \/ _ |- _ => destruct H
             | H : _ /\ _ |- _ => destruct H
             | H : is_Some None |- _ => by apply is_Some_None in H
             end; subst; auto.
  - intros k. exact (generateQueryOptions_keys options go k Hgo).
Qed.

(** ** The request pipeline, path by path *)

Lemma _fetchRequest_then_hook_rejected net s f e :
  transformedRequest f = Rejected e ->
  _fetchRequest_then net f s =
    (Ok (Some (Rejected e)), s,
     [ConsoleWarn "transformRequest rejected the promise with " e]).
Proof. intros Hreq. unfold _fetchRequest_then. by rewrite Hreq. Qed.

Lemma _fetchRequest_then_network_failure net s f final e :
  transformedRequest f = Resolved final ->
  fetch net (search_url s) final = Failed e ->
  _fetchRequest_then net f s =
    (Ok (Some (Rejected e)), s, [Fetch (search_url s) final]).
Proof.
  intros Hreq Hfetch. unfold _fetchRequest_then.
  rewrite Hreq, bind_self, bind_emit. fold (search_url s). by rewrite Hfetch.
Qed.

Lemma _fetchRequest_then_status net s f final res :
  transformedRequest f = Resolved final ->
  fetch net (search_url s) final = Responded res ->
  (400 <= res_status res)%Z ->
  _fetchRequest_then net f s =
    (Ok (Some (Rejected (res_self res))), with_search_id s res,
     [Fetch (search_url s) final]).
Proof.
  intros Hreq Hfetch Hstatus. unfold _fetchRequest_then.
  rewrite Hreq, bind_self, bind_emit. fold (search_url s).
  rewrite Hfetch, bind_when_update. fold (with_search_id s res).
  destruct (500 <=? res_status res)%Z; [reflexivity|].
  assert ((400 <=? res_status res)%Z = true) as -> by (apply Z.leb_le; lia).
  reflexivity.
Qed.

Lemma _handleTransformResponse_with_search_id s res data :
  _handleTransformResponse (with_search_id s res) data
  = _handleTransformResponse s data.
Proof. unfold with_search_id. by destruct (truthy (res_headers res)). Qed.

Lemma _fetchRequest_then_json_rejected net s f final res e :
  transformedRequest f = Resolved final ->
  fetch net (search_url s) final = Responded res ->
  (res_status res < 400)%Z ->
  res_json res = Rejected e ->
  _fetchRequest_then net f s =
    (Ok (Some (Rejected e)), with_search_id s res, [Fetch (search_url s) final]).
Proof.
  intros Hreq Hfetch Hstatus Hjson. unfold _fetchRequest_then.
  rewrite Hreq, bind_self, bind_emit. fold (search_url s).
  rewrite Hfetch, bind_when_update. fold (with_search_id s res).
  assert ((500 <=? res_status res)%Z = false) as -> by (apply Z.leb_gt; lia).
  assert ((400 <=? res_status res)%Z = false) as -> by (apply Z.leb_gt; lia).
  by rewrite Hjson.
Qed.

Lemma _fetchRequest_then_response_hook_rejected net s f final res data e :
  transformedRequest f = Resolved final ->
  fetch net (search_url s) final = Responded res ->
  (res_status res < 400)%Z ->
  res_json res = Resolved data ->
  _handleTransformResponse s data = Rejected e ->
  _fetchRequest_then net f s =
    (Ok (Some (Rejected e)), with_search_id s res,
     [Fetch (search_url s) final;
      ConsoleWarn "transformResponse rejected the promise with " e]).
Proof.
  intros Hreq Hfetch Hstatus Hjson Hres. unfold _fetchRequest_then.
  rewrite Hreq, bind_self, bind_emit. fold (search_url s).
  rewrite Hfetch, bind_when_update. fold (with_search_id s res).
  assert ((500 <=? res_status res)%Z = false) as -> by (apply Z.leb_gt; lia).
  assert ((400 <=? res_status res)%Z = false) as -> by (apply Z.leb_gt; lia).
  rewrite Hjson, bind_self, _handleTransformResponse_with_search_id, Hres.
  reflexivity.
Qed.

(** The object a successful request resolves with. *)
Definition response_object (net : Network) (res : Response) (body : jsval) : jsval :=
  VObj (<["_headers" := res_headers res]>
          (<["_timestamp" := Date_now net]> (own_props body))).

Lemma _fetchRequest_then_success net s f final res data body :
  transformedRequest f = Resolved final ->
  fetch net (search_url s) final = Responded res ->
  (res_status res < 400)%Z ->
  res_json res = Resolved data ->
  _handleTransformResponse s data = Resolved body ->
  truthy body && hasOwnProperty body "error" = false ->
  _fetchRequest_then net f s =
    (Ok (Some (Resolved (response_object net res body))), with_search_id s res,
     [Fetch (search_url s) final]).
Proof.
  intros Hreq Hfetch Hstatus Hjson Hres Hown. unfold _fetchRequest_then.
  rewrite Hreq, bind_self, bind_emit. fold (search_url s).
  rewrite Hfetch, bind_when_update. fold (with_search_id s res).
  assert ((500 <=? res_status res)%Z = false) as -> by (apply Z.leb_gt; lia).
  assert ((400 <=? res_status res)%Z = false) as -> by (apply Z.leb_gt; lia).
  rewrite Hjson, bind_self, _handleTransformResponse_with_search_id, Hres, Hown.
  reflexivity.
Qed.

(** The network calls of a trace. *)
Definition fetches (tr : list event) : list (string * jsval) :=
  omap (fun e => match e with Fetch url request => Some (url, request) | _ => None end) tr.

(** The instance after [_fetchRequest] has settled its promise, and the
    network calls made on the way. *)
Definition settled_instance (net : Network) (f : inflight) (s : Searchbase) : Searchbase :=
  match transformedRequest f with
  | Resolved final =>
      match fetch net (search_url s) final with
      | Responded res => with_search_id s res
      | Failed _ => s
      end
  | Rejected _ => s
  end.

Definition settled_fetches (f : inflight) (s : Searchbase) : list (string * jsval) :=
  match transformedRequest f with
  | Resolved final => [(search_url s, final)]
  | Rejected _ => []
  end.

Lemma _fetchRequest_then_cases net f s :
  exists outcome tr,
    _fetchRequest_then net f s = (Ok (Some outcome), settled_instance net f s, tr) /\
    fetches tr = settled_fetches f s /\
    spawned tr = [] /\
    (forall e, transformedRequest f = Rejected e -> outcome = Rejected e).
Proof.
  unfold settled_instance, settled_fetches.
  destruct (transformedRequest f) as [final|e] eqn:Hreq.
  2:{ eexists _, _.
      split; [by apply _fetchRequest_then_hook_rejected|].
      split; [done|]. split; [done|]. by intros e' [= <-]. }
  destruct (fetch net (search_url s) final) as [res|e] eqn:Hfetch.
  2:{ eexists _, _.
      split; [by eapply _fetchRequest_then_network_failure|]. by repeat split. }
  destruct (Z_lt_le_dec (res_status res) 400) as [Hlt|Hge].
  2:{ eexists _, _.
      split; [by eapply _fetchRequest_then_status|]. by repeat split. }
  destruct (res_json res) as [data|e] eqn:Hjson.
  2:{ eexists _, _.
      split; [by eapply _fetchRequest_then_json_rejected|]. by repeat split. }
  destruct (_handleTransformResponse s data) as [body|e] eqn:Hres.
  2:{ eexists _, _.
      split; [by eapply _fetchRequest_then_response_hook_rejected|].
      by repeat split. }
  destruct (truthy body && hasOwnProperty body "error") eqn:Hown.
  - apply andb_true_iff in Hown as [_ Hown].
    eexists _, _.
    split; [by eapply _fetchRequest_then_error_body|]. by repeat split.
  - eexists _, _.
    split; [by eapply _fetchRequest_then_success|]. by repeat split.
Qed.

Lemma settled_instance_cases net f s :
  settled_instance net f s = s \/
  exists id, settled_instance net f s = assign s "_searchId" id.
Proof.
  unfold settled_instance, with_search_id.
  destruct (transformedRequest f) as [final|]; [|by left].
  destruct (fetch net (search_url s) final) as [res|]; [|by left].
  destruct (truthy (res_headers res)); [right; by eexists|by left].
Qed.

(** X7. The promise of [_fetchRequest] is settled on every path of the
    code. The embedding describes the runs in which each promise the code
    waits for (of [transformRequest], of [fetch], of [res.json()], of
    [transformResponse]) has settled; the code has no timeout, so where one
    of these stays pending its own promise does too. In these runs, for all
    outcomes of the four, [resolve] or [reject] is reached and nothing is
    thrown; the instance changes in [_searchId] at most; at most one network
    call is made, and none when [transformRequest] rejects. A network
    failure, a body that cannot be read and a rejecting [transformResponse]
    each reject with their reason, the last after a warning. *)
Theorem _fetchRequest_settles_on_every_path net f s :
  (exists outcome s1 tr,
     _fetchRequest_then net f s = (Ok (Some outcome), s1, tr) /\
     (s1 = s \/ exists id, s1 = assign s "_searchId" id) /\
     (length (fetches tr) <= 1)%nat /\
     (forall e, transformedRequest f = Rejected e ->
                outcome = Rejected e /\ s1 = s /\ fetches tr = [])) /\
  (forall final e,
     transformedRequest f = Resolved final ->
     fetch net (search_url s) final = Failed e ->
     _fetchRequest_then net f s =
       (Ok (Some (Rejected e)), s, [Fetch (search_url s) final])) /\
  (forall final res e,
     transformedRequest f = Resolved final ->
     fetch net (search_url s) final = Responded res ->
     (res_status res < 400)%Z ->
     res_json res = Rejected e ->
     _fetchRequest_then net f s =
       (Ok (Some (Rejected e)), with_search_id s res,
        [Fetch (search_url s) final])) /\
  (forall final res data e,
     transformedRequest f = Resolved final ->
     fetch net (search_url s) final = Responded res ->
     (res_status res < 400)%Z ->
     res_json res = Resolved data ->
     _handleTransformResponse s data = Rejected e ->
     _fetchRequest_then net f s =
       (Ok (Some (Rejected e)), with_search_id s res,
        [Fetch (search_url s) final;
         ConsoleWarn "transformResponse rejected the promise with " e])).
Proof.
  split; [|split; [intros final e; apply _fetchRequest_then_network_failure
                  |split; [intros final res e; apply _fetchRequest_then_json_rejected
                          |intros final res data e;
                           apply _fetchRequest_then_response_hook_rejected]]].
  destruct (_fetchRequest_then_cases net f s) as (outcome & tr & Hrun & Hf & _ & Hrej).
  exists outcome, (settled_instance net f s), tr.
  split; [exact Hrun|]. split; [apply settled_instance_cases|].
  rewrite Hf. unfold settled_fetches, settled_instance. split.
  - destruct (transformedRequest f); cbn; lia.
  - intros e He. split; [by apply Hrej|]. by rewrite He.
Qed.

Lemma triggerQuery_then_run net f options s outcome s1 t1 :
  _fetchRequest_then net f s = (Ok (Some outcome), s1, t1) ->
  triggerQuery_then net f options s =
    match outcome with
    | Resolved response =>
        let s2 := with_results s1 (setRaw (results s1) response) in
        (Ok tt, s2,
         t1 ++
         callback_events (callbacks s2) "results"
                         (PResults (results s2)) (PResults (results s2)) ++
         request_events (stateChanges_only options) s2 ++
         notification_events (stateChanges_only options) s2 "results"
                             (PResults (results s2)) (PResults (results s2)))
    | Rejected err =>
        (Ok tt, assign s1 "error" err,
         t1 ++
         (callback_events (callbacks s1) "error" (PVal (field s1 "error")) (PVal err) ++
          request_events (stateChanges_only options) (assign s1 "error" err) ++
          notification_events (stateChanges_only options) s1 "error"
                              (PVal (field s1 "error")) (PVal err)) ++
         [ConsoleError err])
    end.
Proof.
  intros Hrun. unfold triggerQuery_then. rewrite (bind_run _ _ _ _ _ _ Hrun).
  destruct outcome as [response|err].
  - unfold try_catch. rewrite bind_update, bind_self, _applyOptions_run.
    reflexivity.
  - unfold triggerQuery_catch, _setError.
    rewrite (bind_run _ _ _ _ _ _ (set_property_run _ _ _ _)). reflexivity.
Qed.

Lemma triggerSuggestionsQuery_then_run net f options s outcome s1 t1 :
  _fetchRequest_then net f s = (Ok (Some outcome), s1, t1) ->
  triggerSuggestionsQuery_then net f options s =
    match outcome with
    | Resolved response =>
        let s2 := with_suggestions s1 (setRaw (suggestions s1) response) in
        (Ok tt, s2,
         t1 ++
         callback_events (callbacks s2) "suggestions"
                         (PResults (suggestions s2)) (PResults (suggestions s2)) ++
         request_events (stateChanges_only options) s2 ++
         notification_events (stateChanges_only options) s2 "suggestions"
                             (PResults (suggestions s2)) (PResults (suggestions s2)))
    | Rejected err =>
        (Ok tt, assign s1 "suggestionsError" err,
         t1 ++
         (callback_events (callbacks s1) "suggestionsError"
                          (PVal (field s1 "suggestionsError")) (PVal err) ++
          request_events (stateChanges_only options)
                         (assign s1 "suggestionsError" err) ++
          notification_events (stateChanges_only options) s1 "suggestionsError"
                              (PVal (field s1 "suggestionsError")) (PVal err)) ++
         [ConsoleError err])
    end.
Proof.
  intros Hrun. unfold triggerSuggestionsQuery_then.
  rewrite (bind_run _ _ _ _ _ _ Hrun).
  destruct outcome as [response|err].
  - unfold try_catch. rewrite bind_update, bind_self, _applyOptions_run.
    reflexivity.
  - unfold triggerSuggestionsQuery_catch, _setSuggestionsError.
    rewrite (bind_run _ _ _ _ _ _ (set_property_run _ _ _ _)). reflexivity.
Qed.

Lemma spawned_applied_quietly options key prev nxt cb s s' :
  spawned (callback_events cb key prev nxt ++
           request_events (stateChanges_only options) s ++
           notification_events (stateChanges_only options) s' key prev nxt) = [].
Proof.
  by rewrite !spawned_app, spawned_callback_events, spawned_request_events,
    spawned_notification_events.
Qed.

Lemma settled_instance_frame net f s :
  results (settled_instance net f s) = results s /\
  suggestions (settled_instance net f s) = suggestions s /\
  callbacks (settled_instance net f s) = callbacks s /\
  stateChanges (settled_instance net f s) = stateChanges s /\
  forall k, k ≠ "_searchId" -> field (settled_instance net f s) k = field s k.
Proof.
  destruct (settled_instance_cases net f s) as [->|[id ->]]; [done|].
  repeat split; try done. intros k Hk. by apply field_assign_ne.
Qed.

(** X8. The handlers of [triggerQuery] never throw and start no further
    request. When the request resolves they replace the raw result set and
    leave [error] as it was, so an error stored earlier stays; [onResults],
    when set, receives the new result set as both of its arguments. When the
    request is rejected they store the reason in [error], log it and leave
    [results] as it was. [suggestions] is untouched either way. *)
Theorem triggerQuery_then_results_or_error net f options s :
  exists outcome s1 t1 s' tr,
    _fetchRequest_then net f s = (Ok (Some outcome), s1, t1) /\
    triggerQuery_then net f options s = (Ok tt, s', tr) /\
    spawned tr = [] /\
    suggestions s' = suggestions s /\
    match outcome with
    | Resolved response =>
        results s' = setRaw (results s) response /\
        field s' "error" = field s "error" /\
        (onResults (callbacks s) = true ->
         In (Call "onResults" [PResults (results s'); PResults (results s')]) tr)
    | Rejected err =>
        results s' = results s /\
        field s' "error" = err /\
        In (ConsoleError err) tr
    end.
Proof.
  destruct (_fetchRequest_then_cases net f s) as (outcome & t1 & Hrun & _ & Hsp & _).
  destruct (settled_instance_frame net f s) as (Hr & Hsu & Hcb & _ & Hfield).
  pose proof (triggerQuery_then_run net f options s _ _ _ Hrun) as Hthen.
  exists outcome, (settled_instance net f s), t1.
  destruct outcome as [response|err]; cbn zeta in Hthen;
    eexists _, _; (split; [exact Hrun|]); (split; [exact Hthen|]).
  - split; [by rewrite spawned_app, Hsp, spawned_applied_quietly|].
    split; [exact Hsu|]. split; [cbn; by rewrite Hr|].
    split; [by apply Hfield|].
    intros Hon. apply in_or_app. right. apply in_or_app. left.
    unfold callback_events. cbn [callbacks with_results]. rewrite Hcb, Hon.
    cbn. by left.
  - split.
    { by rewrite spawned_app, Hsp, spawned_app, spawned_applied_quietly. }
    split; [exact Hsu|]. split; [exact Hr|].
    split; [apply field_assign_eq|].
    apply in_or_app. right. apply in_or_app. right. by left.
Qed.

(** X9. The handlers of [triggerSuggestionsQuery] mirror those of
    [triggerQuery] on the suggestions side: a resolved request replaces the
    raw suggestions, a rejected one is stored in [suggestionsError] and
    logged; they never touch [results] or [error], never throw and start no
    request. *)
Theorem triggerSuggestionsQuery_then_suggestions_or_error net f options s :
  exists outcome s1 t1 s' tr,
    _fetchRequest_then net f s = (Ok (Some outcome), s1, t1) /\
    triggerSuggestionsQuery_then net f options s = (Ok tt, s', tr) /\
    spawned tr = [] /\
    results s' = results s /\
    field s' "error" = field s "error" /\
    match outcome with
    | Resolved response =>
        suggestions s' = setRaw (suggestions s) response /\
        field s' "suggestionsError" = field s "suggestionsError"
    | Rejected err =>
        suggestions s' = suggestions s /\
        field s' "suggestionsError" = err /\
        In (ConsoleError err) tr
    end.
Proof.
  destruct (_fetchRequest_then_cases net f s) as (outcome & t1 & Hrun & _ & Hsp & _).
  destruct (settled_instance_frame net f s) as (Hr & Hsu & Hcb & _ & Hfield).
  pose proof (triggerSuggestionsQuery_then_run net f options s _ _ _ Hrun) as Hthen.
  exists outcome, (settled_instance net f s), t1.
  destruct outcome as [response|err]; cbn zeta in Hthen;
    eexists _, _; (split; [exact Hrun|]); (split; [exact Hthen|]).
  - split; [by rewrite spawned_app, Hsp, spawned_applied_quietly|].
    split; [exact Hr|]. split; [by apply Hfield|].
    split; [cbn; by rewrite Hsu|]. by apply Hfield.
  - split.
    { by rewrite spawned_app, Hsp, spawned_app, spawned_applied_quietly. }
    split; [exact Hr|].
    split; [rewrite field_assign_ne by done; by apply Hfield|].
    split; [exact Hsu|]. split; [apply field_assign_eq|].
    apply in_or_app. right. apply in_or_app. right. by left.
Qed.

Lemma fetches_app t1 t2 : fetches (t1 ++ t2) = fetches t1 ++ fetches t2.
Proof. apply omap_app. Qed.

Lemma fetches_next o key prev nxt : fetches (next o key prev nxt) = [].
Proof. unfold next. induction (List.filter _ o) as [|sub l IH]; [done|apply IH]. Qed.

Lemma fetches_applied options key prev nxt cb s s' :
  fetches (callback_events cb key prev nxt ++
           request_events options s ++
           notification_events options s' key prev nxt) = [].
Proof.
  rewrite !fetches_app.
  assert (fetches (callback_events cb key prev nxt) = []) as ->
    by (unfold callback_events; case_conditions; reflexivity).
  assert (fetches (request_events options s) = []) as ->
    by (unfold request_events; case_conditions; reflexivity).
  unfold notification_events. destruct (opt_stateChanges options); [|done].
  cbn. apply fetches_next.
Qed.

(** X10. A response with status 400 or more is rejected with the response
    object itself, whatever its body is: the body is never read, yet the
    search id of the response headers is recorded all the same.
    [triggerQuery] stores the response in [error]. *)
Theorem failing_status_rejects_with_response net f options s final res :
  transformedRequest f = Resolved final ->
  fetch net (search_url s) final = Responded res ->
  (400 <= res_status res)%Z ->
  _fetchRequest_then net f s =
    (Ok (Some (Rejected (res_self res))), with_search_id s res,
     [Fetch (search_url s) final]) /\
  (truthy (res_headers res) = true ->
   field (with_search_id s res) "_searchId" = js_or (res_search_id res) VNull) /\
  exists tr,
    triggerQuery_then net f options s =
      (Ok tt, assign (with_search_id s res) "error" (res_self res), tr) /\
    fetches tr = [(search_url s, final)].
Proof.
  intros Hreq Hfetch Hstatus.
  pose proof (_fetchRequest_then_status net s f final res Hreq Hfetch Hstatus) as Hrun.
  split; [exact Hrun|]. split.
  - intros Hh. unfold with_search_id. rewrite Hh. apply field_assign_eq.
  - rewrite (triggerQuery_then_run net f options s _ _ _ Hrun).
    eexists. split; [reflexivity|].
    by rewrite fetches_app, fetches_app, fetches_applied.
Qed.

(** X11. When [transformRequest] rejects, no network call is made: the
    request promise is rejected with the hook's reason after one warning,
    the instance is untouched until [triggerQuery] stores the reason in
    [error], and [results] stays as it was. *)
Theorem rejected_transformRequest_makes_no_call net requestBody options s hook e :
  transformRequest s = Some hook ->
  hook (requestOptions (_fetchRequest requestBody s)) = Rejected e ->
  forall s1,
    _fetchRequest_then net (_fetchRequest requestBody s) s1 =
      (Ok (Some (Rejected e)), s1,
       [ConsoleWarn "transformRequest rejected the promise with " e]) /\
    exists tr,
      triggerQuery_then net (_fetchRequest requestBody s) options s1 =
        (Ok tt, assign s1 "error" e, tr) /\
      fetches tr = [] /\
      results (assign s1 "error" e) = results s1.
Proof.
  intros Hhook Hrej s1.
  assert (transformedRequest (_fetchRequest requestBody s) = Rejected e) as Hreq.
  { cbn. unfold _handleTransformRequest. rewrite Hhook. exact Hrej. }
  pose proof (_fetchRequest_then_hook_rejected net s1 _ e Hreq) as Hrun.
  split; [exact Hrun|].
  rewrite (triggerQuery_then_run net _ options s1 _ _ _ Hrun).
  eexists. split; [reflexivity|].
  split; [by rewrite fetches_app, fetches_app, fetches_applied|done].
Qed.

(** X12. A response below 400 whose transformed body has no own [error]
    resolves with the body's properties plus [_timestamp] and [_headers],
    which replace properties of the body with these names; [triggerQuery]
    then makes it the raw result set and keeps [error]. *)
Theorem successful_response_becomes_results net f options s final res data body :
  transformedRequest f = Resolved final ->
  fetch net (search_url s) final = Responded res ->
  (res_status res < 400)%Z ->
  res_json res = Resolved data ->
  _handleTransformResponse s data = Resolved body ->
  truthy body && hasOwnProperty body "error" = false ->
  exists response tr,
    _fetchRequest_then net f s =
      (Ok (Some (Resolved (VObj response))), with_search_id s res,
       [Fetch (search_url s) final]) /\
    response !! "_timestamp" = Some (Date_now net) /\
    response !! "_headers" = Some (res_headers res) /\
    (forall k, k ≠ "_timestamp" -> k ≠ "_headers" ->
               response !! k = own_props body !! k) /\
    triggerQuery_then net f options s =
      (Ok tt,
       with_results (with_search_id s res) (setRaw (results s) (VObj response)),
       tr) /\
    raw (setRaw (results s) (VObj response)) = VObj response /\
    field (with_results (with_search_id s res)
                        (setRaw (results s) (VObj response))) "error"
      = field s "error".
Proof.
  intros Hreq Hfetch Hstatus Hjson Hres Hown.
  pose proof (_fetchRequest_then_success net s f final res data body
                Hreq Hfetch Hstatus Hjson Hres Hown) as Hrun.
  assert (results (with_search_id s res) = results s) as Hr
    by (unfold with_search_id; by destruct (truthy (res_headers res))).
  eexists _, _. split; [exact Hrun|].
  split; [by simplify_map_eq|]. split; [by simplify_map_eq|].
  split; [intros k Ht Hh; by simplify_map_eq|].
  rewrite (triggerQuery_then_run net f options s _ _ _ Hrun). cbn zeta.
  rewrite Hr. split; [reflexivity|]. split; [reflexivity|].
  unfold with_search_id. destruct (truthy (res_headers res)); [|done].
  by apply field_assign_ne.
Qed.


(** ** Setters *)

(** X14. [setHeaders] merges: afterwards every header of the argument has
    the argument's value and every other header is as before, so no header
    is ever removed; the call never throws. *)
Theorem setHeaders_merges headers options s :
  exists merged tr,
    setHeaders headers options s = (Ok tt, assign s "headers" (VObj merged), tr) /\
    field (assign s "headers" (VObj merged)) "headers" = VObj merged /\
    (forall k v, own_props headers !! k = Some v -> merged !! k = Some v) /\
    (forall k, own_props headers !! k = None ->
               merged !! k = own_props (field s "headers") !! k) /\
    (forall k, is_Some (own_props (field s "headers") !! k) -> is_Some (merged !! k)).
Proof.
  exists (spread (own_props (field s "headers")) (own_props headers)).
  unfold setHeaders. rewrite bind_self.
  destruct options as [options|]; eexists;
    (split; [apply set_property_run|]);
    (split; [apply field_assign_eq|]);
    (split; [intros k v Hk; by rewrite spread_lookup, Hk|]);
    (split; [intros k Hk; by rewrite spread_lookup, Hk|]);
    intros k Hk; rewrite spread_lookup; by destruct (own_props headers !! k).
Qed.

(** The body of the request in flight. *)
Definition request_body (f : inflight) : jsval :=
  prop (own_props (requestOptions f)) "body".

Lemma request_body__fetchRequest requestBody s :
  request_body (_fetchRequest requestBody s) = JSON_stringify requestBody.
Proof. reflexivity. Qed.

Lemma keeps_call_setter f v options :
  f ≠ Query -> keeps "_query" (call_setter f v options).
Proof.
  intros Hf. destruct f; try done; cbn [call_setter].
  - by apply keeps_setHeaders.
  - by apply keeps_setSuggestionsQuery.
  - by apply keeps_set_property.
  - by apply keeps_set_property.
  - by apply keeps_set_property.
  - by apply keeps_set_property.
  - by apply keeps_set_property.
  - by apply keeps_set_property.
  - by apply keeps_set_property.
  - by apply keeps_set_property.
  - by apply keeps_set_property.
  - by apply keeps_setValue.
Qed.

(** X15. No setter but [setQuery] rebuilds the query. After [setSize],
    [setFrom], [setSortBy], [setDataField], a gate-free [setValue] and the
    others, [_query] is what it was, and the request such a call starts with
    [triggerQuery] set carries the serialisation of that earlier query. *)
Theorem setters_leave_query_stale f v options s s' tr :
  f ≠ Query ->
  beforeValueChange s = None ->
  call_setter f v (Some options) s = (Ok tt, s', tr) ->
  field s' "_query" = field s "_query" /\
  forall p, In p (spawned tr) ->
            exists request,
              p = PendingQuery request defaultOption /\
              request_body request = JSON_stringify (field s "_query").
Proof.
  intros Hf Hgate Hrun.
  pose proof (keeps_call_setter f v (Some options) Hf _ _ _ _ Hrun) as Hkeep.
  split; [exact Hkeep|].
  destruct (call_setter_effects f v options s s' tr (fun _ => Hgate) Hrun) as [Hsp _].
  rewrite Hsp. intros p Hp. destruct (opt_triggerQuery options); [|done].
  destruct Hp as [<-|[]]. eexists. split; [reflexivity|].
  by rewrite request_body__fetchRequest, Hkeep.
Qed.

Lemma setValue_then_resolved resolution value options s :
  setValue_then (Resolved resolution) value options s
    = set_property "value" value (Some options) s.
Proof.
  cbn [setValue_then]. unfold try_catch, performUpdate.
  by rewrite set_property_run.
Qed.

(** X16. The gate of [setValue] can only allow or veto. With a gate,
    [setValue] changes nothing and spawns the gate's promise; when that
    promise resolves, with whatever value, the handlers assign the value
    that was passed to [setValue] and run the apply step exactly as the
    gate-free setter would have. *)
Theorem resolved_gate_applies_original_value net gate resolution value options s :
  beforeValueChange s = Some gate ->
  gate value = Resolved resolution ->
  setValue value (Some options) s
    = (Ok tt, s, [Spawn (PendingValue (Resolved resolution) value options)]) /\
  settle net (PendingValue (Resolved resolution) value options) s
    = set_property "value" value (Some options) s /\
  exists tr,
    settle net (PendingValue (Resolved resolution) value options) s
      = (Ok tt, assign s "value" value, tr) /\
    field (assign s "value" value) "value" = value.
Proof.
  intros Hgate Hres. split.
  { unfold setValue. cbn [default from_option]. by rewrite bind_self, Hgate, Hres. }
  cbn [settle]. rewrite setValue_then_resolved. split; [reflexivity|].
  rewrite set_property_run. eexists. split; [reflexivity|apply field_assign_eq].
Qed.

(** ** The constructor, step by step *)

(** The headers the constructor builds before it looks at the [headers] of
    the configuration. *)
Definition standard_headers (c : Config) : gmap string jsval :=
  let base : gmap string jsval :=
    list_to_map [("Accept", VStr "application/json");
                 ("Content-Type", VStr "application/json")] in
  if truthy (prop (config c) "credentials")
  then <["Authorization" :=
           VStr ("Basic " +:+ btoa (ToString (prop (config c) "credentials")))]> base
  else base.

Lemma constructor_initial c :
  required_present c = true ->
  exists s0,
    new_Searchbase c = constructor_tail c s0 /\
    field s0 "headers" = VObj (standard_headers c) /\
    field s0 "value" = VUndefined /\
    field s0 "_query" = VUndefined /\
    field s0 "_suggestionsQuery" = VUndefined /\
    field s0 "_micStatus" = VUndefined /\
    field s0 "_micInstance" = VUndefined /\
    beforeValueChange s0 = config_beforeValueChange c /\
    callbacks s0 = no_callbacks /\
    stateChanges s0 = [].
Proof.
  unfold required_present. rewrite !andb_true_iff. intros [[Hi Hu] Hd].
  unfold new_Searchbase, constructor. cbn zeta. rewrite Hi, Hu, Hd.
  cbn [negb when]. rewrite !bind_ret, !bind_update, bind_self, bind_when_update.
  fold (constructor_tail c).
  eexists. split; [reflexivity|].
  match goal with
  | |- context [truthy (field ?st "credentials")] =>
      assert (field st "credentials" = js_or (prop (config c) "credentials") (VStr ""))
        as Hcred by (rewrite field_assign_ne by done; reflexivity)
  end.
  rewrite Hcred.
  unfold standard_headers, js_or.
  destruct (truthy (prop (config c) "credentials")) eqn:Hc; cbn [truthy String.eqb negb];
    [rewrite Hc|]; cbn [blank];
    repeat split;
    repeat first [ done
                 | rewrite field_assign_eq
                 | rewrite field_assign_ne by done ].
Qed.

Definition silent_options : Options :=
  {| opt_triggerQuery := false; opt_stateChanges := false |}.

Lemma when_setHeaders_run headers s :
  when (truthy headers) (setHeaders headers (Some silent_options)) s =
  (Ok tt,
   (if truthy headers
    then assign s "headers"
           (VObj (spread (own_props (field s "headers")) (own_props headers)))
    else s),
   []).
Proof.
  destruct (truthy headers); [|reflexivity]. cbn [when].
  unfold setHeaders. by rewrite bind_self, set_property_run.
Qed.

Lemma _updateQuery_trace query queryOptions s r s' tr :
  _updateQuery query queryOptions s = (r, s', tr) -> tr = [].
Proof.
  unfold _updateQuery. rewrite bind_self.
  destruct (generateQueryOptions (_updateQuery_options s)) as [go|e];
    [rewrite bind_lift_Ok|rewrite bind_lift_Throw; by intros [= _ _ <-]].
  destruct (finalQuery s query) as [q|e];
    [rewrite bind_lift_Ok|rewrite bind_lift_Throw; by intros [= _ _ <-]].
  by intros [= _ _ <-].
Qed.

(** The constructor after [if (headers)]. *)
Definition constructor_rest (c : Config) : M unit :=
  let arg := prop (config c) in
  (when (truthy (arg "value"))
        (setValue (arg "value")
           (Some {| opt_triggerQuery := negb (truthy (arg "query"));
                    opt_stateChanges := true |})) ;;
   (if truthy (arg "query") then
      setQuery (arg "query")
        (Some {| opt_triggerQuery := true; opt_stateChanges := false |})
    else _updateQuery VUndefined VUndefined) ;;
   when (truthy (arg "suggestionsQuery"))
        (setSuggestionsQuery (arg "query")
           (Some {| opt_triggerQuery := true; opt_stateChanges := false |})))%M.

Definition with_config_headers (c : Config) (s : Searchbase) : Searchbase :=
  let headers := prop (config c) "headers" in
  if truthy headers
  then assign s "headers"
         (VObj (spread (own_props (field s "headers")) (own_props headers)))
  else s.

Lemma constructor_tail_run c s :
  constructor_tail c s = constructor_rest c (with_config_headers c s).
Proof.
  unfold constructor_tail. cbn zeta.
  rewrite (bind_run _ _ _ _ _ _ (when_setHeaders_run _ _)).
  fold (constructor_rest c). fold (with_config_headers c s).
  by destruct (constructor_rest c (with_config_headers c s)) as [[r s'] t].
Qed.

Lemma keeps_constructor_rest c k :
  "value" ≠ k -> "_query" ≠ k -> "_suggestionsQuery" ≠ k ->
  keeps k (constructor_rest c).
Proof.
  intros Hv Hq Hs. unfold constructor_rest. cbn zeta.
  apply keeps_bind; [by apply keeps_when, keeps_setValue|intros _].
  apply keeps_bind; [|intros _; by apply keeps_when, keeps_setSuggestionsQuery].
  destruct (truthy _); [by apply keeps_setQuery|by apply keeps__updateQuery].
Qed.

Lemma with_config_headers_field c s k :
  k ≠ "headers" -> field (with_config_headers c s) k = field s k.
Proof.
  intros Hk. unfold with_config_headers. cbn zeta.
  destruct (truthy _); [|done]. by rewrite field_assign_ne.
Qed.

Lemma with_config_headers_parts c s :
  beforeValueChange (with_config_headers c s) = beforeValueChange s /\
  callbacks (with_config_headers c s) = callbacks s /\
  stateChanges (with_config_headers c s) = stateChanges s.
Proof. unfold with_config_headers. cbn zeta. by destruct (truthy _). Qed.

(** X17. The headers of a constructed instance are the two JSON headers,
    [Authorization: Basic btoa(credentials)] exactly when credentials are
    given, and over them the [headers] of the configuration: a configured
    header wins over each of the three, and nothing else is added. *)
Theorem constructor_headers c r s tr :
  required_present c = true ->
  new_Searchbase c = (r, s, tr) ->
  exists hs,
    field s "headers" = VObj hs /\
    (forall k v, own_props (js_or (prop (config c) "headers") VNull) !! k = Some v ->
                 hs !! k = Some v) /\
    (forall k, own_props (js_or (prop (config c) "headers") VNull) !! k = None ->
       hs !! k =
         if String.eqb k "Accept" || String.eqb k "Content-Type"
         then Some (VStr "application/json")
         else if String.eqb k "Authorization" && truthy (prop (config c) "credentials")
         then Some (VStr ("Basic " +:+ btoa (ToString (prop (config c) "credentials"))))
         else None).
Proof.
  intros Hreq Hrun.
  destruct (constructor_initial c Hreq) as (s0 & Hnew & Hh & _).
  rewrite Hnew, constructor_tail_run in Hrun.
  apply (keeps_constructor_rest c "headers") in Hrun; [|done..].
  assert (forall k, standard_headers c !! k =
            if String.eqb k "Accept" || String.eqb k "Content-Type"
            then Some (VStr "application/json")
            else if String.eqb k "Authorization" && truthy (prop (config c) "credentials")
            then Some (VStr ("Basic " +:+ btoa (ToString (prop (config c) "credentials"))))
            else None) as Hstd.
  { intros k. unfold standard_headers. cbn zeta.
    destruct (String.eqb_spec k "Accept") as [->|Ha];
      [by destruct (truthy _); simplify_map_eq|].
    destruct (String.eqb_spec k "Content-Type") as [->|Hc];
      [by destruct (truthy _); simplify_map_eq|].
    destruct (String.eqb_spec k "Authorization") as [->|Hz];
      destruct (truthy _); cbn [orb andb]; by simplify_map_eq. }
  rewrite Hrun. unfold with_config_headers, js_or. cbn zeta.
  destruct (truthy (prop (config c) "headers")).
  - rewrite field_assign_eq, Hh. eexists. split; [reflexivity|].
    split.
    + intros k v Hk. by rewrite spread_lookup, Hk.
    + intros k Hk. rewrite spread_lookup, Hk. apply Hstd.
  - rewrite Hh. eexists. split; [reflexivity|].
    split; [intros k v Hk; cbn [own_props] in Hk; by rewrite lookup_empty in Hk|].
    intros k _. apply Hstd.
Qed.

Lemma setValue_run value options s :
  setValue value (Some options) s =
  match beforeValueChange s with
  | Some gate => (Ok tt, s, [Spawn (PendingValue (gate value) value options)])
  | None => set_property "value" value (Some options) s
  end.
Proof.
  unfold setValue. cbn [default from_option]. rewrite bind_self.
  by destruct (beforeValueChange s).
Qed.

(** X18. Constructed with a value, without a query and without a gate, the
    instance sends its first search before any query exists: the
    constructor calls [setValue] with [triggerQuery] set and only then
    [_updateQuery], so the body of that request is the serialisation of
    [undefined]. Without a suggestions query it is the only request. *)
Theorem constructor_first_request_has_no_query c r s tr :
  required_present c = true ->
  truthy (prop (config c) "value") = true ->
  truthy (prop (config c) "query") = false ->
  config_beforeValueChange c = None ->
  new_Searchbase c = (r, s, tr) ->
  exists request rest,
    spawned tr = PendingQuery request defaultOption :: rest /\
    request_body request = JSON_stringify VUndefined /\
    (truthy (prop (config c) "suggestionsQuery") = false -> rest = []).
Proof.
  intros Hreq Hv Hq Hgate Hrun.
  destruct (constructor_initial c Hreq)
    as (s0 & Hnew & _ & _ & Hquery & _ & _ & _ & Hg & _).
  rewrite Hnew, constructor_tail_run in Hrun.
  destruct (with_config_headers_parts c s0) as (Hg1 & _).
  pose proof (with_config_headers_field c s0 "_query" ltac:(done)) as Hq1.
  set (s1 := with_config_headers c s0) in *.
  unfold constructor_rest in Hrun. cbn zeta in Hrun.
  rewrite Hv, Hq in Hrun. cbn [when negb] in Hrun.
  assert (setValue (prop (config c) "value")
            (Some {| opt_triggerQuery := true; opt_stateChanges := true |}) s1
          = set_property "value" (prop (config c) "value")
              (Some {| opt_triggerQuery := true; opt_stateChanges := true |}) s1)
    as Hset by (by rewrite setValue_run, Hg1, Hg, Hgate).
  rewrite set_property_run in Hset.
  rewrite (bind_run _ _ _ _ _ _ Hset) in Hrun.
  match type of Hrun with
  | match ?k with _ => _ end = _ => destruct k as [[r2 s2] t2] eqn:Hk
  end.
  injection Hrun as <- <- <-.
  rewrite !spawned_app, spawned_callback_events. cbn [app].
  change (spawned (Spawn ?p :: ?l)) with (p :: spawned l).
  rewrite spawned_notification_events. cbn [app].
  eexists _, _. split; [reflexivity|]. split.
  - rewrite request_body__fetchRequest, field_assign_ne by done.
    by rewrite Hq1, Hquery.
  - intros Hsq. rewrite Hsq in Hk. cbn [when] in Hk.
    unfold bind in Hk.
    destruct (_updateQuery VUndefined VUndefined _) as [[[[]|e] s3] t3] eqn:Hup;
      apply _updateQuery_trace in Hup as ->.
    + by injection Hk as _ _ <-.
    + by injection Hk as _ _ <-.
Qed.

(** X19. Constructed with a value and a gate but without a query, the
    instance has no value yet when [_updateQuery] runs: its query is the
    match-all query, and the value waits on the gate's promise. When the
    gate resolves, the value is assigned and a search is sent, but the query
    is not rebuilt: the request still carries the match-all query. *)
Theorem constructor_gated_value_searches_match_all c gate s tr :
  required_present c = true ->
  truthy (prop (config c) "value") = true ->
  truthy (prop (config c) "query") = false ->
  config_beforeValueChange c = Some gate ->
  new_Searchbase c = (Ok tt, s, tr) ->
  let value := prop (config c) "value" in
  field s "value" = VUndefined /\
  prop (own_props (field s "_query")) "query" = match_all /\
  In (PendingValue (gate value) value defaultOptions) (spawned tr) /\
  forall net resolution,
    gate value = Resolved resolution ->
    exists s' tr',
      settle net (PendingValue (gate value) value defaultOptions) s = (Ok tt, s', tr') /\
      field s' "value" = value /\
      field s' "_query" = field s "_query" /\
      exists request,
        spawned tr' = [PendingQuery request defaultOption] /\
        request_body request = JSON_stringify (field s "_query").
Proof.
  intros Hreq Hv Hq Hgate Hrun value.
  destruct (constructor_initial c Hreq)
    as (s0 & Hnew & _ & Hvalue & _ & _ & _ & _ & Hg & _).
  rewrite Hnew, constructor_tail_run in Hrun.
  destruct (with_config_headers_parts c s0) as (Hg1 & _).
  pose proof (with_config_headers_field c s0 "value" ltac:(done)) as Hv1.
  set (s1 := with_config_headers c s0) in *.
  unfold constructor_rest in Hrun. cbn zeta in Hrun.
  rewrite Hv, Hq in Hrun. cbn [when negb] in Hrun.
  assert (setValue (prop (config c) "value") (Some defaultOptions) s1
          = (Ok tt, s1, [Spawn (PendingValue (gate value) value defaultOptions)]))
    as Hset by (by rewrite setValue_run, Hg1, Hg, Hgate).
  change {| opt_triggerQuery := true; opt_stateChanges := true |}
    with defaultOptions in Hrun.
  rewrite (bind_run _ _ _ _ _ _ Hset) in Hrun.
  match type of Hrun with
  | match ?k with _ => _ end = _ => destruct k as [[r2 s2] t2] eqn:Hk
  end.
  injection Hrun as -> -> <-.
  apply bind_Ok_inv in Hk as ([] & s3 & t3 & t4 & Hup & Hsq & ->).
  pose proof Hup as Hup'.
  apply _updateQuery_inv in Hup' as (go & q & Hgo & Hfq & -> & ->).
  assert (q = match_all) as ->.
  { unfold finalQuery in Hfq. cbn [truthy] in Hfq.
    rewrite Hv1, Hvalue in Hfq. cbn in Hfq. by injection Hfq as <-. }
  assert (go !! "query" = None) as Hnoquery.
  { apply eq_None_not_Some. intros H.
    apply (generateQueryOptions_keys _ _ _ Hgo) in H as [?|[?|[?|?]]]; discriminate. }
  assert (field s "value" = VUndefined) as Hsv.
  { assert (keeps "value"
              (when (truthy (prop (config c) "suggestionsQuery"))
                 (setSuggestionsQuery (prop (config c) "query")
                    (Some {| opt_triggerQuery := true; opt_stateChanges := false |}))))
      as Hkeep by (by apply keeps_when, keeps_setSuggestionsQuery).
    rewrite (Hkeep _ _ _ _ Hsq), field_assign_ne by done. by rewrite Hv1. }
  assert (field s "_query" =
          VObj (spread (spread {[ "query" := match_all ]} go) (own_props VUndefined)))
    as Hsq'.
  { assert (keeps "_query"
              (when (truthy (prop (config c) "suggestionsQuery"))
                 (setSuggestionsQuery (prop (config c) "query")
                    (Some {| opt_triggerQuery := true; opt_stateChanges := false |}))))
      as Hkeep by (by apply keeps_when, keeps_setSuggestionsQuery).
    by rewrite (Hkeep _ _ _ _ Hsq), field_assign_eq. }
  split; [exact Hsv|]. split.
  { rewrite Hsq'. cbn [own_props]. unfold prop.
    by rewrite !spread_lookup, lookup_empty, Hnoquery, lookup_singleton_eq. }
  split; [by left|].
  intros net resolution Hres. cbn [settle]. rewrite Hres, setValue_then_resolved.
  rewrite set_property_run. eexists _, _. split; [reflexivity|].
  split; [apply field_assign_eq|]. split; [by apply field_assign_ne|].
  rewrite !spawned_app, spawned_callback_events, spawned_request_events,
    spawned_notification_events. cbn [opt_triggerQuery defaultOptions app].
  eexists. split; [reflexivity|].
  rewrite request_body__fetchRequest. by rewrite field_assign_ne.
Qed.

(** The callback invocations of a trace. *)
Definition calls (tr : list event) : list event :=
  List.filter (fun e => match e with Call _ _ => true | _ => false end) tr.

Lemma calls_app t1 t2 : calls (t1 ++ t2) = calls t1 ++ calls t2.
Proof. apply List.filter_app. Qed.

Lemma calls_next o key prev nxt : calls (next o key prev nxt) = [].
Proof. unfold next. induction (List.filter _ o) as [|sub l IH]; [done|apply IH]. Qed.

(** [uncalled m]: on an instance without callbacks, [m] invokes none and
    installs none. *)
Definition uncalled {A} (m : M A) : Prop :=
  forall s r s' tr,
    callbacks s = no_callbacks -> m s = (r, s', tr) ->
    callbacks s' = no_callbacks /\ calls tr = [].

Lemma uncalled_ret {A} (a : A) : uncalled (ret a).
Proof. by intros s r s' tr Hcb [= _ <- <-]. Qed.

Lemma uncalled_lift {A} (x : result A) : uncalled (lift x).
Proof. by intros s r s' tr Hcb [= _ <- <-]. Qed.

Lemma uncalled_self : uncalled self.
Proof. by intros s r s' tr Hcb [= _ <- <-]. Qed.

Lemma uncalled_assign k (v : Searchbase -> jsval) :
  uncalled (update (fun s => assign s k (v s))).
Proof. by intros s r s' tr Hcb [= _ <- <-]. Qed.

Lemma uncalled_bind {A B} (m : M A) (f : A -> M B) :
  uncalled m -> (forall a, uncalled (f a)) -> uncalled (bind m f).
Proof.
  intros Hm Hf s r s' tr Hcb. unfold bind.
  destruct (m s) as [[[a|e] s1] t1] eqn:Hms.
  - destruct (f a s1) as [[r2 s2] t2] eqn:Hfs. intros [= _ <- <-].
    destruct (Hm _ _ _ _ Hcb Hms) as [Hcb1 Ht1].
    destruct (Hf _ _ _ _ _ Hcb1 Hfs) as [Hcb2 Ht2].
    by rewrite calls_app, Ht1, Ht2.
  - intros [= _ <- <-]. by eapply Hm.
Qed.

Lemma uncalled_when b (m : M unit) : uncalled m -> uncalled (when b m).
Proof. destruct b; [done|intros _; apply uncalled_ret]. Qed.

Lemma uncalled__applyOptions options key prev nxt :
  uncalled (_applyOptions options key prev nxt).
Proof.
  intros s r s' tr Hcb. rewrite _applyOptions_run, Hcb. intros [= _ <- <-].
  split; [done|]. rewrite !calls_app.
  assert (callback_events no_callbacks key prev nxt = []) as ->.
  { unfold callback_events. cbn [no_callbacks onMicStatusChange onValueChange onError
      onSuggestionsError onResults onSuggestions].
    by rewrite !andb_false_r. }
  unfold request_events, notification_events.
  destruct (opt_triggerQuery options), (opt_stateChanges options); cbn [calls List.filter app];
    by rewrite ?calls_next.
Qed.

Lemma uncalled_set_property k v options : uncalled (set_property k v options).
Proof.
  unfold set_property.
  apply uncalled_bind; [apply uncalled_self|intros s0].
  apply uncalled_bind; [apply (uncalled_assign k (fun _ => v))|intros _].
  apply uncalled_bind; [apply uncalled_self|intros s1].
  apply uncalled__applyOptions.
Qed.

Lemma uncalled_setValue value options : uncalled (setValue value options).
Proof.
  unfold setValue.
  apply uncalled_bind; [apply uncalled_self|intros s0].
  destruct (beforeValueChange s0);
    [|unfold performUpdate; apply uncalled_set_property].
  by intros s r s' tr Hcb [= _ <- <-].
Qed.

Lemma uncalled__updateQuery query queryOptions :
  uncalled (_updateQuery query queryOptions).
Proof.
  unfold _updateQuery.
  apply uncalled_bind; [apply uncalled_self|intros s0].
  apply uncalled_bind; [apply uncalled_lift|intros go].
  apply uncalled_bind; [apply uncalled_lift|intros q].
  apply (uncalled_assign "_query" (fun _ => _)).
Qed.

Lemma uncalled__updateSuggestionsQuery query queryOptions :
  uncalled (_updateSuggestionsQuery query queryOptions).
Proof.
  unfold _updateSuggestionsQuery.
  apply uncalled_bind; [apply uncalled_self|intros s0].
  apply uncalled_bind; [apply uncalled_lift|intros go].
  apply uncalled_bind; [apply uncalled_lift|intros q].
  apply (uncalled_assign "_suggestionsQuery" (fun _ => _)).
Qed.

Lemma uncalled_setQuery query options : uncalled (setQuery query options).
Proof.
  unfold setQuery.
  apply uncalled_bind; [apply uncalled_self|intros s0].
  apply uncalled_bind; [|intros _].
  - unfold set_query. destruct (destructure_query query) as [q qo].
    apply uncalled_bind; [apply uncalled__updateQuery|intros _].
    apply uncalled_when. intros s r s' tr Hcb.
    rewrite _syncQueryOptions_default. by intros [= _ <- <-].
  - apply uncalled_bind; [apply uncalled_self|intros s1].
    apply uncalled__applyOptions.
Qed.

Lemma uncalled_setSuggestionsQuery query options :
  uncalled (setSuggestionsQuery query options).
Proof.
  unfold setSuggestionsQuery.
  apply uncalled_bind; [apply uncalled_self|intros s0].
  apply uncalled_bind; [|intros _].
  - unfold set_suggestionsQuery. destruct (destructure_query query) as [q qo].
    apply uncalled__updateSuggestionsQuery.
  - apply uncalled_bind; [apply uncalled_self|intros s1].
    apply uncalled__applyOptions.
Qed.

(** X20. Construction is invisible to the change callbacks: whatever the
    configuration, and although the constructor sets the value with
    [stateChanges] on, [new Searchbase] invokes no callback, because none
    can have been assigned to the instance yet. *)
Theorem constructor_invokes_no_callback c :
  calls (new_Searchbase c).2 = [] /\
  callbacks (new_Searchbase c).1.2 = no_callbacks.
Proof.
  destruct (required_present c) eqn:Hreq.
  - destruct (constructor_initial c Hreq)
      as (s0 & Hnew & _ & _ & _ & _ & _ & _ & _ & Hcb & _).
    rewrite Hnew, constructor_tail_run.
    destruct (with_config_headers_parts c s0) as (_ & Hcb1 & _).
    rewrite Hcb in Hcb1.
    destruct (constructor_rest c (with_config_headers c s0)) as [[r s] tr] eqn:Hrun.
    cbn [fst snd].
    assert (uncalled (constructor_rest c)) as Hun.
    { unfold constructor_rest. cbn zeta.
      apply uncalled_bind; [apply uncalled_when, uncalled_setValue|intros _].
      apply uncalled_bind; [|intros _; apply uncalled_when, uncalled_setSuggestionsQuery].
      destruct (truthy _); [apply uncalled_setQuery|apply uncalled__updateQuery]. }
    destruct (Hun _ _ _ _ Hcb1 Hrun) as [? ?]. by split.
  - destruct (constructor_throws c Hreq) as (message & -> & _). by split.
Qed.

(** ** The query setters *)

(** X21. [setSuggestionsQuery] stores [{query: Q, size: 10, ...options}],
    where the options given with the query win over both; it leaves the
    search query alone. With [triggerQuery] set, the request it starts is
    the search request with that unchanged query: the setter never requests
    suggestions. *)
Theorem setSuggestionsQuery_requests_results queryTobeSet options s s' tr :
  setSuggestionsQuery queryTobeSet (Some options) s = (Ok tt, s', tr) ->
  let given := own_props (destructure_query queryTobeSet).2 in
  exists Q stored,
    finalQuery s (destructure_query queryTobeSet).1 = Ok Q /\
    field s' "_suggestionsQuery" = VObj stored /\
    stored !! "query" = Some Q /\
    stored !! "size" = Some (default (VNum 10) (given !! "size")) /\
    (forall k, k ≠ "query" -> k ≠ "size" -> stored !! k = given !! k) /\
    field s' "_query" = field s "_query" /\
    spawned tr =
      (if opt_triggerQuery options
       then [PendingQuery (_fetchRequest (field s "_query") s') defaultOption]
       else []).
Proof.
  intros Hrun given.
  pose proof (keeps_setSuggestionsQuery "_query" queryTobeSet (Some options)
                ltac:(done) _ _ _ _ Hrun) as Hkeep.
  pose proof Hrun as Hinv.
  apply setSuggestionsQuery_inv in Hinv as (Q & HQ & Hs').
  assert (given !! "query" = None) as Hnoquery.
  { unfold given, destructure_query. cbn [snd own_props]. apply lookup_delete_eq. }
  exists Q. eexists. split; [exact HQ|].
  split; [rewrite Hs'; apply field_assign_eq|].
  split; [fold given; rewrite !spread_lookup, Hnoquery; by simplify_map_eq|].
  split; [fold given; rewrite !spread_lookup;
          destruct (given !! "size"); [done|by simplify_map_eq]|].
  split; [intros k Hq Hsz; fold given; rewrite !spread_lookup;
          destruct (given !! k); [done|by simplify_map_eq]|].
  split; [exact Hkeep|].
  unfold setSuggestionsQuery in Hrun. cbn [default from_option id] in Hrun.
  rewrite bind_self in Hrun.
  apply bind_Ok_inv in Hrun as ([] & s1 & t1 & t2 & Hset & Happly & ->).
  rewrite bind_self, _applyOptions_run in Happly.
  pose proof (f_equal (fun x => x.1.2) Happly) as Hstate. cbn [fst snd] in Hstate.
  apply (f_equal snd) in Happly. cbn [snd] in Happly. subst s1 t2.
  assert (t1 = []) as ->.
  { unfold set_suggestionsQuery in Hset.
    destruct (destructure_query queryTobeSet) as [q qo].
    unfold _updateSuggestionsQuery in Hset. rewrite bind_self in Hset.
    destruct (generateQueryOptions _) as [go|e];
      [rewrite bind_lift_Ok in Hset|by rewrite bind_lift_Throw in Hset].
    destruct (finalQuery s q) as [q'|e];
      [rewrite bind_lift_Ok in Hset|by rewrite bind_lift_Throw in Hset].
    by injection Hset as _ <-. }
  cbn [app]. rewrite !spawned_app, spawned_callback_events, spawned_request_events,
    spawned_notification_events, Hkeep.
  by destruct (opt_triggerQuery options).
Qed.

(** X22. [setQuery] does not bring the instance in line with the options
    that come with the query. The [query] setter calls [_syncQueryOptions]
    without an argument, so nothing is synchronised: a [size] given with the
    query is part of the stored query, while [this.size] and every other
    property of the instance but the query stay as they were. *)
Theorem setQuery_does_not_sync_size given size options s s' tr :
  given !! "size" = Some size ->
  setQuery (VObj given) options s = (Ok tt, s', tr) ->
  prop (own_props (field s' "_query")) "size" = size /\
  forall k, k ≠ "_query" -> field s' k = field s k.
Proof.
  intros Hsize Hrun. split.
  - apply setQuery_effective_query in Hrun
      as (derived & Q & effective & _ & _ & -> & -> & _).
    rewrite field_assign_eq. cbn [own_props]. unfold prop.
    rewrite spread_lookup. unfold destructure_query. cbn [is_undefined js_or truthy snd
      own_props].
    by rewrite lookup_delete_ne, Hsize.
  - intros k Hk. by apply (keeps_setQuery k (VObj given) options ltac:(done) _ _ _ _ Hrun).
Qed.

(** ** Voice search *)

(** The method calls on the recogniser in a trace. The change callbacks
    always receive arguments, a method of the recogniser never does. *)
Definition method_calls (tr : list event) : list string :=
  omap (fun e => match e with Call name [] => Some name | _ => None end) tr.

Lemma method_calls_app t1 t2 :
  method_calls (t1 ++ t2) = method_calls t1 ++ method_calls t2.
Proof. apply omap_app. Qed.

Lemma method_calls_cons name tr :
  method_calls (Call name [] :: tr) = name :: method_calls tr.
Proof. reflexivity. Qed.

Lemma spawned_cons_call name args tr : spawned (Call name args :: tr) = spawned tr.
Proof. reflexivity. Qed.

(** What one apply step adds to a trace. *)
Definition applied (options : Options) (s s' : Searchbase) (key : string)
           (prev nxt : propval) : list event :=
  callback_events (callbacks s) key prev nxt ++
  request_events options s' ++
  notification_events options s key prev nxt.

Lemma method_calls_applied options s s' key prev nxt :
  method_calls (applied options s s' key prev nxt) = [].
Proof.
  unfold applied. rewrite !method_calls_app.
  assert (method_calls (callback_events (callbacks s) key prev nxt) = []) as ->.
  { unfold callback_events. case_conditions; reflexivity. }
  assert (method_calls (request_events options s') = []) as ->.
  { unfold request_events. by destruct (opt_triggerQuery options). }
  unfold notification_events. destruct (opt_stateChanges options); [|done].
  cbn [app method_calls omap]. unfold next.
  induction (List.filter _ (stateChanges s)) as [|sub l IH]; [done|apply IH].
Qed.

Lemma spawned_applied options s s' key prev nxt :
  spawned (applied options s s' key prev nxt) =
  if opt_triggerQuery options
  then [PendingQuery (_fetchRequest (field s' "_query") s') defaultOption] else [].
Proof.
  unfold applied.
  rewrite !spawned_app, spawned_callback_events, spawned_request_events,
    spawned_notification_events.
  by destruct (opt_triggerQuery options).
Qed.

Lemma _setMicStatus_run status options s :
  _setMicStatus status (Some options) s =
  (Ok tt, assign s "_micStatus" status,
   applied options s (assign s "_micStatus" status) "micStatus"
           (PVal (field s "_micStatus")) (PVal status)).
Proof.
  unfold _setMicStatus. cbn [default from_option id].
  rewrite bind_self, bind_update, bind_self, _applyOptions_run, field_assign_eq.
  reflexivity.
Qed.

Lemma call_method_run instance method s :
  hasOwnProperty instance method = false ->
  call_method instance method s = (Ok tt, s, [Call ("_micInstance." +:+ method) []]).
Proof. intros H. unfold call_method. by rewrite H. Qed.

Definition stopped_instance (s : Searchbase) : Searchbase :=
  assign (assign s "_micInstance" VNull) "_micStatus" MIC_STATUS_inactive.

Lemma _stopMic_run s :
  truthy (field s "_micInstance") = true ->
  hasOwnProperty (field s "_micInstance") "stop" = false ->
  _stopMic s =
  (Ok tt, stopped_instance s,
   Call "_micInstance.stop" [] ::
   applied defaultOptions s (stopped_instance s) "micStatus"
           (PVal (field s "_micStatus")) (PVal MIC_STATUS_inactive)).
Proof.
  intros Hlive Hstop. unfold _stopMic. rewrite bind_self, Hlive. cbn [when].
  rewrite (bind_run _ _ _ _ _ _ (call_method_run _ _ _ Hstop)), bind_update.
  change (_setMicStatus MIC_STATUS_inactive None)
    with (_setMicStatus MIC_STATUS_inactive (Some defaultOptions)).
  rewrite _setMicStatus_run, field_assign_ne by done. reflexivity.
Qed.

Lemma _stopMic_idle s :
  truthy (field s "_micInstance") = false -> _stopMic s = (Ok tt, s, []).
Proof. intros Hidle. unfold _stopMic. by rewrite bind_self, Hidle. Qed.

(** The properties of a recogniser that [onMicClick] has set up. *)
Definition recogniser (micOptions : jsval) : gmap string jsval :=
  delete "onstart" (delete "onresult" (delete "onerror"
    (spread (<["interimResults" := VBool true]> (<["continuous" := VBool true]> ∅))
            (own_props micOptions)))).

Lemma recogniser_lookup micOptions k :
  recogniser micOptions !! k =
  if String.eqb k "onstart" || String.eqb k "onresult" || String.eqb k "onerror"
  then None
  else match own_props micOptions !! k with
       | Some v => Some v
       | None => if String.eqb k "continuous" || String.eqb k "interimResults"
                 then Some (VBool true) else None
       end.
Proof.
  unfold recogniser.
  destruct (String.eqb_spec k "onstart") as [->|H1]; [by rewrite lookup_delete_eq|].
  rewrite lookup_delete_ne by done.
  destruct (String.eqb_spec k "onresult") as [->|H2]; [by rewrite lookup_delete_eq|].
  rewrite lookup_delete_ne by done.
  destruct (String.eqb_spec k "onerror") as [->|H3]; [by rewrite lookup_delete_eq|].
  rewrite lookup_delete_ne by done. cbn [orb].
  rewrite spread_lookup. destruct (own_props micOptions !! k); [done|].
  destruct (String.eqb_spec k "continuous") as [->|H4]; [by simplify_map_eq|].
  destruct (String.eqb_spec k "interimResults") as [->|H5]; by simplify_map_eq.
Qed.

Lemma own_props_default micOptions :
  own_props (if is_undefined micOptions then obj [] else micOptions)
  = own_props micOptions.
Proof. by destruct micOptions. Qed.

Lemma assign_assign s k v w : assign (assign s k v) k w = assign s k w.
Proof.
  unfold assign, with_this. cbn [this results suggestions stateChanges transformRequest
    transformResponse beforeValueChange callbacks].
  by rewrite insert_insert_eq.
Qed.

(** The branch of [onMicClick] that creates and starts a recogniser. *)
Lemma onMicClick_create micOptions s :
  hasOwnProperty micOptions "start" = false ->
  (update (fun s => assign s "_micInstance" (obj [])) ;;
   assign_micInstance "continuous" (VBool true) ;;
   assign_micInstance "interimResults" (VBool true) ;;
   update (fun s =>
     assign s "_micInstance"
       (VObj (spread (own_props (field s "_micInstance")) (own_props micOptions)))) ;;
   s <- self ;;
   call_method (field s "_micInstance") "start" ;;
   update (fun s =>
     assign s "_micInstance"
       (VObj (delete "onstart" (delete "onresult" (delete "onerror"
                (own_props (field s "_micInstance"))))))))%M s
  = (Ok tt, assign s "_micInstance" (VObj (recogniser micOptions)),
     [Call "_micInstance.start" []]).
Proof.
  intros Hstart. unfold assign_micInstance.
  rewrite !bind_update, bind_self.
  rewrite !field_assign_eq, !assign_assign. cbn [own_props obj list_to_map foldr].
  assert (hasOwnProperty
            (VObj (spread (<["interimResults" := VBool true]>
                             (<["continuous" := VBool true]> ∅))
                          (own_props micOptions))) "start" = false) as Hfresh.
  { unfold hasOwnProperty in *. cbn [own_props].
    apply bool_decide_eq_false. apply bool_decide_eq_false in Hstart.
    rewrite spread_lookup. rewrite <- eq_None_not_Some in *. rewrite Hstart.
    by simplify_map_eq. }
  rewrite (bind_run _ _ _ _ _ _ (call_method_run _ _ _ Hfresh)).
  unfold update. rewrite field_assign_eq, assign_assign. reflexivity.
Qed.

(** X23. A click without a recogniser creates one and starts it: the
    recogniser is continuous and reports interim results unless
    [micOptions] says otherwise, and every other property of [micOptions]
    is copied to it. The click does not make the mic active, that is left
    to the recogniser's start event; the only request it can start is the
    one of leaving the ACTIVE status. *)
Theorem onMicClick_starts_recogniser micOptions options s :
  micDenied s = false ->
  truthy (field s "_micInstance") = false ->
  hasOwnProperty micOptions "start" = false ->
  exists props s' tr,
    onMicClick true micOptions (Some options) s = (Ok tt, s', tr) /\
    field s' "_micInstance" = VObj props /\
    (forall k v, k ≠ "onstart" -> k ≠ "onresult" -> k ≠ "onerror" ->
                 own_props micOptions !! k = Some v -> props !! k = Some v) /\
    (forall k, own_props micOptions !! k = None ->
               props !! k = if String.eqb k "continuous" || String.eqb k "interimResults"
                            then Some (VBool true) else None) /\
    method_calls tr = ["_micInstance.start"] /\
    micActive s' = false /\
    length (spawned tr) = (if micActive s && opt_triggerQuery options then 1 else 0).
Proof.
  unfold micDenied, micActive. intros Hdenied Hidle Hstart.
  assert (hasOwnProperty (if is_undefined micOptions then obj [] else micOptions) "start"
          = false) as Hstart'.
  { unfold hasOwnProperty in *. by rewrite own_props_default. }
  assert (forall k v, k ≠ "onstart" -> k ≠ "onresult" -> k ≠ "onerror" ->
            own_props micOptions !! k = Some v ->
            recogniser (if is_undefined micOptions then obj [] else micOptions) !! k
            = Some v) as Hcopied.
  { intros k v H1 H2 H3 Hk. rewrite recogniser_lookup, own_props_default, Hk.
    apply String.eqb_neq in H1, H2, H3. by rewrite H1, H2, H3. }
  assert (forall k, own_props micOptions !! k = None ->
            recogniser (if is_undefined micOptions then obj [] else micOptions) !! k
            = if String.eqb k "continuous" || String.eqb k "interimResults"
              then Some (VBool true) else None) as Hstandard.
  { intros k Hk. rewrite recogniser_lookup, own_props_default, Hk.
    destruct (String.eqb_spec k "onstart") as [->|H1]; [done|].
    destruct (String.eqb_spec k "onresult") as [->|H2]; [done|].
    by destruct (String.eqb_spec k "onerror") as [->|H3]. }
  unfold onMicClick. cbn [default from_option id]. cbn zeta.
  rewrite bind_self, Hdenied. cbn [andb negb when].
  destruct (is_string (field s "_micStatus") "ACTIVE") eqn:Hactive.
  - cbn [when]. rewrite (bind_run _ _ _ _ _ _ (_setMicStatus_run _ _ _)), bind_self.
    rewrite field_assign_ne, Hidle by done.
    rewrite onMicClick_create by exact Hstart'.
    eexists _, _, _. split; [reflexivity|].
    split; [apply field_assign_eq|].
    split; [exact Hcopied|]. split; [exact Hstandard|].
    split; [by rewrite method_calls_app, method_calls_applied|].
    split; [by rewrite field_assign_ne, field_assign_eq|].
    rewrite spawned_app, spawned_applied. cbn [andb].
    by destruct (opt_triggerQuery options).
  - cbn [when]. rewrite bind_ret, bind_self, Hidle.
    rewrite onMicClick_create by exact Hstart'.
    eexists _, _, _. split; [reflexivity|].
    split; [apply field_assign_eq|].
    split; [exact Hcopied|]. split; [exact Hstandard|].
    split; [done|].
    split; [by rewrite field_assign_ne, Hactive|done].
Qed.

(** X24. A click while a recogniser exists, on a mic that is not denied,
    does not start anything: it stops that recogniser, forgets it and sets
    the status to INACTIVE.
    [_stopMic] sets the status with the default options, not with those of
    the click, so a search request is started even when the click asked for
    none; a click on an active mic with [triggerQuery] set starts two. *)
Theorem onMicClick_stops_live_recogniser micOptions options s :
  micDenied s = false ->
  truthy (field s "_micInstance") = true ->
  hasOwnProperty (field s "_micInstance") "stop" = false ->
  exists s' tr,
    onMicClick true micOptions (Some options) s = (Ok tt, s', tr) /\
    field s' "_micInstance" = VNull /\
    field s' "_micStatus" = MIC_STATUS_inactive /\
    method_calls tr = ["_micInstance.stop"] /\
    length (spawned tr) = (if micActive s && opt_triggerQuery options then 2 else 1).
Proof.
  unfold micDenied, micActive. intros Hdenied Hlive Hstop.
  unfold onMicClick. cbn [default from_option id]. cbn zeta.
  rewrite bind_self, Hdenied. cbn [andb negb when].
  destruct (is_string (field s "_micStatus") "ACTIVE").
  - cbn [when]. rewrite (bind_run _ _ _ _ _ _ (_setMicStatus_run _ _ _)), bind_self.
    rewrite field_assign_ne, Hlive by done.
    rewrite _stopMic_run by (by rewrite field_assign_ne).
    eexists _, _. split; [reflexivity|].
    split; [unfold stopped_instance; by rewrite field_assign_ne, field_assign_eq|].
    split; [apply field_assign_eq|].
    split.
    + by rewrite method_calls_app, method_calls_cons, !method_calls_applied.
    + rewrite spawned_app, spawned_cons_call, !spawned_applied, length_app.
      cbn [andb opt_triggerQuery defaultOptions].
      by destruct (opt_triggerQuery options).
  - cbn [when]. rewrite bind_ret, bind_self, Hlive.
    rewrite _stopMic_run by done.
    eexists _, _. split; [reflexivity|].
    split; [unfold stopped_instance; by rewrite field_assign_ne, field_assign_eq|].
    split; [apply field_assign_eq|].
    split.
    + by rewrite method_calls_cons, method_calls_applied.
    + by rewrite spawned_cons_call, spawned_applied.
Qed.

Lemma transcript_final results t :
  transcript results = Ok (Some t) -> isFinal results = Ok true /\ t ≠ "".
Proof.
  unfold transcript. destruct (isFinal results) as [[|]|e]; cbn [rbind]; [|done..].
  intros H. split; [done|].
  destruct (get_index results 0) as [first|]; [|done]. cbn [rbind] in H.
  destruct (get_index first 0) as [alternative|]; [|done]. cbn [rbind] in H.
  destruct (truthy alternative); [|done].
  destruct (get alternative "transcript") as [text|]; [|done]. cbn [rbind] in H.
  destruct (truthy text); [|done].
  destruct text as [| | | |raw| | | |]; try done.
  destruct (truthy (VStr (trim raw))) eqn:Htrim; [|done].
  injection H as <-. cbn [truthy] in Htrim.
  intros Heq. by rewrite Heq in Htrim.
Qed.

Lemma transcript_interim results :
  isFinal results = Ok false -> transcript results = Ok None.
Proof. intros H. unfold transcript. by rewrite H. Qed.

(** X25. Results of the recogniser, on an instance without a gate. Interim
    results change nothing. A final result with a transcript that is not
    blank stops and forgets the recogniser, sets the status to INACTIVE and
    then sets the value to the trimmed transcript, which is never empty.
    Both steps run with the default options, so one utterance starts two
    search requests; neither step rebuilds the query, so both carry the
    query as it was. *)
Theorem onresult_final_transcript results t s :
  transcript results = Ok (Some t) ->
  beforeValueChange s = None ->
  truthy (field s "_micInstance") = true ->
  hasOwnProperty (field s "_micInstance") "stop" = false ->
  (exists s' tr,
     onresult results s = (Ok tt, s', tr) /\
     field s' "value" = VStr t /\ t ≠ "" /\
     field s' "_micInstance" = VNull /\
     field s' "_micStatus" = MIC_STATUS_inactive /\
     method_calls tr = ["_micInstance.stop"] /\
     exists first second,
       spawned tr = [PendingQuery first defaultOption;
                     PendingQuery second defaultOption] /\
       request_body first = JSON_stringify (field s "_query") /\
       request_body second = JSON_stringify (field s "_query")) /\
  (forall interim, isFinal interim = Ok false ->
                   onresult interim s = (Ok tt, s, [])).
Proof.
  intros Hspoken Hgate Hlive Hstop. split.
  - destruct (transcript_final _ _ Hspoken) as [Hfinal Hne].
    unfold onresult. rewrite Hfinal, bind_lift_Ok. cbn [when].
    rewrite (bind_run _ _ _ _ _ _ (_stopMic_run _ Hlive Hstop)).
    unfold _handleVoiceResults. rewrite Hspoken, bind_lift_Ok.
    change (setValue (VStr t) None) with (setValue (VStr t) (Some defaultOptions)).
    rewrite setValue_run.
    assert (beforeValueChange (stopped_instance s) = None) as -> by exact Hgate.
    rewrite set_property_run. fold (applied defaultOptions (stopped_instance s)
      (assign (stopped_instance s) "value" (VStr t)) "value"
      (PVal (field (stopped_instance s) "value")) (PVal (VStr t))).
    eexists _, _. split; [reflexivity|].
    split; [apply field_assign_eq|]. split; [exact Hne|].
    split; [unfold stopped_instance;
            by rewrite !field_assign_ne, field_assign_eq by done|].
    split; [unfold stopped_instance;
            by rewrite field_assign_ne, field_assign_eq by done|].
    split.
    { rewrite method_calls_app, method_calls_cons, !method_calls_applied. done. }
    rewrite spawned_app, spawned_cons_call, !spawned_applied.
    cbn [opt_triggerQuery defaultOptions app].
    eexists _, _. split; [reflexivity|]. split.
    + unfold stopped_instance.
      by rewrite request_body__fetchRequest, !field_assign_ne.
    + unfold stopped_instance.
      by rewrite request_body__fetchRequest, !field_assign_ne.
  - intros interim Hinterim. unfold onresult, _handleVoiceResults.
    rewrite Hinterim, bind_lift_Ok. cbn [when]. rewrite bind_ret.
    by rewrite (transcript_interim _ Hinterim), bind_lift_Ok.
Qed.

(** X26. Errors of the recogniser. [no-speech] and [audio-capture] set the
    status to INACTIVE, [not-allowed] sets it to DENIED, any other error
    leaves it; the error is logged. No error stops or forgets the
    recogniser, so the next click stops it rather than starting a new one.
    Once the status is DENIED, no click does anything. *)
Theorem onerror_sets_status_and_keeps_recogniser options e error s :
  get e "error" = Ok error ->
  exists s' tr,
    onerror options e s = (Ok tt, s', tr) /\
    field s' "_micInstance" = field s "_micInstance" /\
    field s' "_micStatus" =
      (if is_string error "no-speech" || is_string error "audio-capture"
       then MIC_STATUS_inactive
       else if is_string error "not-allowed" then MIC_STATUS_denied
       else field s "_micStatus") /\
    method_calls tr = [] /\
    last tr = Some (ConsoleError e) /\
    (is_string error "not-allowed" = true ->
     forall SpeechRecognition micOptions click,
       onMicClick SpeechRecognition micOptions click s' = (Ok tt, s', [])).
Proof.
  intros Herror. unfold onerror. rewrite Herror, bind_lift_Ok.
  destruct (is_string error "no-speech" || is_string error "audio-capture") eqn:Hsoft.
  - rewrite (bind_run _ _ _ _ _ _ (_setMicStatus_run _ _ _)).
    eexists _, _. split; [reflexivity|].
    split; [by apply field_assign_ne|]. split; [apply field_assign_eq|].
    split; [by rewrite method_calls_app, method_calls_applied|].
    split; [apply last_snoc|].
    intros Hdenied. destruct error; try done. cbn [is_string] in *.
    apply String.eqb_eq in Hdenied as ->. done.
  - destruct (is_string error "not-allowed") eqn:Hdenied.
    + rewrite (bind_run _ _ _ _ _ _ (_setMicStatus_run _ _ _)).
      eexists _, _. split; [reflexivity|].
      split; [by apply field_assign_ne|]. split; [apply field_assign_eq|].
      split; [by rewrite method_calls_app, method_calls_applied|].
      split; [apply last_snoc|].
      intros _ SpeechRecognition micOptions click. unfold onMicClick. cbn zeta.
      rewrite bind_self, field_assign_eq. cbn [MIC_STATUS_denied is_string String.eqb].
      by rewrite andb_false_r.
    + rewrite bind_ret. eexists _, _. split; [reflexivity|]. by repeat split.
Qed.

(** ** The life of an instance *)

(** Everything that happens to an instance after its construction: a method
    called by its owner, or a handler run by the host. *)
Inductive action : Type :=
| CallSetter (f : setter) (v : jsval) (options : option Options)
| CallSetResults (data : jsval) (options : option Options)
| CallSetSuggestions (data : jsval) (options : option Options)
| CallTriggerQuery (options : option Options)
| CallTriggerSuggestionsQuery (options : option Options)
| CallSubscribe (fn : nat) (propertiesToSubscribe : option (list string))
| CallUnsubscribe (fn : option nat)
| Settle (net : Network) (p : pending)
| MicClick (SpeechRecognition : bool) (micOptions : jsval) (options : option Options)
| MicStart (options : Options)
| MicResult (results : jsval)
| MicError (options : Options) (e : jsval).

Definition perform (a : action) : M unit :=
  match a with
  | CallSetter f v options => call_setter f v options
  | CallSetResults data options => setResults data options
  | CallSetSuggestions data options => setSuggestions data options
  | CallTriggerQuery options => triggerQuery options
  | CallTriggerSuggestionsQuery options => triggerSuggestionsQuery options
  | CallSubscribe fn ks => subscribeToStateChanges fn ks
  | CallUnsubscribe fn => unsubscribeToStateChanges fn
  | Settle net p => settle net p
  | MicClick SpeechRecognition micOptions options =>
      onMicClick SpeechRecognition micOptions options
  | MicStart options => onstart options
  | MicResult results => onresult results
  | MicError options e => onerror options e
  end.

(** The instance after a sequence of actions. An action that throws leaves
    the instance as it was at the throw. *)
Fixpoint perform_all (l : list action) (s : Searchbase) : Searchbase :=
  match l with
  | [] => s
  | a :: l' => perform_all l' (perform a s).1.2
  end.

Lemma keeps_update k (f : Searchbase -> Searchbase) :
  (forall s, field (f s) k = field s k) -> keeps k (update f).
Proof. intros Hf s r s' tr [= _ <- _]. apply Hf. Qed.

Lemma keeps_setResults k data options : keeps k (setResults data options).
Proof.
  unfold setResults. cbn zeta. apply keeps_when.
  apply keeps_bind; [apply keeps_self|intros s0].
  apply keeps_bind; [by apply keeps_update|intros _].
  apply keeps_bind; [apply keeps_self|intros s1].
  apply keeps__applyOptions.
Qed.

Lemma keeps_setSuggestions k data options : keeps k (setSuggestions data options).
Proof.
  unfold setSuggestions. cbn zeta. apply keeps_when.
  apply keeps_bind; [apply keeps_self|intros s0].
  apply keeps_bind; [by apply keeps_update|intros _].
  apply keeps_bind; [apply keeps_self|intros s1].
  apply keeps__applyOptions.
Qed.

Lemma keeps_triggerQuery k options : keeps k (triggerQuery options).
Proof.
  unfold triggerQuery. cbn zeta.
  apply keeps_bind; [apply keeps_self|intros s0]. apply keeps_emit.
Qed.

Lemma keeps_triggerSuggestionsQuery k options :
  keeps k (triggerSuggestionsQuery options).
Proof.
  unfold triggerSuggestionsQuery. cbn zeta.
  apply keeps_bind; [apply keeps_self|intros s0]. apply keeps_emit.
Qed.

Lemma keeps__fetchRequest_then k net f :
  k ≠ "_searchId" -> keeps k (_fetchRequest_then net f).
Proof.
  intros Hk s r s' tr Hrun.
  destruct (_fetchRequest_then_cases net f s) as (outcome & tr0 & Hcase & _).
  rewrite Hcase in Hrun. injection Hrun as _ <- _.
  by apply settled_instance_frame.
Qed.

Lemma keeps_settle k net p :
  k ≠ "value" -> k ≠ "_searchId" -> k ≠ "error" -> k ≠ "suggestionsError" ->
  keeps k (settle net p).
Proof.
  intros Hv Hid He Hse.
  apply not_eq_sym in Hv, He, Hse.
  destruct p as [gate value options|f options|f options]; cbn [settle].
  - destruct gate; cbn [setValue_then]; [|apply keeps_emit].
    apply keeps_try_catch; [|intros e; apply keeps_emit].
    unfold performUpdate. apply keeps_set_property. exact Hv.
  - unfold triggerQuery_then.
    apply keeps_bind; [by apply keeps__fetchRequest_then|intros [[response|err]|]].
    + apply keeps_try_catch.
      * apply keeps_bind; [by apply keeps_update|intros _].
        apply keeps_bind; [apply keeps_self|intros s1]. apply keeps__applyOptions.
      * intros e. unfold triggerQuery_catch, _setError.
        apply keeps_bind; [apply keeps_set_property; exact He|intros _].
        apply keeps_emit.
    + unfold triggerQuery_catch, _setError.
      apply keeps_bind; [apply keeps_set_property; exact He|intros _].
      apply keeps_emit.
    + apply keeps_ret.
  - unfold triggerSuggestionsQuery_then.
    apply keeps_bind; [by apply keeps__fetchRequest_then|intros [[response|err]|]].
    + apply keeps_try_catch.
      * apply keeps_bind; [by apply keeps_update|intros _].
        apply keeps_bind; [apply keeps_self|intros s1]. apply keeps__applyOptions.
      * intros e. unfold triggerSuggestionsQuery_catch, _setSuggestionsError.
        apply keeps_bind; [apply keeps_set_property; exact Hse|intros _].
        apply keeps_emit.
    + unfold triggerSuggestionsQuery_catch, _setSuggestionsError.
      apply keeps_bind; [apply keeps_set_property; exact Hse|intros _].
      apply keeps_emit.
    + apply keeps_ret.
Qed.

Lemma keeps_call_setter_other k f v options :
  setter_property f ≠ k -> keeps k (call_setter f v options).
Proof.
  intros Hf. destruct f; cbn [call_setter setter_property setter_key] in *.
  - by apply keeps_setHeaders.
  - by apply keeps_setQuery.
  - by apply keeps_setSuggestionsQuery.
  - by apply keeps_set_property.
  - by apply keeps_set_property.
  - by apply keeps_set_property.
  - by apply keeps_set_property.
  - by apply keeps_set_property.
  - by apply keeps_set_property.
  - by apply keeps_set_property.
  - by apply keeps_set_property.
  - by apply keeps_set_property.
  - by apply keeps_setValue.
Qed.

Lemma keeps__setMicStatus k status options :
  k ≠ "_micStatus" -> keeps k (_setMicStatus status options).
Proof.
  intros Hk. unfold _setMicStatus. cbn zeta.
  apply keeps_bind; [apply keeps_self|intros s0].
  apply keeps_bind; [by apply (keeps_assign k "_micStatus" (fun _ => status))|intros _].
  apply keeps_bind; [apply keeps_self|intros s1].
  apply keeps__applyOptions.
Qed.

Lemma keeps_call_method k instance method : keeps k (call_method instance method).
Proof.
  unfold call_method. destruct (hasOwnProperty instance method);
    [apply keeps_lift|apply keeps_emit].
Qed.

Lemma keeps_assign_micInstance k (v : Searchbase -> jsval) :
  k ≠ "_micInstance" -> keeps k (update (fun s => assign s "_micInstance" (v s))).
Proof. intros Hk. by apply keeps_assign. Qed.

Lemma keeps__handleVoiceResults k results :
  k ≠ "value" -> keeps k (_handleVoiceResults results).
Proof.
  intros Hk. unfold _handleVoiceResults.
  apply keeps_bind; [apply keeps_lift|intros [t|]];
    [by apply keeps_setValue|apply keeps_ret].
Qed.

(** [unstopped m]: [m] does not make the status STOPPED. *)
Definition unstopped {A} (m : M A) : Prop :=
  forall s r s' tr, m s = (r, s', tr) -> micStopped s = false -> micStopped s' = false.

Lemma keeps_unstopped {A} (m : M A) : keeps "_micStatus" m -> unstopped m.
Proof.
  intros Hm s r s' tr Hrun. unfold micStopped. by rewrite (Hm _ _ _ _ Hrun).
Qed.

Lemma unstopped_bind {A B} (m : M A) (f : A -> M B) :
  unstopped m -> (forall a, unstopped (f a)) -> unstopped (bind m f).
Proof.
  intros Hm Hf s r s' tr. unfold bind.
  destruct (m s) as [[[a|e] s1] t1] eqn:Hms.
  - destruct (f a s1) as [[r2 s2] t2] eqn:Hfs. intros [= _ <- _] Hs.
    eapply Hf; [exact Hfs|]. by eapply Hm.
  - intros [= _ <- _]. by eapply Hm.
Qed.

Lemma unstopped_when b (m : M unit) : unstopped m -> unstopped (when b m).
Proof. destruct b; [done|intros _; apply keeps_unstopped, keeps_ret]. Qed.

Lemma unstopped__setMicStatus status options :
  is_string status "STOPPED" = false -> unstopped (_setMicStatus status options).
Proof.
  intros Hstatus s r s' tr. unfold _setMicStatus. cbn zeta.
  rewrite bind_self, bind_update, bind_self, _applyOptions_run.
  intros [= _ <- _] _. unfold micStopped. by rewrite field_assign_eq.
Qed.

Lemma unstopped__stopMic : unstopped _stopMic.
Proof.
  unfold _stopMic.
  apply unstopped_bind; [apply keeps_unstopped, keeps_self|intros s0].
  apply unstopped_when.
  apply unstopped_bind; [apply keeps_unstopped, keeps_call_method|intros _].
  apply unstopped_bind;
    [apply keeps_unstopped; by apply (keeps_assign _ _ (fun _ => VNull))|intros _].
  by apply unstopped__setMicStatus.
Qed.

Lemma unstopped_perform a : unstopped (perform a).
Proof.
  destruct a; cbn [perform].
  - apply keeps_unstopped, keeps_call_setter_other. by destruct f.
  - apply keeps_unstopped, keeps_setResults.
  - apply keeps_unstopped, keeps_setSuggestions.
  - apply keeps_unstopped, keeps_triggerQuery.
  - apply keeps_unstopped, keeps_triggerSuggestionsQuery.
  - apply keeps_unstopped. by apply keeps_update.
  - apply keeps_unstopped. by apply keeps_update.
  - by apply keeps_unstopped, keeps_settle.
  - unfold onMicClick. cbn zeta.
    apply unstopped_bind; [apply keeps_unstopped, keeps_self|intros s0].
    apply unstopped_when.
    apply unstopped_bind; [by apply unstopped_when, unstopped__setMicStatus|intros _].
    apply unstopped_bind; [apply keeps_unstopped, keeps_self|intros s1].
    destruct (truthy (field s1 "_micInstance")); [apply unstopped__stopMic|].
    apply keeps_unstopped. unfold assign_micInstance.
    apply keeps_bind; [by apply (keeps_assign_micInstance _ (fun _ => _))|intros _].
    apply keeps_bind; [by apply (keeps_assign_micInstance _ (fun _ => _))|intros _].
    apply keeps_bind; [by apply (keeps_assign_micInstance _ (fun _ => _))|intros _].
    apply keeps_bind; [by apply (keeps_assign_micInstance _ (fun _ => _))|intros _].
    apply keeps_bind; [apply keeps_self|intros s2].
    apply keeps_bind; [apply keeps_call_method|intros _].
    by apply (keeps_assign_micInstance _ (fun _ => _)).
  - unfold onstart. by apply unstopped__setMicStatus.
  - unfold onresult.
    apply unstopped_bind; [apply keeps_unstopped, keeps_lift|intros final].
    apply unstopped_bind; [apply unstopped_when, unstopped__stopMic|intros _].
    by apply keeps_unstopped, keeps__handleVoiceResults.
  - unfold onerror.
    apply unstopped_bind; [apply keeps_unstopped, keeps_lift|intros error].
    apply unstopped_bind; [|intros _; apply keeps_unstopped, keeps_emit].
    destruct (_ || _); [by apply unstopped__setMicStatus|].
    destruct (is_string error "not-allowed");
      [by apply unstopped__setMicStatus|apply keeps_unstopped, keeps_ret].
Qed.

Lemma new_Searchbase_mic c :
  field (new_Searchbase c).1.2 "_micStatus" = VUndefined /\
  field (new_Searchbase c).1.2 "_micInstance" = VUndefined.
Proof.
  destruct (required_present c) eqn:Hreq.
  - destruct (constructor_initial c Hreq)
      as (s0 & Hnew & _ & _ & _ & _ & Hstatus & Hinstance & _).
    rewrite Hnew. destruct (constructor_tail c s0) as [[r s] tr] eqn:Hrun.
    cbn [fst snd]. split.
    + by rewrite (keeps_constructor_tail c "_micStatus" ltac:(done) ltac:(done)
                    ltac:(done) ltac:(done) _ _ _ _ Hrun).
    + by rewrite (keeps_constructor_tail c "_micInstance" ltac:(done) ltac:(done)
                    ltac:(done) ltac:(done) _ _ _ _ Hrun).
  - destruct (constructor_throws c Hreq) as (message & -> & _). by split.
Qed.

(** X27. The status STOPPED is declared but never assigned. A new instance
    has no mic status at all, so none of [micActive], [micStopped],
    [micInactive] and [micDenied] holds for it, and whatever is done to the
    instance afterwards, by calls of its methods or by handlers that the
    host runs, [micStopped] stays false. *)
Theorem micStopped_is_never_true c l :
  let s := (new_Searchbase c).1.2 in
  micStatus s = VUndefined /\
  micActive s = false /\ micStopped s = false /\
  micInactive s = false /\ micDenied s = false /\
  micStopped (perform_all l s) = false.
Proof.
  cbn zeta. destruct (new_Searchbase_mic c) as [Hstatus _].
  unfold micStatus, micActive, micInactive, micDenied.
  assert (micStopped (new_Searchbase c).1.2 = false) as Hnew
    by (unfold micStopped; by rewrite Hstatus).
  rewrite Hstatus. repeat split; try done.
  revert Hnew. generalize ((new_Searchbase c).1.2). induction l as [|a l IH]; [done|].
  intros s Hs. cbn [perform_all]. apply IH.
  destruct (perform a s) as [[r s'] tr] eqn:Hrun. cbn [fst snd].
  by eapply unstopped_perform.
Qed.

(** The arrival of a response: the actions that run the callbacks of a
    request. *)
Definition arrival (a : action) : bool :=
  match a with
  | Settle _ (PendingQuery _ _) | Settle _ (PendingSuggestions _ _) => true
  | _ => false
  end.

Lemma keeps_perform_other k a :
  k ≠ "value" -> k ≠ "error" -> k ≠ "suggestionsError" ->
  k ≠ "_micStatus" -> k ≠ "_micInstance" ->
  (forall f, setter_property f ≠ k) ->
  (arrival a = true -> k ≠ "_searchId") ->
  keeps k (perform a).
Proof.
  intros Hv He Hse Hms Hmi Hf Hid.
  destruct a; cbn [perform].
  - by apply keeps_call_setter_other.
  - apply keeps_setResults.
  - apply keeps_setSuggestions.
  - apply keeps_triggerQuery.
  - apply keeps_triggerSuggestionsQuery.
  - by apply keeps_update.
  - by apply keeps_update.
  - destruct p as [gate value options|request options|request options].
    + cbn [settle]. destruct gate; cbn [setValue_then]; [|apply keeps_emit].
      apply keeps_try_catch; [|intros e; apply keeps_emit].
      unfold performUpdate. apply keeps_set_property. by apply not_eq_sym.
    + apply keeps_settle; [done|by apply Hid|done..].
    + apply keeps_settle; [done|by apply Hid|done..].
  - unfold onMicClick. cbn zeta.
    apply keeps_bind; [apply keeps_self|intros s0].
    apply keeps_when.
    apply keeps_bind; [by apply keeps_when, keeps__setMicStatus|intros _].
    apply keeps_bind; [apply keeps_self|intros s1].
    destruct (truthy (field s1 "_micInstance")).
    + unfold _stopMic.
      apply keeps_bind; [apply keeps_self|intros s2]. apply keeps_when.
      apply keeps_bind; [apply keeps_call_method|intros _].
      apply keeps_bind; [by apply (keeps_assign_micInstance _ (fun _ => _))|intros _].
      by apply keeps__setMicStatus.
    + unfold assign_micInstance.
      apply keeps_bind; [by apply (keeps_assign_micInstance _ (fun _ => _))|intros _].
      apply keeps_bind; [by apply (keeps_assign_micInstance _ (fun _ => _))|intros _].
      apply keeps_bind; [by apply (keeps_assign_micInstance _ (fun _ => _))|intros _].
      apply keeps_bind; [by apply (keeps_assign_micInstance _ (fun _ => _))|intros _].
      apply keeps_bind; [apply keeps_self|intros s2].
      apply keeps_bind; [apply keeps_call_method|intros _].
      by apply (keeps_assign_micInstance _ (fun _ => _)).
  - unfold onstart. by apply keeps__setMicStatus.
  - unfold onresult.
    apply keeps_bind; [apply keeps_lift|intros final].
    apply keeps_bind; [|intros _; by apply keeps__handleVoiceResults].
    apply keeps_when. unfold _stopMic.
    apply keeps_bind; [apply keeps_self|intros s2]. apply keeps_when.
    apply keeps_bind; [apply keeps_call_method|intros _].
    apply keeps_bind; [by apply (keeps_assign_micInstance _ (fun _ => _))|intros _].
    by apply keeps__setMicStatus.
  - unfold onerror.
    apply keeps_bind; [apply keeps_lift|intros error].
    apply keeps_bind; [|intros _; apply keeps_emit].
    destruct (_ || _); [by apply keeps__setMicStatus|].
    destruct (is_string error "not-allowed");
      [by apply keeps__setMicStatus|apply keeps_ret].
Qed.

Definition fixed_properties : list string :=
  ["index"; "url"; "credentials"; "analytics"; "updateOn"; "queryFormat";
   "voiceSearch"; "searchOperators"; "sortOptions"].

Lemma keeps_perform k a :
  In k fixed_properties -> keeps k (perform a).
Proof.
  intros Hk.
  assert (k ≠ "value" /\ k ≠ "_searchId" /\ k ≠ "error" /\ k ≠ "suggestionsError" /\
          k ≠ "_micStatus" /\ k ≠ "_micInstance" /\
          forall f, setter_property f ≠ k) as (Hv & Hid & He & Hse & Hms & Hmi & Hf).
  { cbn in Hk. repeat (destruct Hk as [<-|Hk]; [repeat split; try done; by intros []|]).
    done. }
  by apply keeps_perform_other.
Qed.

(** X28. Nine properties have no setter and are assigned by no method or
    handler: [index], [url], [credentials], [analytics], [updateOn],
    [queryFormat], [voiceSearch], [searchOperators] and [sortOptions] keep
    the values the constructor gave them through every sequence of actions.
    Every request of an instance therefore goes to the same address. *)
Theorem properties_fixed_at_construction l s :
  Forall (fun k => field (perform_all l s) k = field s k) fixed_properties /\
  search_url (perform_all l s) = search_url s.
Proof.
  assert (forall k, In k fixed_properties -> field (perform_all l s) k = field s k)
    as Hfixed.
  { intros k Hk. revert s. induction l as [|a l IH]; [done|]. intros s.
    cbn [perform_all]. rewrite IH.
    destruct (perform a s) as [[r s'] tr] eqn:Hrun. cbn [fst snd].
    by apply (keeps_perform k a Hk _ _ _ _ Hrun). }
  split.
  - apply Forall_forall. intros k Hk. apply Hfixed. by apply list_elem_of_In.
  - unfold search_url. rewrite !Hfixed; [done| |].
    + by left.
    + right. by left.
Qed.

Lemma perform_all_keeps_searchId l :
  Forall (fun a => arrival a = false) l ->
  forall s, field (perform_all l s) "_searchId" = field s "_searchId".
Proof.
  induction 1 as [|a l Ha _ IH]; intros s; [done|].
  cbn [perform_all]. rewrite IH.
  destruct (perform a s) as [[r s'] tr] eqn:Hrun. cbn [fst snd].
  apply (keeps_perform_other "_searchId" a) in Hrun; try done.
  - by intros [].
  - intros Harrival. by rewrite Ha in Harrival.
Qed.

(** X13. The search id is that of the response received last. A response
    with headers sets [_searchId] to its [X-Search-Id], or to [null] without
    one, in the callback of [fetch], whatever its status and body; the
    handlers that run after it for [triggerQuery] and
    [triggerSuggestionsQuery] do not write it. From any state that holds this
    id, through any sequence of method calls, gate settlements and
    recogniser events in which no other response arrives, the id stays, and
    a request built then carries it as [X-Search-Id] when there is one, and
    otherwise only what the standing headers hold under that name. *)
Theorem search_id_reaches_next_request net f options s final res :
  transformedRequest f = Resolved final ->
  fetch net (search_url s) final = Responded res ->
  truthy (res_headers res) = true ->
  let id := js_or (res_search_id res) VNull in
  (exists outcome tr,
     _fetchRequest_then net f s = (Ok (Some outcome), with_search_id s res, tr)) /\
  field (with_search_id s res) "_searchId" = id /\
  field (triggerQuery_then net f options s).1.2 "_searchId" = id /\
  field (triggerSuggestionsQuery_then net f options s).1.2 "_searchId" = id /\
  forall s1 l requestBody,
    field s1 "_searchId" = id ->
    Forall (fun a => arrival a = false) l ->
    field (perform_all l s1) "_searchId" = id /\
    exists hs,
      requestOptions (_fetchRequest requestBody (perform_all l s1)) =
        obj [("method", VStr "POST"); ("body", JSON_stringify requestBody);
             ("headers", VObj hs)] /\
      (truthy (res_search_id res) = true ->
       hs !! "X-Search-Id" = Some (res_search_id res)) /\
      (truthy (res_search_id res) = false ->
       hs !! "X-Search-Id" =
         own_props (field (perform_all l s1) "headers") !! "X-Search-Id").
Proof.
  intros Hreq Hfetch Hh. cbn zeta.
  destruct (_fetchRequest_then_cases net f s) as (outcome & t1 & Hrun & _).
  assert (settled_instance net f s = with_search_id s res) as Hs1.
  { unfold settled_instance. by rewrite Hreq, Hfetch. }
  rewrite Hs1 in Hrun.
  assert (field (with_search_id s res) "_searchId" = js_or (res_search_id res) VNull)
    as Hid.
  { unfold with_search_id. rewrite Hh. apply field_assign_eq. }
  split; [by eexists _, _|]. split; [exact Hid|].
  split.
  { rewrite (triggerQuery_then_run net f options s _ _ _ Hrun).
    destruct outcome; cbn zeta; cbn [fst snd].
    - exact Hid.
    - by rewrite field_assign_ne. }
  split.
  { rewrite (triggerSuggestionsQuery_then_run net f options s _ _ _ Hrun).
    destruct outcome; cbn zeta; cbn [fst snd].
    - exact Hid.
    - by rewrite field_assign_ne. }
  intros s1 l requestBody Hheld Hl.
  pose proof (perform_all_keeps_searchId l Hl s1) as Hkeep.
  rewrite Hheld in Hkeep. split; [exact Hkeep|].
  eexists. split; [reflexivity|]. rewrite Hkeep. unfold js_or.
  split; intros Hsid; rewrite Hsid.
  - rewrite Hsid, spread_lookup. reflexivity.
  - cbn [truthy]. rewrite spread_lookup.
    destruct (truthy (field (perform_all l s1) "value")); [|done].
    by rewrite lookup_singleton_ne.
Qed.

End Host.

(** * Examples *)

(** The host of the examples. None of them converts between numbers and
    strings, reads the serialised body or has credentials to encode, so the
    four functions are the simplest ones of their types. *)
Definition sample_NumberToString (n : float) : string := "NaN".

Definition sample_StringToNumber (s : string) : float := nan.

Definition sample_JSON_stringify (v : jsval) : jsval := v.

Definition sample_btoa (s : string) : string := s.

Definition sample_config : Config :=
  {| config :=
       list_to_map [("index", VStr "good-books-ds");
                    ("url", VStr "https://search.example");
                    ("dataField", VStr "original_title");
                    ("value", VStr "harry")];
     config_transformRequest := None;
     config_transformResponse := None;
     config_beforeValueChange := None |}.

(** [new Searchbase(sample_config)] *)
Definition sample_instance : Searchbase :=
  (new_Searchbase sample_NumberToString sample_StringToNumber
                  sample_JSON_stringify sample_btoa sample_config).1.2.

(** What [defaultQuery] builds for the value and field of [sample_config]. *)
Definition sample_default_query : jsval :=
  obj [("bool",
        obj [("should",
              VArr [obj [("multi_match",
                          obj [("query", VStr "harry");
                               ("fields", VArr [VStr "original_title"]);
                               ("type", VStr "best_fields");
                               ("operator", VStr "or");
                               ("fuzziness", VNum 0)])];
                    obj [("multi_match",
                          obj [("query", VStr "harry");
                               ("fields", VArr [VStr "original_title"]);
                               ("type", VStr "phrase_prefix");
                               ("operator", VStr "or")])]]);
             ("minimum_should_match", VStr "1")])].

Example sample_instance_query :
  field sample_instance "_query" =
    obj [("query", sample_default_query);
         ("size", VNum 10); ("from", VNum 0);
         ("_source", obj [("includes", VArr [VStr "*"]); ("excludes", VArr [])])].
Proof. vm_compute. reflexivity. Qed.

(** The user options of the next examples, and the run of [_updateQuery]
    with them on [sample_instance]. *)
Definition sample_user_options : jsval :=
  obj [("size", VNum 5); ("track_total_hits", VBool true)].

Definition sample_updated : result unit * Searchbase * list event :=
  _updateQuery sample_NumberToString VUndefined sample_user_options sample_instance.

Example sample_updated_query :
  sample_updated.1.1 = Ok tt /\
  field sample_updated.1.2 "_query" =
    obj [("query", sample_default_query);
         ("size", VNum 5); ("from", VNum 0);
         ("_source", obj [("includes", VArr [VStr "*"]); ("excludes", VArr [])]);
         ("track_total_hits", VBool true)].
Proof. split; vm_compute; reflexivity. Qed.

(** C1 on [sample_instance] with [sample_user_options]: the run completes, and
    the shape follows. *)
Lemma _updateQuery_effective_query_witness :
  _updateQuery sample_NumberToString VUndefined sample_user_options sample_instance
    = (Ok tt, sample_updated.1.2, sample_updated.2) /\
  exists derived Q effective,
    generateQueryOptions sample_NumberToString (_updateQuery_options sample_instance)
      = Ok derived /\
    sample_updated.1.2 = assign sample_instance "_query" (VObj effective) /\
    field sample_updated.1.2 "_query" = VObj effective /\
    effective =
      spread (spread {[ "query" := Q ]} derived) (own_props sample_user_options) /\
    (truthy VUndefined = true -> Q = VUndefined) /\
    (truthy VUndefined = false ->
     exists d,
       defaultQuery sample_NumberToString (field sample_instance "value")
                    (defaultQuery_options sample_instance) = Ok d /\
       (d ≠ VNull -> Q = d) /\
       (d = VNull -> Q = match_all)) /\
    (forall k v, own_props sample_user_options !! k = Some v ->
                 effective !! k = Some v) /\
    (forall k, own_props sample_user_options !! k = None -> k ≠ "query" ->
               effective !! k = derived !! k) /\
    (own_props sample_user_options !! "query" = None ->
     effective !! "query" = Some Q).
Proof.
  assert (_updateQuery sample_NumberToString VUndefined sample_user_options
                       sample_instance
          = (Ok tt, sample_updated.1.2, sample_updated.2)) as Hrun
    by (vm_compute; reflexivity).
  split; [exact Hrun|].
  exact (_updateQuery_effective_query sample_NumberToString VUndefined
           sample_user_options sample_instance _ _ Hrun).
Defined.

(** ** A failing response with status 200 *)

Definition sample_error_body : jsval :=
  obj [("error", obj [("reason", VStr "x")])].

Definition sample_response : Response :=
  {| res_self := VHost 1;
     res_status := 200;
     res_headers := VHost 2;
     res_search_id := VStr "session-1";
     res_json := Resolved sample_error_body |}.

Definition sample_network : Network :=
  {| fetch := fun _ _ => Responded sample_response;
     Date_now := VNum 0 |}.

(** [sample_instance] with an [onError] callback and a listener for
    [error]. *)
Definition sample_observed : Searchbase :=
  {| this := this sample_instance;
     results := results sample_instance;
     suggestions := suggestions sample_instance;
     stateChanges := [{| listener := 1; keys := Some ["error"] |}];
     transformRequest := None;
     transformResponse := None;
     beforeValueChange := None;
     callbacks :=
       {| onValueChange := false; onResults := true; onSuggestions := false;
          onError := true; onSuggestionsError := false;
          onMicStatusChange := false |} |}.

Definition sample_request : inflight :=
  _fetchRequest sample_JSON_stringify (field sample_observed "_query") sample_observed.

Example sample_error_run :
  settle sample_NumberToString sample_JSON_stringify sample_network
         (PendingQuery sample_request defaultOption) sample_observed =
    (Ok tt,
     assign (assign sample_observed "_searchId" (VStr "session-1"))
            "error" sample_error_body,
     [Fetch "https://search.example/good-books-ds/_search"
            (requestOptions sample_request);
      Call "onError" [PVal VUndefined];
      ConsoleLog "Property Changed" (VStr "error");
      Notify 1 "error" (PVal VUndefined) (PVal sample_error_body);
      ConsoleError sample_error_body]).
Proof. vm_compute. reflexivity. Qed.

(** C2 on [sample_observed] and [sample_network]: each premise holds, and
    the failure is stored. *)
Lemma triggerQuery_error_body_is_failure_witness :
  transformedRequest sample_request = Resolved (requestOptions sample_request) /\
  fetch sample_network (search_url sample_NumberToString sample_observed)
        (requestOptions sample_request) = Responded sample_response /\
  (res_status sample_response < 400)%Z /\
  res_json sample_response = Resolved sample_error_body /\
  _handleTransformResponse sample_observed sample_error_body
    = Resolved sample_error_body /\
  hasOwnProperty sample_error_body "error" = true /\
  triggerQuery sample_JSON_stringify None sample_observed =
    (Ok tt, sample_observed, [Spawn (PendingQuery sample_request defaultOption)]) /\
  exists tr,
    settle sample_NumberToString sample_JSON_stringify sample_network
           (PendingQuery sample_request defaultOption) sample_observed =
      (Ok tt,
       assign (with_search_id sample_observed sample_response) "error"
              sample_error_body, tr) /\
    field (assign (with_search_id sample_observed sample_response) "error"
                  sample_error_body) "error" = sample_error_body /\
    results (assign (with_search_id sample_observed sample_response) "error"
                    sample_error_body) = results sample_observed /\
    (onError (callbacks sample_observed) = true ->
     In (Call "onError" [PVal (field sample_observed "error")]) tr) /\
    (forall args, ~ In (Call "onResults" args) tr) /\
    In (Fetch (search_url sample_NumberToString sample_observed)
              (requestOptions sample_request)) tr /\
    spawned tr = [].
Proof.
  assert (transformedRequest sample_request
          = Resolved (requestOptions sample_request)) as H1 by reflexivity.
  assert (fetch sample_network (search_url sample_NumberToString sample_observed)
                (requestOptions sample_request) = Responded sample_response) as H2
    by reflexivity.
  assert (res_status sample_response < 400)%Z as H3 by (cbn; lia).
  assert (res_json sample_response = Resolved sample_error_body) as H4
    by reflexivity.
  assert (_handleTransformResponse sample_observed sample_error_body
          = Resolved sample_error_body) as H5 by reflexivity.
  assert (hasOwnProperty sample_error_body "error" = true) as H6
    by (vm_compute; reflexivity).
  repeat (split; [assumption|]).
  exact (triggerQuery_error_body_is_failure sample_NumberToString
           sample_JSON_stringify sample_network sample_observed sample_observed
           None _ _ _ _ H1 H2 H3 H4 H5 H6).
Defined.

(** ** A value gate that rejects *)

Definition sample_gated : Searchbase :=
  {| this := this sample_instance;
     results := results sample_instance;
     suggestions := suggestions sample_instance;
     stateChanges := [{| listener := 1; keys := None |}];
     transformRequest := None;
     transformResponse := None;
     beforeValueChange := Some (fun _ => Rejected (VStr "vetoed"));
     callbacks :=
       {| onValueChange := true; onResults := false; onSuggestions := false;
          onError := false; onSuggestionsError := false;
          onMicStatusChange := false |} |}.

(** C3 on [sample_gated], whose gate rejects every value. *)
Lemma setValue_rejected_gate_is_noop_witness :
  beforeValueChange sample_gated = Some (fun _ => Rejected (VStr "vetoed")) /\
  (fun _ : jsval => Rejected (VStr "vetoed")) (VStr "potter") = Rejected (VStr "vetoed") /\
  setValue sample_JSON_stringify (VStr "potter") None sample_gated =
    (Ok tt, sample_gated,
     [Spawn (PendingValue (Rejected (VStr "vetoed")) (VStr "potter") defaultOptions)]) /\
  forall net s1,
    settle sample_NumberToString sample_JSON_stringify net
           (PendingValue (Rejected (VStr "vetoed")) (VStr "potter") defaultOptions) s1 =
      (Ok tt, s1,
       [ConsoleWarn "beforeValueChange rejected the promise with " (VStr "vetoed")]).
Proof.
  split; [reflexivity|]. split; [reflexivity|].
  exact (setValue_rejected_gate_is_noop sample_NumberToString sample_JSON_stringify
           sample_gated (fun _ => Rejected (VStr "vetoed")) (VStr "potter") None
           (VStr "vetoed") eq_refl eq_refl).
Defined.

(** Without the gate the same call does change the value. *)
Example setValue_without_gate :
  field (setValue sample_JSON_stringify (VStr "potter")
                  (Some {| opt_triggerQuery := false; opt_stateChanges := false |})
                  sample_instance).1.2 "value" = VStr "potter".
Proof. vm_compute. reflexivity. Qed.

(** ** Setting the size under listeners *)

Definition sample_listened : Searchbase :=
  {| this := this sample_instance;
     results := results sample_instance;
     suggestions := suggestions sample_instance;
     stateChanges :=
       subscribe 3 (Some ["value"; "results"])
         (subscribe 2 None (subscribe 1 (Some ["size"]) []));
     transformRequest := None;
     transformResponse := None;
     beforeValueChange := None;
     callbacks := no_callbacks |}.

Example setSize_sample_run :
  setSize sample_JSON_stringify (VNum 20)
          (Some {| opt_triggerQuery := false; opt_stateChanges := true |})
          sample_listened =
    (Ok tt, assign sample_listened "size" (VNum 20),
     [ConsoleLog "Property Changed" (VStr "size");
      Notify 1 "size" (PVal (VNum 10)) (PVal (VNum 20));
      Notify 2 "size" (PVal (VNum 10)) (PVal (VNum 20))]).
Proof. vm_compute. reflexivity. Qed.

(** C5 on [sample_listened]: the listener of [size] and the listener of
    every key are invoked, and nothing is spawned. *)
Lemma setSize_notifies_without_request_witness :
  exists tr,
    setSize sample_JSON_stringify (VNum 20)
            (Some {| opt_triggerQuery := false; opt_stateChanges := true |})
            sample_listened
      = (Ok tt, assign sample_listened "size" (VNum 20), tr) /\
    In (Notify 1 "size" (PVal (field sample_listened "size")) (PVal (VNum 20))) tr /\
    In (Notify 2 "size" (PVal (field sample_listened "size")) (PVal (VNum 20))) tr /\
    spawned tr = [].
Proof.
  destruct (proj1 (setSize_notifies_without_request sample_NumberToString
                     sample_JSON_stringify sample_listened (VNum 20)))
    as (tr & Hrun & _ & Hall & _ & Hspawned & _).
  exists tr. split; [exact Hrun|].
  split; [|split; [|exact Hspawned]].
  - apply (Hall {| listener := 1; keys := Some ["size"] |});
      [left; reflexivity|reflexivity].
  - apply (Hall {| listener := 2; keys := None |});
      [right; left; reflexivity|reflexivity].
Defined.

(** C5, as stated, fails for [setResults] and [setSuggestions]: with
    [triggerQuery] set, [setSize] starts a request while they start none,
    and they do the same whether [triggerQuery] is set or not. *)
Lemma setResults_ignores_triggerQuery :
  length (spawned (setSize sample_JSON_stringify (VNum 20) (Some defaultOptions)
                           sample_listened).2) = 1 /\
  spawned (setResults sample_JSON_stringify (VArr [obj [("_id", VStr "1")]])
                      (Some defaultOptions) sample_listened).2 = [] /\
  spawned (setSuggestions sample_JSON_stringify (VArr [obj [("_id", VStr "1")]])
                          (Some defaultOptions) sample_listened).2 = [] /\
  setResults sample_JSON_stringify (VArr [obj [("_id", VStr "1")]])
             (Some {| opt_triggerQuery := true; opt_stateChanges := true |})
             sample_listened
  = setResults sample_JSON_stringify (VArr [obj [("_id", VStr "1")]])
               (Some {| opt_triggerQuery := false; opt_stateChanges := true |})
               sample_listened /\
  setSuggestions sample_JSON_stringify (VArr [obj [("_id", VStr "1")]])
                 (Some {| opt_triggerQuery := true; opt_stateChanges := true |})
                 sample_listened
  = setSuggestions sample_JSON_stringify (VArr [obj [("_id", VStr "1")]])
                   (Some {| opt_triggerQuery := false; opt_stateChanges := true |})
                   sample_listened.
Proof. repeat split; vm_compute; reflexivity. Qed.

(** ** Sort precedence *)

Definition sample_sort_options : gmap string jsval :=
  list_to_map
    [("sortOptions",
      VArr [obj [("dataField", VStr "year"); ("sortBy", VStr "desc")]]);
     ("sortBy", VStr "asc");
     ("sortByField", VStr "title")].

Example generateQueryOptions_sample :
  generateQueryOptions sample_NumberToString sample_sort_options =
    Ok (list_to_map
          [("sort", VArr [obj [("year", obj [("order", VStr "desc")])]])]) /\
  generateQueryOptions sample_NumberToString (delete "sortOptions" sample_sort_options) =
    Ok (list_to_map
          [("sort", VArr [obj [("title", obj [("order", VStr "asc")])]])]) /\
  generateQueryOptions sample_NumberToString
    (<["sortOptions" := VArr []]> sample_sort_options) =
    Throw (TypeError "Cannot read properties of undefined").
Proof. repeat split; vm_compute; reflexivity. Qed.

(** C7 on [sample_sort_options], with and without its [sortOptions]. *)
Lemma generateQueryOptions_sort_witness :
  (exists go,
     generateQueryOptions sample_NumberToString sample_sort_options = Ok go /\
     go !! "sort" =
       Some (VArr [VObj {[ "year" := obj [("order", VStr "desc")] ]}])) /\
  (exists go,
     generateQueryOptions sample_NumberToString
       (delete "sortOptions" sample_sort_options) = Ok go /\
     go !! "sort" =
       Some (VArr [VObj {[ "title" := obj [("order", VStr "asc")] ]}])).
Proof.
  split.
  - exact (proj1 (generateQueryOptions_sort sample_NumberToString sample_sort_options)
             (obj [("dataField", VStr "year"); ("sortBy", VStr "desc")]) []
             (VStr "year") (VStr "desc") eq_refl eq_refl eq_refl).
  - exact (proj1 (proj2 (generateQueryOptions_sort sample_NumberToString
                           (delete "sortOptions" sample_sort_options)))
             eq_refl eq_refl eq_refl).
Defined.

(** ** Analytics headers *)

Example _fetchRequest_sample_headers :
  requestOptions
    (_fetchRequest sample_JSON_stringify (VStr "body") sample_instance) =
    obj [("method", VStr "POST"); ("body", VStr "body");
         ("headers",
          obj [("Accept", VStr "application/json");
               ("Content-Type", VStr "application/json");
               ("X-Search-Query", VStr "harry")])] /\
  requestOptions
    (_fetchRequest sample_JSON_stringify (VStr "body")
       (assign sample_instance "_searchId" (VStr "session-1"))) =
    obj [("method", VStr "POST"); ("body", VStr "body");
         ("headers",
          obj [("Accept", VStr "application/json");
               ("Content-Type", VStr "application/json");
               ("X-Search-Id", VStr "session-1");
               ("X-Search-Query", VStr "harry")])].
Proof. split; vm_compute; reflexivity. Qed.

(** C9 on [sample_instance] once it has a search id. *)
Lemma _fetchRequest_analytics_headers_witness :
  exists hs,
    requestOptions
      (_fetchRequest sample_JSON_stringify (VStr "body")
         (assign sample_instance "_searchId" (VStr "session-1"))) =
      obj [("method", VStr "POST"); ("body", VStr "body"); ("headers", VObj hs)] /\
    hs !! "X-Search-Id" = Some (VStr "session-1") /\
    hs !! "Accept" = Some (VStr "application/json").
Proof.
  destruct (_fetchRequest_analytics_headers sample_NumberToString
              sample_JSON_stringify (VStr "body")
              (assign sample_instance "_searchId" (VStr "session-1")))
    as (hs & Hreq & Hid & _ & Hother & _).
  exists hs. split; [exact Hreq|]. split.
  - rewrite (proj1 (Hid eq_refl)). vm_compute. reflexivity.
  - rewrite Hother by discriminate. vm_compute. reflexivity.
Defined.

(** ** Required properties *)

(** A required property read as "missing or empty": not given, [null], the
    empty string, or an empty list of fields. *)
Definition missing_or_empty (v : jsval) : bool :=
  match v with
  | VUndefined | VNull => true
  | VStr s => String.eqb s ""
  | VArr [] => true
  | _ => false
  end.

Definition empty_fields_config : Config :=
  {| config :=
       list_to_map [("index", VStr "good-books-ds");
                    ("url", VStr "https://search.example");
                    ("dataField", VArr [])];
     config_transformRequest := None;
     config_transformResponse := None;
     config_beforeValueChange := None |}.

(** C4, as stated, fails for an empty list of fields: it is an empty field
    specification, and the constructor completes with it, on any host. *)
Lemma constructor_accepts_empty_field_list :
  missing_or_empty (prop (config empty_fields_config) "dataField") = true /\
  (forall NumberToString StringToNumber JSON_stringify btoa,
     (new_Searchbase NumberToString StringToNumber JSON_stringify btoa
                     empty_fields_config).1.1 = Ok tt /\
     field (new_Searchbase NumberToString StringToNumber JSON_stringify btoa
                           empty_fields_config).1.2 "dataField" = VArr []).
Proof.
  split; [reflexivity|].
  intros NumberToString StringToNumber JSON_stringify btoa.
  split; vm_compute; reflexivity.
Qed.

Definition no_index_config : Config :=
  {| config :=
       list_to_map [("index", VStr "");
                    ("url", VStr "https://search.example");
                    ("dataField", VStr "title")];
     config_transformRequest := None;
     config_transformResponse := None;
     config_beforeValueChange := None |}.

(** C4, as the code has it, on a configuration with an empty [index] and on
    [sample_config]. *)
Lemma constructor_required_properties_witness :
  required_present no_index_config = false /\
  required_present sample_config = true /\
  new_Searchbase sample_NumberToString sample_StringToNumber sample_JSON_stringify
                 sample_btoa no_index_config
    = (Throw (VError "Please provide a valid index."), blank, []) /\
  field sample_instance "index" = VStr "good-books-ds".
Proof.
  assert (required_present no_index_config = false) as Hno
    by (vm_compute; reflexivity).
  assert (required_present sample_config = true) as Hyes
    by (vm_compute; reflexivity).
  split; [exact Hno|]. split; [exact Hyes|].
  destruct (constructor_required_properties sample_NumberToString
              sample_StringToNumber sample_JSON_stringify sample_btoa
              no_index_config) as [Hthrow _].
  destruct (constructor_required_properties sample_NumberToString
              sample_StringToNumber sample_JSON_stringify sample_btoa
              sample_config) as [_ Hpass].
  split.
  - destruct (Hthrow Hno) as (message & -> & ->). reflexivity.
  - assert (new_Searchbase sample_NumberToString sample_StringToNumber
                            sample_JSON_stringify sample_btoa sample_config
            = (Ok tt, sample_instance,
               (new_Searchbase sample_NumberToString sample_StringToNumber
                               sample_JSON_stringify sample_btoa sample_config).2))
      as Hrun by (vm_compute; reflexivity).
    destruct (Hpass Hyes _ _ _ Hrun) as (-> & _).
    vm_compute. reflexivity.
Defined.

(** ** Size and from *)

(** C8, as stated, fails for the setters: [setSize] leaves [undefined], a
    string or [NaN] in [size] where the constructor's rule would put 10 or
    a number. *)
Lemma setSize_applies_no_coercion :
  (forall JSON_stringify,
     field (setSize JSON_stringify VUndefined None sample_instance).1.2 "size"
       = VUndefined) /\
  (forall JSON_stringify,
     field (setSize JSON_stringify (VStr "20") None sample_instance).1.2 "size"
       = VStr "20") /\
  (forall JSON_stringify,
     field (setSize JSON_stringify (VNum nan) None sample_instance).1.2 "size"
       = VNum nan) /\
  typeof VUndefined ≠ "number" /\
  typeof (VStr "20") ≠ "number" /\
  truthy (VNum nan) = false /\
  VNum nan ≠ VNum 10.
Proof.
  repeat split; try (intros JSON_stringify; vm_compute; reflexivity);
    discriminate.
Qed.

(** C8, as the code has it, on [sample_config], which gives neither [size]
    nor [from]. *)
Lemma size_and_from_are_coerced_at_construction_witness :
  field sample_instance "size" = VNum 10 /\
  field sample_instance "from" = VNum 0 /\
  typeof (field sample_instance "size") = "number" /\
  typeof (field sample_instance "from") = "number".
Proof.
  destruct (proj1 (size_and_from_are_coerced_at_construction
                     sample_NumberToString sample_StringToNumber
                     sample_JSON_stringify sample_btoa)
                  sample_config sample_instance
                  (new_Searchbase sample_NumberToString sample_StringToNumber
                                  sample_JSON_stringify sample_btoa sample_config).2)
    as (_ & _ & Hs & Hf & _ & _ & Hsize & Hfrom).
  { vm_compute. reflexivity. }
  split; [apply Hsize; vm_compute; reflexivity|].
  split; [apply Hfrom; vm_compute; reflexivity|].
  split; [exact Hs|exact Hf].
Defined.

(** ** The suggestions query of the constructor *)

Definition suggesting_config : Config :=
  {| config :=
       list_to_map [("index", VStr "good-books-ds");
                    ("url", VStr "https://search.example");
                    ("dataField", VStr "original_title");
                    ("value", VStr "harry");
                    ("suggestionsQuery",
                     obj [("query", obj [("match_none", obj [])]);
                          ("size", VNum 3)])];
     config_transformRequest := None;
     config_transformResponse := None;
     config_beforeValueChange := None |}.

Definition suggesting_run : result unit * Searchbase * list event :=
  new_Searchbase sample_NumberToString sample_StringToNumber sample_JSON_stringify
                 sample_btoa suggesting_config.

Example suggesting_instance_query :
  suggesting_run.1.1 = Ok tt /\
  field suggesting_run.1.2 "_suggestionsQuery" =
    obj [("query", sample_default_query); ("size", VNum 10)].
Proof. split; vm_compute; reflexivity. Qed.

(** C10 on [suggesting_config], which has a [suggestionsQuery] and no
    [query]. *)
Lemma constructor_suggestionsQuery_from_query_witness :
  truthy (prop (config suggesting_config) "suggestionsQuery") = true /\
  suggesting_run = (Ok tt, suggesting_run.1.2, suggesting_run.2) /\
  truthy (prop (config suggesting_config) "query") = false /\
  exists d,
    defaultQuery sample_NumberToString (field suggesting_run.1.2 "value")
                 (defaultQuery_options suggesting_run.1.2) = Ok d /\
    field suggesting_run.1.2 "_suggestionsQuery" =
      obj [("query", js_or d match_all); ("size", VNum 10)].
Proof.
  assert (truthy (prop (config suggesting_config) "suggestionsQuery") = true) as Hsq
    by (vm_compute; reflexivity).
  assert (suggesting_run = (Ok tt, suggesting_run.1.2, suggesting_run.2)) as Hrun
    by (vm_compute; reflexivity).
  assert (truthy (prop (config suggesting_config) "query") = false) as Hq
    by (vm_compute; reflexivity).
  split; [exact Hsq|]. split; [exact Hrun|]. split; [exact Hq|].
  destruct (proj2 (constructor_suggestionsQuery_from_query sample_NumberToString
                     sample_StringToNumber sample_JSON_stringify sample_btoa
                     suggesting_config Hsq) _ _ Hrun)
    as (Q & _ & _ & Hdefault).
  exact (Hdefault Hq).
Defined.

(** * Examples of the further properties *)

(** ** The query builders *)

Definition sample_weighted_fields : list jsval :=
  [VStr "original_title";
   obj [("field", VStr "authors"); ("weight", VStr "2")]].

Definition sample_and_options : gmap string jsval :=
  {[ "queryFormat" := VStr "and" ]}.

Definition sample_and_clauses : jsval :=
  VArr [obj [("multi_match",
              obj [("query", VStr "harry");
                   ("fields", VArr [VStr "original_title"; VStr "authors^2"]);
                   ("type", VStr "cross_fields"); ("operator", VStr "and")])];
        obj [("multi_match",
              obj [("query", VStr "harry");
                   ("fields", VArr [VStr "original_title"; VStr "authors^2"]);
                   ("type", VStr "phrase_prefix"); ("operator", VStr "and")])]].

Definition sample_nested_options : gmap string jsval :=
  list_to_map [("dataField", VStr "original_title"); ("nestedField", VStr "books")].

Definition sample_generated_options : gmap string jsval :=
  list_to_map
    [("size", VNum 10); ("from", VNum 0);
     ("_source", obj [("includes", VArr [VStr "*"]); ("excludes", VArr [])])].

(** X2 on a plain and a weighted field, with the format [and]. *)
Lemma shouldQuery_result_witness :
  (shouldQuery sample_NumberToString (VStr "harry") sample_weighted_fields
     (VObj sample_and_options) =
   Ok sample_and_clauses) /\
  (∃ fields : list jsval,
       length fields = length sample_weighted_fields
       ∧ (∀ (i : nat) (s : string),
            sample_weighted_fields !! i = Some (VStr s) → fields !! i = Some (VStr s))
         ∧ (∀ (i : nat) (d : gmap string jsval),
              sample_weighted_fields !! i = Some (VObj d)
              → fields !! i =
                Some
                  (VStr
                     (ToString sample_NumberToString (prop d "field") +:+
                      (if truthy (prop d "weight")
                       then "^" +:+ ToString sample_NumberToString (prop d "weight")
                       else ""))))
           ∧ (truthy (prop sample_and_options "searchOperators") = true
              → sample_and_clauses =
                obj
                  [("query", VStr "harry"); ("fields", VArr fields);
                   ("default_operator", prop sample_and_options "queryFormat")])
             ∧ (truthy (prop sample_and_options "searchOperators") = false
                → ∃ (first second : jsval) (operator type : string),
                    sample_and_clauses = VArr [first; second]
                    ∧ is_multi_match first (VStr "harry") (VArr fields) type operator
                      ∧ is_multi_match second (VStr "harry") 
                          (VArr fields) "phrase_prefix" operator
                        ∧ (prop sample_and_options "queryFormat" = VStr "and"
                           → operator = "and" ∧ type = "cross_fields")
                          ∧ (prop sample_and_options "queryFormat" ≠ VStr "and"
                             → operator = "or" ∧ type = "best_fields"))).
Proof.
  assert (shouldQuery sample_NumberToString (VStr "harry") sample_weighted_fields
            (VObj sample_and_options) =
          Ok sample_and_clauses) as H1
    by (vm_compute; reflexivity).
  split; [exact H1|].
  exact (shouldQuery_result sample_NumberToString (VStr "harry")
           sample_weighted_fields sample_and_options sample_and_clauses H1).
Defined.

(** X3 on the value and the options of [sample_instance]. *)
Lemma defaultQuery_null_iff_no_value_witness :
  (defaultQuery sample_NumberToString (VStr "harry")
     (defaultQuery_options sample_instance) =
   Ok sample_default_query) /\
  ((sample_default_query = VNull ↔ truthy (VStr "harry") = false)
     ∧ (truthy (VStr "harry") = true
        → ∃ m : gmap string jsval, sample_default_query = VObj m)).
Proof.
  assert (defaultQuery sample_NumberToString (VStr "harry")
            (defaultQuery_options sample_instance) =
          Ok sample_default_query) as H1
    by (vm_compute; reflexivity).
  split; [exact H1|].
  exact (defaultQuery_null_iff_no_value sample_NumberToString (VStr "harry")
           (defaultQuery_options sample_instance) sample_default_query H1).
Defined.

(** X4 on a field nested under [books]. *)
Lemma defaultQuery_nested_wraps_witness :
  (truthy (VStr "harry") = true) /\
  (truthy (prop sample_nested_options "nestedField") = true) /\
  (defaultQuery sample_NumberToString (VStr "harry") (VObj sample_nested_options) =
       match
         defaultQuery sample_NumberToString (VStr "harry")
           (VObj (delete "nestedField" sample_nested_options))
       with
       | Ok q =>
           Ok
             (obj
                [("nested",
                  obj
                    [("path", prop sample_nested_options "nestedField"); ("query", q)])])
       | Throw e => Throw e
       end).
Proof.
  assert (truthy (VStr "harry") = true) as H1
    by (reflexivity).
  assert (truthy (prop sample_nested_options "nestedField") = true) as H2
    by (vm_compute; reflexivity).
  split; [exact H1|].
  split; [exact H2|].
  exact (defaultQuery_nested_wraps sample_NumberToString (VStr "harry")
           sample_nested_options H1 H2).
Defined.

(** X6 on the options that [_updateQuery] reads from [sample_instance]. *)
Lemma generateQueryOptions_projection_witness :
  (generateQueryOptions sample_NumberToString (_updateQuery_options sample_instance) =
   Ok sample_generated_options) /\
  (sample_generated_options !! "size" =
     (if is_undefined (prop (_updateQuery_options sample_instance) "size")
      then None
      else Some (prop (_updateQuery_options sample_instance) "size"))
     ∧ sample_generated_options !! "from" =
       (if is_undefined (prop (_updateQuery_options sample_instance) "from")
        then None
        else Some (prop (_updateQuery_options sample_instance) "from"))
       ∧ (truthy (prop (_updateQuery_options sample_instance) "includeFields")
          || truthy (prop (_updateQuery_options sample_instance) "excludeFields") =
          false → sample_generated_options !! "_source" = None)
         ∧ (truthy (prop (_updateQuery_options sample_instance) "includeFields")
            || truthy (prop (_updateQuery_options sample_instance) "excludeFields") =
            true
            → ∃ source : gmap string jsval,
                sample_generated_options !! "_source" = Some (VObj source)
                ∧ source !! "includes" =
                  (if
                    truthy
                      (prop (_updateQuery_options sample_instance) "includeFields")
                   then
                    Some (prop (_updateQuery_options sample_instance) "includeFields")
                   else None)
                  ∧ source !! "excludes" =
                    (if
                      truthy
                        (prop (_updateQuery_options sample_instance) "excludeFields")
                     then
                      Some
                        (prop (_updateQuery_options sample_instance) "excludeFields")
                     else None)
                    ∧ ∀ k : string,
                        is_Some (source !! k) → k = "includes" ∨ k = "excludes")
           ∧ ∀ k : string,
               is_Some (sample_generated_options !! k)
               → k = "size" ∨ k = "from" ∨ k = "_source" ∨ k = "sort").
Proof.
  assert (generateQueryOptions sample_NumberToString (_updateQuery_options sample_instance) =
          Ok sample_generated_options) as H1
    by (vm_compute; reflexivity).
  split; [exact H1|].
  exact (generateQueryOptions_projection sample_NumberToString
           (_updateQuery_options sample_instance) sample_generated_options H1).
Defined.

(** ** Responses *)

Definition sample_failing_response : Response :=
  {| res_self := VHost 3;
     res_status := 503;
     res_headers := VHost 4;
     res_search_id := VNull;
     res_json := Resolved VNull |}.

Definition sample_failing_network : Network :=
  {| fetch := fun _ _ => Responded sample_failing_response;
     Date_now := VNum 0 |}.

Definition sample_hits : jsval :=
  obj [("hits", obj [("hits", VArr [obj [("_id", VStr "1")]])])].

Definition sample_hits_response : Response :=
  {| res_self := VHost 5;
     res_status := 200;
     res_headers := VHost 6;
     res_search_id := VStr "session-2";
     res_json := Resolved sample_hits |}.

Definition sample_hits_network : Network :=
  {| fetch := fun _ _ => Responded sample_hits_response;
     Date_now := VNum 0 |}.

(** [sample_observed] with a [transformRequest] hook that refuses every
    request. *)
Definition sample_refusing : hook := fun _ => Rejected (VStr "offline").

Definition sample_refused : Searchbase :=
  {| this := this sample_observed;
     results := results sample_observed;
     suggestions := suggestions sample_observed;
     stateChanges := stateChanges sample_observed;
     transformRequest := Some sample_refusing;
     transformResponse := None;
     beforeValueChange := None;
     callbacks := callbacks sample_observed |}.

(** X10 on a response with status 503. *)
Lemma failing_status_rejects_with_response_witness :
  (transformedRequest sample_request = Resolved (requestOptions sample_request)) /\
  (fetch sample_failing_network (search_url sample_NumberToString sample_observed)
       (requestOptions sample_request) =
     Responded sample_failing_response) /\
  ((400 ≤ res_status sample_failing_response)%Z) /\
  (_fetchRequest_then sample_NumberToString sample_failing_network sample_request
           sample_observed =
         (Ok (Some (Rejected (res_self sample_failing_response))),
          with_search_id sample_observed sample_failing_response,
          [Fetch (search_url sample_NumberToString sample_observed)
             (requestOptions sample_request)])
         ∧ (truthy (res_headers sample_failing_response) = true
            → field (with_search_id sample_observed sample_failing_response)
                "_searchId" =
              js_or (res_search_id sample_failing_response) VNull)
           ∧ ∃ tr : list event,
               triggerQuery_then sample_NumberToString sample_JSON_stringify
                 sample_failing_network sample_request defaultOption sample_observed =
               (Ok (),
                assign (with_search_id sample_observed sample_failing_response) "error"
                  (res_self sample_failing_response),
                tr)
               ∧ fetches tr =
                 [(search_url sample_NumberToString sample_observed,
                   requestOptions sample_request)]).
Proof.
  assert (transformedRequest sample_request = Resolved (requestOptions sample_request)) as H1
    by (reflexivity).
  assert (fetch sample_failing_network (search_url sample_NumberToString sample_observed)
              (requestOptions sample_request) =
            Responded sample_failing_response) as H2
    by (reflexivity).
  assert ((400 ≤ res_status sample_failing_response)%Z) as H3
    by (cbn; lia).
  split; [exact H1|].
  split; [exact H2|].
  split; [exact H3|].
  exact (failing_status_rejects_with_response sample_NumberToString
           sample_JSON_stringify sample_failing_network sample_request defaultOption
           sample_observed (requestOptions sample_request) sample_failing_response H1
           H2 H3).
Defined.

(** X11 on [sample_refused], whose hook refuses every request. *)
Lemma rejected_transformRequest_makes_no_call_witness :
  (transformRequest sample_refused = Some sample_refusing) /\
  (sample_refusing
       (requestOptions
          (_fetchRequest sample_JSON_stringify (field sample_refused "_query")
             sample_refused)) =
     Rejected (VStr "offline")) /\
  (∀ s1 : Searchbase,
         _fetchRequest_then sample_NumberToString sample_network
           (_fetchRequest sample_JSON_stringify (field sample_refused "_query")
              sample_refused)
           s1 =
         (Ok (Some (Rejected (VStr "offline"))), s1,
          [ConsoleWarn "transformRequest rejected the promise with " (VStr "offline")])
         ∧ ∃ tr : list event,
             triggerQuery_then sample_NumberToString sample_JSON_stringify
               sample_network
               (_fetchRequest sample_JSON_stringify (field sample_refused "_query")
                  sample_refused)
               defaultOption s1 =
             (Ok (), assign s1 "error" (VStr "offline"), tr)
             ∧ fetches tr = []
               ∧ results (assign s1 "error" (VStr "offline")) = results s1).
Proof.
  assert (transformRequest sample_refused = Some sample_refusing) as H1
    by (reflexivity).
  assert (sample_refusing
              (requestOptions
                 (_fetchRequest sample_JSON_stringify (field sample_refused "_query")
                    sample_refused)) =
            Rejected (VStr "offline")) as H2
    by (reflexivity).
  split; [exact H1|].
  split; [exact H2|].
  exact (rejected_transformRequest_makes_no_call sample_NumberToString
           sample_JSON_stringify sample_network (field sample_refused "_query")
           defaultOption sample_refused sample_refusing (VStr "offline") H1 H2).
Defined.

(** X12 on a response with one hit. *)
Lemma successful_response_becomes_results_witness :
  (transformedRequest sample_request = Resolved (requestOptions sample_request)) /\
  (fetch sample_hits_network (search_url sample_NumberToString sample_observed)
       (requestOptions sample_request) =
     Responded sample_hits_response) /\
  ((res_status sample_hits_response < 400)%Z) /\
  (res_json sample_hits_response = Resolved sample_hits) /\
  (_handleTransformResponse sample_observed sample_hits = Resolved sample_hits) /\
  (truthy sample_hits && hasOwnProperty sample_hits "error" = false) /\
  (∃ (response : gmap string jsval) (tr : list event),
                 _fetchRequest_then sample_NumberToString sample_hits_network
                   sample_request sample_observed =
                 (Ok (Some (Resolved (VObj response))),
                  with_search_id sample_observed sample_hits_response,
                  [Fetch (search_url sample_NumberToString sample_observed)
                     (requestOptions sample_request)])
                 ∧ response !! "_timestamp" = Some (Date_now sample_hits_network)
                   ∧ response !! "_headers" = Some (res_headers sample_hits_response)
                     ∧ (∀ k : string,
                          k ≠ "_timestamp"
                          → k ≠ "_headers" → response !! k = own_props sample_hits !! k)
                       ∧ triggerQuery_then sample_NumberToString sample_JSON_stringify
                           sample_hits_network sample_request defaultOption
                           sample_observed =
                         (Ok (),
                          with_results
                            (with_search_id sample_observed sample_hits_response)
                            (setRaw (results sample_observed) (VObj response)),
                          tr)
                         ∧ raw (setRaw (results sample_observed) (VObj response)) =
                           VObj response
                           ∧ field
                               (with_results
                                  (with_search_id sample_observed sample_hits_response)
                                  (setRaw (results sample_observed) (VObj response)))
                               "error" =
                             field sample_observed "error").
Proof.
  assert (transformedRequest sample_request = Resolved (requestOptions sample_request)) as H1
    by (reflexivity).
  assert (fetch sample_hits_network (search_url sample_NumberToString sample_observed)
              (requestOptions sample_request) =
            Responded sample_hits_response) as H2
    by (reflexivity).
  assert ((res_status sample_hits_response < 400)%Z) as H3
    by (cbn; lia).
  assert (res_json sample_hits_response = Resolved sample_hits) as H4
    by (reflexivity).
  assert (_handleTransformResponse sample_observed sample_hits = Resolved sample_hits) as H5
    by (reflexivity).
  assert (truthy sample_hits && hasOwnProperty sample_hits "error" = false) as H6
    by (vm_compute; reflexivity).
  split; [exact H1|].
  split; [exact H2|].
  split; [exact H3|].
  split; [exact H4|].
  split; [exact H5|].
  split; [exact H6|].
  exact (successful_response_becomes_results sample_NumberToString
           sample_JSON_stringify sample_hits_network sample_request defaultOption
           sample_observed (requestOptions sample_request) sample_hits_response
           sample_hits sample_hits H1 H2 H3 H4 H5 H6).
Defined.

(** ** Setters and the gate *)

Definition sample_resized : result unit * Searchbase * list event :=
  call_setter sample_NumberToString sample_JSON_stringify Size (VNum 20)
              (Some defaultOptions) sample_instance.

(** [sample_gated] with a gate that lets every value through. *)
Definition sample_allowing_gate : hook := fun _ => Resolved (VStr "anything").

Definition sample_allowing : Searchbase :=
  {| this := this sample_gated;
     results := results sample_gated;
     suggestions := suggestions sample_gated;
     stateChanges := stateChanges sample_gated;
     transformRequest := None;
     transformResponse := None;
     beforeValueChange := Some sample_allowing_gate;
     callbacks := callbacks sample_gated |}.

Definition sample_suggestions_query : jsval :=
  obj [("query", match_all); ("size", VNum 3); ("track_total_hits", VBool true)].

Definition sample_suggested : result unit * Searchbase * list event :=
  setSuggestionsQuery sample_NumberToString sample_JSON_stringify
                      sample_suggestions_query (Some defaultOptions) sample_instance.

Definition sample_sized_query : gmap string jsval :=
  list_to_map [("query", match_all); ("size", VNum 5)].

Definition sample_requeried : result unit * Searchbase * list event :=
  setQuery sample_NumberToString sample_JSON_stringify (VObj sample_sized_query)
           None sample_instance.

(** X15 on [setSize(20)] with the default options. *)
Lemma setters_leave_query_stale_witness :
  (Size ≠ Query) /\
  (beforeValueChange sample_instance = None) /\
  (call_setter sample_NumberToString sample_JSON_stringify Size 
         (VNum 20) (Some defaultOptions) sample_instance =
       (Ok (), sample_resized.1.2, sample_resized.2)) /\
  (field sample_resized.1.2 "_query" = field sample_instance "_query"
         ∧ ∀ p : pending,
             In p (spawned sample_resized.2)
             → ∃ request : inflight,
                 p = PendingQuery request defaultOption
                 ∧ request_body request =
                   sample_JSON_stringify (field sample_instance "_query")).
Proof.
  assert (Size ≠ Query) as H1
    by (discriminate).
  assert (beforeValueChange sample_instance = None) as H2
    by (reflexivity).
  assert (call_setter sample_NumberToString sample_JSON_stringify Size 
                (VNum 20) (Some defaultOptions) sample_instance =
              (Ok (), sample_resized.1.2, sample_resized.2)) as H3
    by (vm_compute; reflexivity).
  split; [exact H1|].
  split; [exact H2|].
  split; [exact H3|].
  exact (setters_leave_query_stale sample_NumberToString sample_JSON_stringify Size
           (VNum 20) defaultOptions sample_instance sample_resized.1.2
           sample_resized.2 H1 H2 H3).
Defined.

(** X16 on [sample_allowing]. *)
Lemma resolved_gate_applies_original_value_witness :
  (beforeValueChange sample_allowing = Some sample_allowing_gate) /\
  (sample_allowing_gate (VStr "potter") = Resolved (VStr "anything")) /\
  (setValue sample_JSON_stringify (VStr "potter") (Some defaultOptions)
         sample_allowing =
       (Ok (), sample_allowing,
        [Spawn
           (PendingValue (Resolved (VStr "anything")) (VStr "potter") defaultOptions)])
       ∧ settle sample_NumberToString sample_JSON_stringify sample_network
           (PendingValue (Resolved (VStr "anything")) (VStr "potter") defaultOptions)
           sample_allowing =
         set_property sample_JSON_stringify "value" (VStr "potter")
           (Some defaultOptions) sample_allowing
         ∧ ∃ tr : list event,
             settle sample_NumberToString sample_JSON_stringify sample_network
               (PendingValue (Resolved (VStr "anything")) (VStr "potter")
                  defaultOptions)
               sample_allowing =
             (Ok (), assign sample_allowing "value" (VStr "potter"), tr)
             ∧ field (assign sample_allowing "value" (VStr "potter")) "value" =
               VStr "potter").
Proof.
  assert (beforeValueChange sample_allowing = Some sample_allowing_gate) as H1
    by (reflexivity).
  assert (sample_allowing_gate (VStr "potter") = Resolved (VStr "anything")) as H2
    by (reflexivity).
  split; [exact H1|].
  split; [exact H2|].
  exact (resolved_gate_applies_original_value sample_NumberToString
           sample_JSON_stringify sample_network sample_allowing_gate (VStr "anything")
           (VStr "potter") defaultOptions sample_allowing H1 H2).
Defined.

(** X21 on a suggestions query with a size and one more option. *)
Lemma setSuggestionsQuery_requests_results_witness :
  (setSuggestionsQuery sample_NumberToString sample_JSON_stringify
     sample_suggestions_query (Some defaultOptions) sample_instance =
   (Ok (), sample_suggested.1.2, sample_suggested.2)) /\
  (let given := own_props (destructure_query sample_suggestions_query).2 in
     ∃ (Q : jsval) (stored : gmap string jsval),
       finalQuery sample_NumberToString sample_instance
         (destructure_query sample_suggestions_query).1 =
       Ok Q
       ∧ field sample_suggested.1.2 "_suggestionsQuery" = VObj stored
         ∧ stored !! "query" = Some Q
           ∧ stored !! "size" = Some (default (VNum 10) (given !! "size"))
             ∧ (∀ k : string, k ≠ "query" → k ≠ "size" → stored !! k = given !! k)
               ∧ field sample_suggested.1.2 "_query" = field sample_instance "_query"
                 ∧ spawned sample_suggested.2 =
                   (if opt_triggerQuery defaultOptions
                    then
                     [PendingQuery
                        (_fetchRequest sample_JSON_stringify
                           (field sample_instance "_query") sample_suggested.1.2)
                        defaultOption]
                    else [])).
Proof.
  assert (setSuggestionsQuery sample_NumberToString sample_JSON_stringify
            sample_suggestions_query (Some defaultOptions) sample_instance =
          (Ok (), sample_suggested.1.2, sample_suggested.2)) as H1
    by (vm_compute; reflexivity).
  split; [exact H1|].
  exact (setSuggestionsQuery_requests_results sample_NumberToString
           sample_JSON_stringify sample_suggestions_query defaultOptions
           sample_instance sample_suggested.1.2 sample_suggested.2 H1).
Defined.

(** X22 on a query that comes with the size 5. *)
Lemma setQuery_does_not_sync_size_witness :
  (sample_sized_query !! "size" = Some (VNum 5)) /\
  (setQuery sample_NumberToString sample_JSON_stringify (VObj sample_sized_query)
       None sample_instance =
     (Ok (), sample_requeried.1.2, sample_requeried.2)) /\
  (prop (own_props (field sample_requeried.1.2 "_query")) "size" = VNum 5
       ∧ ∀ k : string,
           k ≠ "_query" → field sample_requeried.1.2 k = field sample_instance k).
Proof.
  assert (sample_sized_query !! "size" = Some (VNum 5)) as H1
    by (vm_compute; reflexivity).
  assert (setQuery sample_NumberToString sample_JSON_stringify (VObj sample_sized_query)
              None sample_instance =
            (Ok (), sample_requeried.1.2, sample_requeried.2)) as H2
    by (vm_compute; reflexivity).
  split; [exact H1|].
  split; [exact H2|].
  exact (setQuery_does_not_sync_size sample_NumberToString sample_JSON_stringify
           sample_sized_query (VNum 5) None sample_instance sample_requeried.1.2
           sample_requeried.2 H1 H2).
Defined.

(** ** Construction *)

Definition sample_construction : result unit * Searchbase * list event :=
  new_Searchbase sample_NumberToString sample_StringToNumber
                 sample_JSON_stringify sample_btoa sample_config.

Definition sample_secured_config : Config :=
  {| config :=
       list_to_map [("index", VStr "good-books-ds");
                    ("url", VStr "https://search.example");
                    ("dataField", VStr "original_title");
                    ("credentials", VStr "reader:secret");
                    ("headers", obj [("Accept", VStr "application/x-ndjson");
                                     ("X-Search-Client", VStr "Demo")])];
     config_transformRequest := None;
     config_transformResponse := None;
     config_beforeValueChange := None |}.

Definition sample_secured : result unit * Searchbase * list event :=
  new_Searchbase sample_NumberToString sample_StringToNumber
                 sample_JSON_stringify sample_btoa sample_secured_config.

Example sample_secured_headers :
  field sample_secured.1.2 "headers" =
    obj [("Accept", VStr "application/x-ndjson");
         ("Content-Type", VStr "application/json");
         ("Authorization", VStr "Basic reader:secret");
         ("X-Search-Client", VStr "Demo")].
Proof. vm_compute. reflexivity. Qed.

(** [sample_config] with a gate in front of the value. *)
Definition sample_gated_config : Config :=
  {| config := config sample_config;
     config_transformRequest := None;
     config_transformResponse := None;
     config_beforeValueChange := Some sample_allowing_gate |}.

Definition sample_gated_construction : result unit * Searchbase * list event :=
  new_Searchbase sample_NumberToString sample_StringToNumber
                 sample_JSON_stringify sample_btoa sample_gated_config.

(** X17 on a configuration with credentials and two headers, one of them [Accept]. *)
Lemma constructor_headers_witness :
  (required_present sample_secured_config = true) /\
  (new_Searchbase sample_NumberToString sample_StringToNumber sample_JSON_stringify
       sample_btoa sample_secured_config =
     (sample_secured.1.1, sample_secured.1.2, sample_secured.2)) /\
  (∃ hs : gmap string jsval,
         field sample_secured.1.2 "headers" = VObj hs
         ∧ (∀ (k : string) (v : jsval),
              own_props (js_or (prop (config sample_secured_config) "headers") VNull)
              !! k = Some v → hs !! k = Some v)
           ∧ ∀ k : string,
               own_props (js_or (prop (config sample_secured_config) "headers") VNull)
               !! k = None
               → hs !! k =
                 (if (k =? "Accept") || (k =? "Content-Type")
                  then Some (VStr "application/json")
                  else
                   if
                    (k =? "Authorization") &&
                    truthy (prop (config sample_secured_config) "credentials")
                   then
                    Some
                      (VStr
                         ("Basic " +:+
                          sample_btoa
                            (ToString sample_NumberToString
                               (prop (config sample_secured_config) "credentials"))))
                   else None)).
Proof.
  assert (required_present sample_secured_config = true) as H1
    by (vm_compute; reflexivity).
  assert (new_Searchbase sample_NumberToString sample_StringToNumber sample_JSON_stringify
              sample_btoa sample_secured_config =
            (sample_secured.1.1, sample_secured.1.2, sample_secured.2)) as H2
    by (vm_compute; reflexivity).
  split; [exact H1|].
  split; [exact H2|].
  exact (constructor_headers sample_NumberToString sample_StringToNumber
           sample_JSON_stringify sample_btoa sample_secured_config sample_secured.1.1
           sample_secured.1.2 sample_secured.2 H1 H2).
Defined.

(** X18 on [sample_config], which has a value and neither a query nor a gate. *)
Lemma constructor_first_request_has_no_query_witness :
  (required_present sample_config = true) /\
  (truthy (prop (config sample_config) "value") = true) /\
  (truthy (prop (config sample_config) "query") = false) /\
  (config_beforeValueChange sample_config = None) /\
  (new_Searchbase sample_NumberToString sample_StringToNumber
             sample_JSON_stringify sample_btoa sample_config =
           (sample_construction.1.1, sample_construction.1.2, sample_construction.2)) /\
  (∃ (request : inflight) (rest : list pending),
               spawned sample_construction.2 =
               PendingQuery request defaultOption :: rest
               ∧ request_body request = sample_JSON_stringify VUndefined
                 ∧ (truthy (prop (config sample_config) "suggestionsQuery") = false
                    → rest = [])).
Proof.
  assert (required_present sample_config = true) as H1
    by (vm_compute; reflexivity).
  assert (truthy (prop (config sample_config) "value") = true) as H2
    by (vm_compute; reflexivity).
  assert (truthy (prop (config sample_config) "query") = false) as H3
    by (vm_compute; reflexivity).
  assert (config_beforeValueChange sample_config = None) as H4
    by (reflexivity).
  assert (new_Searchbase sample_NumberToString sample_StringToNumber
                    sample_JSON_stringify sample_btoa sample_config =
                  (sample_construction.1.1, sample_construction.1.2, sample_construction.2)) as H5
    by (vm_compute; reflexivity).
  split; [exact H1|].
  split; [exact H2|].
  split; [exact H3|].
  split; [exact H4|].
  split; [exact H5|].
  exact (constructor_first_request_has_no_query sample_NumberToString
           sample_StringToNumber sample_JSON_stringify sample_btoa sample_config
           sample_construction.1.1 sample_construction.1.2 sample_construction.2 H1 H2
           H3 H4 H5).
Defined.

(** X19 on [sample_gated_config]. *)
Lemma constructor_gated_value_searches_match_all_witness :
  (required_present sample_gated_config = true) /\
  (truthy (prop (config sample_gated_config) "value") = true) /\
  (truthy (prop (config sample_gated_config) "query") = false) /\
  (config_beforeValueChange sample_gated_config = Some sample_allowing_gate) /\
  (new_Searchbase sample_NumberToString sample_StringToNumber
             sample_JSON_stringify sample_btoa sample_gated_config =
           (Ok (), sample_gated_construction.1.2, sample_gated_construction.2)) /\
  (let value := prop (config sample_gated_config) "value" in
             field sample_gated_construction.1.2 "value" = VUndefined
             ∧ prop (own_props (field sample_gated_construction.1.2 "_query")) "query" =
               match_all
               ∧ In (PendingValue (sample_allowing_gate value) value defaultOptions)
                   (spawned sample_gated_construction.2)
                 ∧ ∀ (net : Network) (resolution : jsval),
                     sample_allowing_gate value = Resolved resolution
                     → ∃ (s' : Searchbase) (tr' : list event),
                         settle sample_NumberToString sample_JSON_stringify net
                           (PendingValue (sample_allowing_gate value) value
                              defaultOptions)
                           sample_gated_construction.1.2 =
                         (Ok (), s', tr')
                         ∧ field s' "value" = value
                           ∧ field s' "_query" =
                             field sample_gated_construction.1.2 "_query"
                             ∧ ∃ request : inflight,
                                 spawned tr' = [PendingQuery request defaultOption]
                                 ∧ request_body request =
                                   sample_JSON_stringify
                                     (field sample_gated_construction.1.2 "_query")).
Proof.
  assert (required_present sample_gated_config = true) as H1
    by (vm_compute; reflexivity).
  assert (truthy (prop (config sample_gated_config) "value") = true) as H2
    by (vm_compute; reflexivity).
  assert (truthy (prop (config sample_gated_config) "query") = false) as H3
    by (vm_compute; reflexivity).
  assert (config_beforeValueChange sample_gated_config = Some sample_allowing_gate) as H4
    by (reflexivity).
  assert (new_Searchbase sample_NumberToString sample_StringToNumber
                    sample_JSON_stringify sample_btoa sample_gated_config =
                  (Ok (), sample_gated_construction.1.2, sample_gated_construction.2)) as H5
    by (vm_compute; reflexivity).
  split; [exact H1|].
  split; [exact H2|].
  split; [exact H3|].
  split; [exact H4|].
  split; [exact H5|].
  exact (constructor_gated_value_searches_match_all sample_NumberToString
           sample_StringToNumber sample_JSON_stringify sample_btoa sample_gated_config
           sample_allowing_gate sample_gated_construction.1.2
           sample_gated_construction.2 H1 H2 H3 H4 H5).
Defined.

(** ** Voice search *)

(** The transcripts of the examples have no blanks around them. *)
Definition sample_trim (s : string) : string := s.

Definition sample_mic_options : jsval := obj [("lang", VStr "en-US")].

(** [sample_instance] after a click on the mic, and after the recogniser
    has reported its start. *)
Definition sample_clicked : Searchbase :=
  (onMicClick sample_JSON_stringify true sample_mic_options None sample_instance).1.2.

Definition sample_listening : Searchbase :=
  (onstart sample_JSON_stringify defaultOptions sample_clicked).1.2.

Example sample_listening_mic :
  micActive sample_clicked = false /\
  micActive sample_listening = true /\
  micInstance sample_listening =
    obj [("continuous", VBool true); ("interimResults", VBool true);
         ("lang", VStr "en-US")].
Proof. repeat split; vm_compute; reflexivity. Qed.

Definition sample_utterance : jsval :=
  VArr [obj [("isFinal", VBool true);
             ("0", obj [("transcript", VStr "harry potter")])]].

Definition sample_denial : jsval := obj [("error", VStr "not-allowed")].

(** X23 on the first click on the mic of [sample_instance]. *)
Lemma onMicClick_starts_recogniser_witness :
  (micDenied sample_instance = false) /\
  (truthy (field sample_instance "_micInstance") = false) /\
  (hasOwnProperty sample_mic_options "start" = false) /\
  (∃ (props : gmap string jsval) (s' : Searchbase) (tr : list event),
           onMicClick sample_JSON_stringify true sample_mic_options
             (Some defaultOptions) sample_instance =
           (Ok (), s', tr)
           ∧ field s' "_micInstance" = VObj props
             ∧ (∀ (k : string) (v : jsval),
                  k ≠ "onstart"
                  → k ≠ "onresult"
                    → k ≠ "onerror"
                      → own_props sample_mic_options !! k = Some v
                        → props !! k = Some v)
               ∧ (∀ k : string,
                    own_props sample_mic_options !! k = None
                    → props !! k =
                      (if (k =? "continuous") || (k =? "interimResults")
                       then Some (VBool true)
                       else None))
                 ∧ method_calls tr = ["_micInstance.start"]
                   ∧ micActive s' = false
                     ∧ length (spawned tr) =
                       (if micActive sample_instance && opt_triggerQuery defaultOptions
                        then 1
                        else 0)).
Proof.
  assert (micDenied sample_instance = false) as H1
    by (vm_compute; reflexivity).
  assert (truthy (field sample_instance "_micInstance") = false) as H2
    by (vm_compute; reflexivity).
  assert (hasOwnProperty sample_mic_options "start" = false) as H3
    by (vm_compute; reflexivity).
  split; [exact H1|].
  split; [exact H2|].
  split; [exact H3|].
  exact (onMicClick_starts_recogniser sample_JSON_stringify sample_mic_options
           defaultOptions sample_instance H1 H2 H3).
Defined.

(** X24 on a click while [sample_listening] listens. *)
Lemma onMicClick_stops_live_recogniser_witness :
  (micDenied sample_listening = false) /\
  (truthy (field sample_listening "_micInstance") = true) /\
  (hasOwnProperty (field sample_listening "_micInstance") "stop" = false) /\
  (∃ (s' : Searchbase) (tr : list event),
           onMicClick sample_JSON_stringify true VUndefined 
             (Some silent_options) sample_listening =
           (Ok (), s', tr)
           ∧ field s' "_micInstance" = VNull
             ∧ field s' "_micStatus" = MIC_STATUS_inactive
               ∧ method_calls tr = ["_micInstance.stop"]
                 ∧ length (spawned tr) =
                   (if micActive sample_listening && opt_triggerQuery silent_options
                    then 2
                    else 1)).
Proof.
  assert (micDenied sample_listening = false) as H1
    by (vm_compute; reflexivity).
  assert (truthy (field sample_listening "_micInstance") = true) as H2
    by (vm_compute; reflexivity).
  assert (hasOwnProperty (field sample_listening "_micInstance") "stop" = false) as H3
    by (vm_compute; reflexivity).
  split; [exact H1|].
  split; [exact H2|].
  split; [exact H3|].
  exact (onMicClick_stops_live_recogniser sample_JSON_stringify VUndefined
           silent_options sample_listening H1 H2 H3).
Defined.

(** X25 on a final result of [sample_listening]. *)
Lemma onresult_final_transcript_witness :
  (transcript sample_trim sample_utterance = Ok (Some "harry potter")) /\
  (beforeValueChange sample_listening = None) /\
  (truthy (field sample_listening "_micInstance") = true) /\
  (hasOwnProperty (field sample_listening "_micInstance") "stop" = false) /\
  ((∃ (s' : Searchbase) (tr : list event),
              onresult sample_JSON_stringify sample_trim sample_utterance
                sample_listening =
              (Ok (), s', tr)
              ∧ field s' "value" = VStr "harry potter"
                ∧ "harry potter" ≠ ""
                  ∧ field s' "_micInstance" = VNull
                    ∧ field s' "_micStatus" = MIC_STATUS_inactive
                      ∧ method_calls tr = ["_micInstance.stop"]
                        ∧ ∃ first second : inflight,
                            spawned tr =
                            [PendingQuery first defaultOption;
                             PendingQuery second defaultOption]
                            ∧ request_body first =
                              sample_JSON_stringify (field sample_listening "_query")
                              ∧ request_body second =
                                sample_JSON_stringify (field sample_listening "_query"))
           ∧ ∀ interim : jsval,
               isFinal interim = Ok false
               → onresult sample_JSON_stringify sample_trim interim sample_listening =
                 (Ok (), sample_listening, [])).
Proof.
  assert (transcript sample_trim sample_utterance = Ok (Some "harry potter")) as H1
    by (vm_compute; reflexivity).
  assert (beforeValueChange sample_listening = None) as H2
    by (reflexivity).
  assert (truthy (field sample_listening "_micInstance") = true) as H3
    by (vm_compute; reflexivity).
  assert (hasOwnProperty (field sample_listening "_micInstance") "stop" = false) as H4
    by (vm_compute; reflexivity).
  split; [exact H1|].
  split; [exact H2|].
  split; [exact H3|].
  split; [exact H4|].
  exact (onresult_final_transcript sample_JSON_stringify sample_trim sample_utterance
           "harry potter" sample_listening H1 H2 H3 H4).
Defined.

(** X26 on a refusal of the microphone. *)
Lemma onerror_sets_status_and_keeps_recogniser_witness :
  (get sample_denial "error" = Ok (VStr "not-allowed")) /\
  (∃ (s' : Searchbase) (tr : list event),
       onerror sample_JSON_stringify defaultOptions sample_denial sample_listening =
       (Ok (), s', tr)
       ∧ field s' "_micInstance" = field sample_listening "_micInstance"
         ∧ field s' "_micStatus" =
           (if
             is_string (VStr "not-allowed") "no-speech"
             || is_string (VStr "not-allowed") "audio-capture"
            then MIC_STATUS_inactive
            else
             if is_string (VStr "not-allowed") "not-allowed"
             then MIC_STATUS_denied
             else field sample_listening "_micStatus")
           ∧ method_calls tr = []
             ∧ last tr = Some (ConsoleError sample_denial)
               ∧ (is_string (VStr "not-allowed") "not-allowed" = true
                  → ∀ (SpeechRecognition : bool) (micOptions : jsval) 
                      (click : option Options),
                      onMicClick sample_JSON_stringify SpeechRecognition micOptions
                        click s' =
                      (Ok (), s', []))).
Proof.
  assert (get sample_denial "error" = Ok (VStr "not-allowed")) as H1
    by (vm_compute; reflexivity).
  split; [exact H1|].
  exact (onerror_sets_status_and_keeps_recogniser sample_JSON_stringify defaultOptions
           sample_denial (VStr "not-allowed") sample_listening H1).
Defined.

(** ** The search id *)

(** What happens to [sample_observed] between a response and the next
    request: a setter with a request of its own, a click on the mic and new
    headers. *)
Definition sample_interleaved : list action :=
  [CallSetter Size (VNum 20) None;
   MicClick true sample_mic_options None;
   CallSetter Headers (obj [("X-Search-Client", VStr "Demo")]) None].

Example sample_search_id_is_sent :
  forallb (fun a => negb (arrival a)) sample_interleaved = true /\
  prop (own_props
          (prop (own_props
                   (requestOptions
                      (_fetchRequest sample_JSON_stringify match_all
                         (perform_all sample_NumberToString sample_JSON_stringify
                            sample_trim sample_interleaved
                            (with_search_id sample_observed sample_response)))))
                "headers"))
       "X-Search-Id" = VStr "session-1".
Proof. split; vm_compute; reflexivity. Qed.

(** X13 on the response of [sample_network], which names the session [session-1]. *)
Lemma search_id_reaches_next_request_witness :
  (transformedRequest sample_request = Resolved (requestOptions sample_request)) /\
  (fetch sample_network (search_url sample_NumberToString sample_observed)
       (requestOptions sample_request) =
     Responded sample_response) /\
  (truthy (res_headers sample_response) = true) /\
  (let id := js_or (res_search_id sample_response) VNull in
         (∃ (outcome : settled) (tr : list event),
            _fetchRequest_then sample_NumberToString sample_network sample_request
              sample_observed =
            (Ok (Some outcome), with_search_id sample_observed sample_response, tr))
         ∧ field (with_search_id sample_observed sample_response) "_searchId" = id
           ∧ field
               (triggerQuery_then sample_NumberToString sample_JSON_stringify
                  sample_network sample_request defaultOption sample_observed).1.2
               "_searchId" =
             id
             ∧ field
                 (triggerSuggestionsQuery_then sample_NumberToString
                    sample_JSON_stringify sample_network sample_request defaultOption
                    sample_observed).1.2
                 "_searchId" =
               id
               ∧ ∀ (s1 : Searchbase) (l : list action) (requestBody : jsval),
                   field s1 "_searchId" = id
                   → Forall (λ a : action, arrival a = false) l
                     → field
                         (perform_all sample_NumberToString sample_JSON_stringify
                            sample_trim l s1)
                         "_searchId" =
                       id
                       ∧ ∃ hs : gmap string jsval,
                           requestOptions
                             (_fetchRequest sample_JSON_stringify requestBody
                                (perform_all sample_NumberToString
                                   sample_JSON_stringify sample_trim l s1)) =
                           obj
                             [("method", VStr "POST");
                              ("body", sample_JSON_stringify requestBody);
                              ("headers", VObj hs)]
                           ∧ (truthy (res_search_id sample_response) = true
                              → hs !! "X-Search-Id" =
                                Some (res_search_id sample_response))
                             ∧ (truthy (res_search_id sample_response) = false
                                → hs !! "X-Search-Id" =
                                  own_props
                                    (field
                                       (perform_all sample_NumberToString
                                          sample_JSON_stringify sample_trim l s1)
                                       "headers")
                                  !! "X-Search-Id")).
Proof.
  assert (transformedRequest sample_request = Resolved (requestOptions sample_request)) as H1
    by (reflexivity).
  assert (fetch sample_network (search_url sample_NumberToString sample_observed)
              (requestOptions sample_request) =
            Responded sample_response) as H2
    by (reflexivity).
  assert (truthy (res_headers sample_response) = true) as H3
    by (reflexivity).
  split; [exact H1|].
  split; [exact H2|].
  split; [exact H3|].
  exact (search_id_reaches_next_request sample_NumberToString sample_JSON_stringify
           sample_trim sample_network sample_request defaultOption sample_observed
           (requestOptions sample_request) sample_response H1 H2 H3).
Defined.
